(** * PaddleFlow job control plane: repository and orchestrator

    A shallow embedding of
    - [pkg/apiserver/models/job.go] (the job repository on top of gorm), and
    - the job controller ([CreateSingleJob], [CreateJob], [checkPriority],
      [DeleteJob], [StopJob], [getRuntimeByQueue]),
    followed by the properties of the specification that concern them.

    Conventions.  A Go [error] result is an [option error] ([None] is [nil]);
    a Go [(T, error)] result is a pair when [T] is a value type, and a sum
    [T + error] when [T] is a pointer or an interface that is [nil] exactly
    when the error is not.  Package-level state (the database
    handle, the loggers, the clock) is the [World] threaded by the monad [M].
    Collaborators that live outside the two source files (queue and cluster
    directory, runtime registry, validation, id generation, the YAML and JSON
    libraries, injected database faults) are the fields of [Env]. *)

From Stdlib Require Import ZArith String Ascii List Bool Lia.
From stdpp Require Import base gmap strings list.
Import ListNotations.

Local Open Scope string_scope.
Local Open Scope list_scope.
Local Open Scope Z_scope.

(** ** Go values shared by all packages *)

(** [error] values.  [fmt.Errorf] keeps its format string and arguments apart,
    so no rendering of [%v] has to be invented for errors built elsewhere. *)
Inductive error : Type :=
| ErrRecordNotFound                                   (* gorm.ErrRecordNotFound *)
| JobIDNotFoundError (jobID : string)                 (* errors.JobIDNotFoundError *)
| InvalidJobPriorityError (priority : string)         (* errors.InvalidJobPriorityError *)
| Errorf (format : string) (args : list fmtarg)       (* fmt.Errorf *)
| errors_New (text : string)                          (* an error made by a collaborator *)
with fmtarg : Type :=
| FStr (s : string)
| FErr (e : option error).

(** [err == gorm.ErrRecordNotFound] *)
Definition is_ErrRecordNotFound (e : error) : bool :=
  match e with ErrRecordNotFound => true | _ => false end.

(** [sql.NullTime] and [gorm.DeletedAt]; instants are counted in [Z], the zero
    [time.Time] being [0]. *)
Module NullTime.
Record t : Type := mk { Time : Z; Valid : bool }.
Definition zero : t := mk 0 false.
Definition isZero (x : t) : bool := (Time x =? 0) && negb (Valid x).
End NullTime.

(** ** Package [schema] *)

Module schema.

(** [type JobStatus string] *)
Definition JobStatus : Type := string.

(** Modelled from the spec: the status constants of package [schema] are not
    among the source files; section 4.4 names the states
    Init, Pending, Running, Succeeded, Failed, Terminated. *)
Definition StatusJobInit : JobStatus := "init".
Definition StatusJobPending : JobStatus := "pending".
Definition StatusJobRunning : JobStatus := "running".
Definition StatusJobSucceeded : JobStatus := "succeeded".
Definition StatusJobFailed : JobStatus := "failed".
Definition StatusJobTerminated : JobStatus := "terminated".

(** Modelled from the spec: [schema.IsImmutableJobStatus] is not among the
    source files; section 4.4: Succeeded, Failed and Terminated are terminal
    (immutable). *)
Definition IsImmutableJobStatus (status : JobStatus) : bool :=
  String.eqb status StatusJobSucceeded
  || String.eqb status StatusJobFailed
  || String.eqb status StatusJobTerminated.

(** Modelled from the spec: the priority labels (section 4.1: low, normal,
    high), the job-kind marker, its environment key and the prefix of
    generated job ids are constants of package [schema], not among the source
    files. *)
Definition EnvJobLowPriority : string := "low".
Definition EnvJobNormalPriority : string := "normal".
Definition EnvJobHighPriority : string := "high".
Definition EnvJobType : string := "PF_JOB_TYPE".
Definition EnvJobQueueName : string := "PF_JOB_QUEUE_NAME".
Definition TypePodJob : string := "single".
Definition JobPrefix : string := "job".

Module Flavour.
Record t : Type := mk { Name : string }.
End Flavour.

Module FileSystem.
Record t : Type := mk { Name : string }.
End FileSystem.

(** Modelled from the spec: the declaration of [schema.Conf] and its methods
    are not among the source files.  The fields named by the composite literal
    of [CreateSingleJob] and by [patchSingleEnvs] are as the source names
    them.  Section 3 gives the capability contract (get/set name, env, queue
    ID, cluster ID, namespace, flavour, priority, user name, filesystem);
    every capability without a source-visible field is a field of its own
    here ([UserName], [QueueID], [ClusterID], [Namespace], [FS]), and each
    setter writes exactly its field. *)
Module Conf.
Record t : Type := mk {
  Name : string;
  Env : gmap string string;
  Command : string;
  Image : string;
  Port : Z;
  Flavour : Flavour.t;
  FileSystem : FileSystem.t;
  ExtraFileSystem : list FileSystem.t;
  Priority : string;
  Labels : gmap string string;
  Annotations : gmap string string;
  Args : list string;
  UserName : string;
  QueueID : string;
  ClusterID : string;
  Namespace : string;
  FS : string
}.

Definition zero : t :=
  mk "" ∅ "" "" 0 (Flavour.mk "") (FileSystem.mk "") [] "" ∅ ∅ [] "" "" "" "" "".

(** [reflect.Value.IsZero] on the struct; a nil map and an empty map are
    the same [gmap]. *)
Definition isZero (c : t) : bool :=
  String.eqb (Name c) "" && bool_decide (Env c = ∅) && String.eqb (Command c) ""
  && String.eqb (Image c) "" && (Port c =? 0)
  && String.eqb (Flavour.Name (Flavour c)) ""
  && String.eqb (FileSystem.Name (FileSystem c)) ""
  && (match ExtraFileSystem c with [] => true | _ => false end)
  && String.eqb (Priority c) "" && bool_decide (Labels c = ∅)
  && bool_decide (Annotations c = ∅)
  && (match Args c with [] => true | _ => false end)
  && String.eqb (UserName c) "" && String.eqb (QueueID c) ""
  && String.eqb (ClusterID c) "" && String.eqb (Namespace c) ""
  && String.eqb (FS c) "".

Definition GetName (c : t) : string := Name c.
Definition GetPriority (c : t) : string := Priority c.
Definition GetUserName (c : t) : string := UserName c.
Definition GetQueueID (c : t) : string := QueueID c.
(** Modelled from the spec: [conf.Type()]; section 4.2 step 6, the job-kind
    marker, which [patchEnvs] writes as the environment entry [EnvJobType]. *)
Definition Type_ (c : t) : string := default "" (Env c !! EnvJobType).

Definition SetEnv (name value : string) (c : t) : t :=
  let 'mk n e cmd img p fl fs efs pr lb an ar un q cl ns f := c in
  mk n (<[name := value]> e) cmd img p fl fs efs pr lb an ar un q cl ns f.
Definition SetPriority (pc : string) (c : t) : t :=
  let 'mk n e cmd img p fl fs efs pr lb an ar un q cl ns f := c in
  mk n e cmd img p fl fs efs pc lb an ar un q cl ns f.
Definition SetUserName (userName : string) (c : t) : t :=
  let 'mk n e cmd img p fl fs efs pr lb an ar un q cl ns f := c in
  mk n e cmd img p fl fs efs pr lb an ar userName q cl ns f.
Definition SetQueueID (id : string) (c : t) : t :=
  let 'mk n e cmd img p fl fs efs pr lb an ar un q cl ns f := c in
  mk n e cmd img p fl fs efs pr lb an ar un id cl ns f.
Definition SetClusterID (id : string) (c : t) : t :=
  let 'mk n e cmd img p fl fs efs pr lb an ar un q cl ns f := c in
  mk n e cmd img p fl fs efs pr lb an ar un q id ns f.
Definition SetNamespace (ns' : string) (c : t) : t :=
  let 'mk n e cmd img p fl fs efs pr lb an ar un q cl ns f := c in
  mk n e cmd img p fl fs efs pr lb an ar un q cl ns' f.
Definition SetFlavour (flavourKey : string) (c : t) : t :=
  let 'mk n e cmd img p fl fs efs pr lb an ar un q cl ns f := c in
  mk n e cmd img p (Flavour.mk flavourKey) fs efs pr lb an ar un q cl ns f.
Definition SetFS (fsID : string) (c : t) : t :=
  let 'mk n e cmd img p fl fs efs pr lb an ar un q cl ns f := c in
  mk n e cmd img p fl fs efs pr lb an ar un q cl ns fsID.

(** plain field assignments [conf.X = v] of the source *)
Definition with_Labels (v : gmap string string) (c : t) : t :=
  let 'mk n e cmd img p fl fs efs pr lb an ar un q cl ns f := c in
  mk n e cmd img p fl fs efs pr v an ar un q cl ns f.
Definition with_Annotations (v : gmap string string) (c : t) : t :=
  let 'mk n e cmd img p fl fs efs pr lb an ar un q cl ns f := c in
  mk n e cmd img p fl fs efs pr lb v ar un q cl ns f.
Definition with_ExtraFileSystem (v : list FileSystem.t) (c : t) : t :=
  let 'mk n e cmd img p fl fs efs pr lb an ar un q cl ns f := c in
  mk n e cmd img p fl fs v pr lb an ar un q cl ns f.
Definition with_Command (v : string) (c : t) : t :=
  let 'mk n e cmd img p fl fs efs pr lb an ar un q cl ns f := c in
  mk n e v img p fl fs efs pr lb an ar un q cl ns f.
Definition with_Image (v : string) (c : t) : t :=
  let 'mk n e cmd img p fl fs efs pr lb an ar un q cl ns f := c in
  mk n e cmd v p fl fs efs pr lb an ar un q cl ns f.
Definition with_Port (v : Z) (c : t) : t :=
  let 'mk n e cmd img p fl fs efs pr lb an ar un q cl ns f := c in
  mk n e cmd img v fl fs efs pr lb an ar un q cl ns f.
Definition with_Args (v : list string) (c : t) : t :=
  let 'mk n e cmd img p fl fs efs pr lb an ar un q cl ns f := c in
  mk n e cmd img p fl fs efs pr lb an v un q cl ns f.
End Conf.

End schema.

(** ** Records of the two source files *)

(** An [interface{}] value (the runtime info reported by a backend), named by
    a description; [json.Marshal] on it is a field of [Env]. *)
Definition interface_ : Type := string.

(** [models.Job] ([job.go], lines 33-48).  [ExtensionTemplate] is the field the
    composite literal of the controller's [CreateJob] sets. *)
Module Job.
Record t : Type := mk {
  Pk : Z;
  ID : string;
  UserName : string;
  QueueID : string;
  Type_ : string;
  Config : schema.Conf.t;
  RuntimeInfoJson : string;
  RuntimeInfo : option interface_;
  Status : schema.JobStatus;
  Message : string;
  CreatedAt : Z;
  ActivatedAt : NullTime.t;
  UpdatedAt : Z;
  DeletedAt : NullTime.t;
  ExtensionTemplate : string
}.

(** [Job{}] *)
Definition zero : t :=
  mk 0 "" "" "" "" schema.Conf.zero "" None "" "" 0 NullTime.zero 0 NullTime.zero "".

Definition with_Pk (v : Z) (j : t) : t :=
  let 'mk pk id un q ty cf rj ri st ms ca aa ua da et := j in
  mk v id un q ty cf rj ri st ms ca aa ua da et.
Definition with_RuntimeInfoJson (v : string) (j : t) : t :=
  let 'mk pk id un q ty cf rj ri st ms ca aa ua da et := j in
  mk pk id un q ty cf v ri st ms ca aa ua da et.
Definition with_RuntimeInfo (v : option interface_) (j : t) : t :=
  let 'mk pk id un q ty cf rj ri st ms ca aa ua da et := j in
  mk pk id un q ty cf rj v st ms ca aa ua da et.
Definition with_Status (v : schema.JobStatus) (j : t) : t :=
  let 'mk pk id un q ty cf rj ri st ms ca aa ua da et := j in
  mk pk id un q ty cf rj ri v ms ca aa ua da et.
Definition with_Message (v : string) (j : t) : t :=
  let 'mk pk id un q ty cf rj ri st ms ca aa ua da et := j in
  mk pk id un q ty cf rj ri st v ca aa ua da et.
Definition with_CreatedAt (v : Z) (j : t) : t :=
  let 'mk pk id un q ty cf rj ri st ms ca aa ua da et := j in
  mk pk id un q ty cf rj ri st ms v aa ua da et.
Definition with_ActivatedAt (v : NullTime.t) (j : t) : t :=
  let 'mk pk id un q ty cf rj ri st ms ca aa ua da et := j in
  mk pk id un q ty cf rj ri st ms ca v ua da et.
Definition with_UpdatedAt (v : Z) (j : t) : t :=
  let 'mk pk id un q ty cf rj ri st ms ca aa ua da et := j in
  mk pk id un q ty cf rj ri st ms ca aa v da et.
End Job.

(** [SchedulingPolicy], [CommonJobInfo], [JobSpec], [CreateSingleJobRequest]
    and [CreateJobResponse] of the controller (lines 107-168). *)
Module SchedulingPolicy.
Record t : Type := mk { QueueID : string; Priority : string }.
End SchedulingPolicy.

Module CommonJobInfo.
Record t : Type := mk {
  ID : string;
  Name : string;
  Labels : gmap string string;
  Annotations : gmap string string;
  SchedulingPolicy : SchedulingPolicy.t;
  UserName : string
}.
End CommonJobInfo.

Module JobSpec.
Record t : Type := mk {
  Flavour : schema.Flavour.t;
  FileSystem : schema.FileSystem.t;
  ExtraFileSystems : list schema.FileSystem.t;
  Image : string;
  Env : gmap string string;
  Command : string;
  Args : list string;
  Port : Z;
  ExtensionTemplate : string
}.
End JobSpec.

Module CreateSingleJobRequest.
Record t : Type := mk { CommonJobInfo : CommonJobInfo.t; JobSpec : JobSpec.t }.
End CreateSingleJobRequest.

Module CreateJobResponse.
Record t : Type := mk { ID : string }.
End CreateJobResponse.

(** [MemberSpec], [CreateDisJobRequest] and [CreateWfJobRequest] (lines
    113-127 and 158-163); [schema.Framework] is a string type. *)
Module MemberSpec.
Record t : Type := mk {
  CommonJobInfo : CommonJobInfo.t;
  JobSpec : JobSpec.t;
  Role : string;
  Replicas : Z
}.
End MemberSpec.

Module CreateDisJobRequest.
Record t : Type := mk {
  CommonJobInfo : CommonJobInfo.t;
  Framework : string;
  Members : list MemberSpec.t;
  ExtensionTemplate : string
}.
End CreateDisJobRequest.

Module CreateWfJobRequest.
Record t : Type := mk {
  CommonJobInfo : CommonJobInfo.t;
  Framework : string;
  Members : list MemberSpec.t;
  ExtensionTemplate : string
}.
End CreateWfJobRequest.

(** [logger.RequestContext]: the field the controller writes. *)
Module RequestContext.
Record t : Type := mk { ErrorCode : string }.
End RequestContext.

Module common.
(** Modelled from the spec: the error codes of package [common] are not among
    the source files; each is written as the name the source gives it. *)
Definition JobNotFound : string := "JobNotFound".
Definition InternalError : string := "InternalError".
(** Modelled from the spec: [common.ID] is not among the source files; section
    4.2 step 5: a deterministic filesystem ID from user name and filesystem
    name (the fixture of the source pairs user root and name testfs with the
    ID fs-root-testfs). *)
Definition ID (userName fsName : string) : string :=
  "fs-" +:+ userName +:+ "-" +:+ fsName.
End common.

(** ** Collaborators *)

Module PFJob.
(** Modelled from the spec: [api.PFJob], the job-info view handed to a Runtime
    Service, is not among the source files; section 6: a read-only projection
    of the persisted job (ID, kind, config, status). *)
Record t : Type := mk {
  ID : string;
  JobType : string;
  Conf : schema.Conf.t;
  Status : schema.JobStatus
}.
End PFJob.

(** [runtime.RuntimeService]: the interface value, as the record of its
    methods.  What a method answers is the backend's business. *)
Module RuntimeService.
Record t : Type := mk {
  DeleteJob : PFJob.t -> option error;
  StopJob : PFJob.t -> option error
}.
End RuntimeService.

Module Queue.
Record t : Type := mk { Name : string; ClusterId : string; Namespace : string }.
End Queue.

Module ClusterInfo.
Record t : Type := mk { ID : string }.
End ClusterInfo.

(** The statements gorm is asked to run on table job. *)
Inductive DbOp : Type := OpFirst | OpFind | OpCreate | OpUpdates | OpSave | OpDelete.

(** Everything the two source files call but do not define, as parameters.
    [ValidateJob] is taken to change nothing, as section 4.3 of the
    specification describes it (structural validation). *)
Record Env : Type := mkEnv {
  (** the error the database engine answers a statement with, if any *)
  db_fault : DbOp -> option error;
  json_Marshal : interface_ -> string * option error;
  (** models.GetQueueByID, models.GetClusterById, models.GetFlavour *)
  GetQueueByID : string -> Queue.t * option error;
  GetClusterById : string -> ClusterInfo.t * option error;
  GetFlavour : string -> schema.Flavour.t * option error;
  (** runtime.GetOrCreateRuntime, api.NewJobInfo *)
  GetOrCreateRuntime : ClusterInfo.t -> RuntimeService.t + error;
  NewJobInfo : Job.t -> PFJob.t + error;
  (** job.ValidateJob, uuid.GenerateID, yaml.JSONToYAML *)
  ValidateJob : schema.Conf.t -> option error;
  GenerateID : string -> string;
  JSONToYAML : string -> string * option error
}.

(** ** Observable state *)

(** Calls received by the Runtime Service and writes received by the Job
    Repository, in the order they are made. *)
Inductive Call : Type :=
| RuntimeDeleteJob (pfjob : PFJob.t)
| RuntimeStopJob (pfjob : PFJob.t)
| RepoCreate (job : Job.t)
| RepoUpdates (jobID : string) (job : Job.t)
| RepoSave (jobID : string) (job : Job.t)
| RepoDelete (jobID : string).

Inductive Logger : Type := Std | CtxLogging | LoggerForJob (jobID : string).
Inductive Level : Type := Debug | Info | Error.

Inductive logarg : Type :=
| LStr (s : string)
| LErr (e : option error)
| LJob (j : Job.t)
| LConf (c : schema.Conf.t)
| LReq (r : CreateSingleJobRequest.t).

Record LogEntry : Type := mkLog {
  log_logger : Logger;
  log_level : Level;
  log_format : string;
  log_args : list logarg
}.

Record World : Type := mkWorld {
  db : list Job.t;          (* the rows of table job, in primary-key order *)
  now : Z;                  (* what time.Now() answers *)
  calls : list Call;
  logs : list LogEntry
}.

(** ** The state monad of package-level effects *)

Definition M (A : Type) : Type := World -> A * World.

Definition ret {A} (a : A) : M A := fun w => (a, w).

Definition bind {A B} (m : M A) (k : A -> M B) : M B :=
  fun w => let (a, w') := m w in k a w'.

Notation "x <- m ;; k" := (bind m (fun x => k))
  (at level 100, m at next level, right associativity).
Notation "m ;;; k" := (bind m (fun _ => k))
  (at level 100, right associativity).

Definition get_db : M (list Job.t) := fun w => (db w, w).
Definition put_db (rows : list Job.t) : M unit :=
  fun w => (tt, mkWorld rows (now w) (calls w) (logs w)).
Definition time_Now : M Z := fun w => (now w, w).
Definition record_call (c : Call) : M unit :=
  fun w => (tt, mkWorld (db w) (now w) (calls w ++ [c]) (logs w)).
Definition emit (lg : Logger) (lv : Level) (format : string) (args : list logarg) : M unit :=
  fun w => (tt, mkWorld (db w) (now w) (calls w) (logs w ++ [mkLog lg lv format args])).

Definition log_Errorf := emit Std Error.
Definition log_Infof := emit Std Info.
Definition log_Debugf := emit Std Debug.

(** ** SQL as gorm issues it on table job *)

Module gorm.

(** SQL [LIKE] as the engine behind [database.DB] (SQLite, the engine of
    the mock database) evaluates it: pattern and text are read as
    NUL-terminated UTF-8, character by character; [%] stands for any run of
    characters, [_] for any single character, and every other character for
    itself, two ASCII letters being the same whatever their case.  The
    comparison [=] of a [Where], in contrast, is exact ([String.eqb]). *)

(** the value of a lead byte [0xC0..0xFF] (table [sqlite3Utf8Trans1]) *)
Definition Utf8Trans1 (lead : N) : N :=
  (if lead <? 0xE0 then lead - 0xC0
   else if lead <? 0xF0 then lead - 0xE0
   else if lead <? 0xF8 then lead - 0xF0
   else if lead <? 0xFC then lead - 0xF8
   else if lead <? 0xFE then lead - 0xFC
   else 0)%N.

(** values that are no character are read as U+FFFD *)
Definition Utf8Replace (c : N) : N :=
  (if (c <? 0x80) || (N.land c 0xFFFFF800 =? 0xD800) || (N.land c 0xFFFFFFFE =? 0xFFFE)
   then 0xFFFD else c)%N.

(** The characters of a text: a byte below [0xC0] is a character; a byte from
    [0xC0] on opens a character that takes every continuation byte
    ([10xxxxxx]) that follows, its value held in 32 bits; the text ends at a
    zero byte.  [pending] is the value of the character being read. *)
Fixpoint Utf8Read (pending : option N) (z : string) : list N :=
  match z with
  | EmptyString => match pending with Some c => [Utf8Replace c] | None => [] end
  | String b z' =>
      let v := N_of_ascii b in
      let start :=
        (if v =? 0 then []
         else if v <? 0xC0 then v :: Utf8Read None z'
         else Utf8Read (Some (Utf8Trans1 v)) z')%N in
      match pending with
      | Some c =>
          if (N.land v 0xC0 =? 0x80)%N
          then Utf8Read (Some ((N.shiftl c 6 + N.land 0x3F v) mod 2 ^ 32)%N) z'
          else Utf8Replace c :: start
      | None => start
      end
  end.

(** ASCII letters in lower case, every other value unchanged *)
Definition Tolower (c : N) : N :=
  (if (65 <=? c) && (c <=? 90) then c + 32 else c)%N.

(** a pattern character other than [%] against a character of the text:
    equal, or equal ASCII letters up to case, or the pattern has [_] *)
Definition same_char (c c2 : N) : bool :=
  ((c =? c2)
   || ((Tolower c =? Tolower c2) && (c <? 0x80) && (c2 <? 0x80))
   || (c =? 95))%N.

Fixpoint patternCompare (pattern : list N) : list N -> bool :=
  match pattern with
  | [] => fun s => match s with [] => true | _ => false end
  | c :: p =>
      if (c =? 37)%N then
        fix any (s : list N) : bool :=
          patternCompare p s || match s with [] => false | _ :: s' => any s' end
      else
        fun s => match s with
                 | [] => false
                 | c2 :: s' => same_char c c2 && patternCompare p s'
                 end
  end.

Definition like (pattern s : string) : bool :=
  patternCompare (Utf8Read None pattern) (Utf8Read None s).

(** rows a query sees: gorm adds [deleted_at IS NULL] for a model with a
    [gorm.DeletedAt] field *)
Definition live (r : Job.t) : bool := negb (NullTime.Valid (Job.DeletedAt r)).

(** [Where("id = ?", jobID)] *)
Definition id_is (jobID : string) (r : Job.t) : bool :=
  String.eqb (Job.ID r) jobID && live r.

(** what is kept of a [Job] in its row: [RuntimeInfo] is tagged [gorm:"-"] *)
Definition to_row (j : Job.t) : Job.t := Job.with_RuntimeInfo None j.

(** [First(&job)]: the first matching row in primary-key order, scanned
    into the destination (which leaves [RuntimeInfo] nil), or
    [ErrRecordNotFound].  Answers the destination and [tx.Error]. *)
Definition First (env : Env) (jobID : string) : M (Job.t * option error) :=
  match db_fault env OpFirst with
  | Some e => ret (Job.zero, Some e)
  | None =>
      rows <- get_db ;;
      match List.find (id_is jobID) rows with
      | Some r => ret (to_row r, None)
      | None => ret (Job.zero, Some ErrRecordNotFound)
      end
  end.

(** [Find(&jobs)] under a [WHERE] clause *)
Definition Find (env : Env) (where_ : Job.t -> bool) : M (list Job.t * option error) :=
  match db_fault env OpFind with
  | Some e => ret ([], Some e)
  | None =>
      rows <- get_db ;;
      ret (List.map to_row (List.filter (fun r => where_ r && live r) rows), None)
  end.

Definition pick_str (new old : string) : string :=
  if String.eqb new "" then old else new.

(** [Updates(job)] with a struct: the columns whose field is not the zero value
    are assigned, [updated_at] is set to the current time. *)
Definition assign_nonzero (t : Z) (job r : Job.t) : Job.t :=
  Job.mk
    (if Job.Pk job =? 0 then Job.Pk r else Job.Pk job)
    (pick_str (Job.ID job) (Job.ID r))
    (pick_str (Job.UserName job) (Job.UserName r))
    (pick_str (Job.QueueID job) (Job.QueueID r))
    (pick_str (Job.Type_ job) (Job.Type_ r))
    (if schema.Conf.isZero (Job.Config job) then Job.Config r else Job.Config job)
    (pick_str (Job.RuntimeInfoJson job) (Job.RuntimeInfoJson r))
    None
    (pick_str (Job.Status job) (Job.Status r))
    (pick_str (Job.Message job) (Job.Message r))
    (if Job.CreatedAt job =? 0 then Job.CreatedAt r else Job.CreatedAt job)
    (if NullTime.isZero (Job.ActivatedAt job) then Job.ActivatedAt r else Job.ActivatedAt job)
    t
    (if NullTime.isZero (Job.DeletedAt job) then Job.DeletedAt r else Job.DeletedAt job)
    (pick_str (Job.ExtensionTemplate job) (Job.ExtensionTemplate r)).

Definition Updates (env : Env) (jobID : string) (job : Job.t) : M (option error) :=
  record_call (RepoUpdates jobID job) ;;;
  match db_fault env OpUpdates with
  | Some e => ret (Some e)
  | None =>
      t <- time_Now ;;
      rows <- get_db ;;
      put_db (List.map (fun r => if id_is jobID r then assign_nonzero t job r else r) rows) ;;;
      ret None
  end.

(** [func (job *Job) BeforeSave(tx *gorm.DB) error] ([job.go], lines 54-63) *)
Definition BeforeSave (env : Env) (job : Job.t) : Job.t * option error :=
  match Job.RuntimeInfo job with
  | Some info =>
      match json_Marshal env info with
      | (_, Some err) => (job, Some err)
      | (infoJson, None) => (Job.with_RuntimeInfoJson infoJson job, None)
      end
  | None => (job, None)
  end.

Definition next_pk (rows : list Job.t) : Z :=
  1 + List.fold_right (fun r m => Z.max (Job.Pk r) m) 0 rows.

(** [INSERT]: the primary key is auto-incremented, zero timestamps are set to
    the current time, an empty [runtime_info] takes its default, and the
    unique index on [id] refuses a second row with the same [id]. *)
Definition insert (job : Job.t) : M (Job.t * option error) :=
  t <- time_Now ;;
  rows <- get_db ;;
  if List.existsb (fun r => String.eqb (Job.ID r) (Job.ID job)) rows
  then ret (job, Some (errors_New "duplicate entry for unique index on id"))
  else
    let job := if Job.Pk job =? 0 then Job.with_Pk (next_pk rows) job else job in
    let job := if Job.CreatedAt job =? 0 then Job.with_CreatedAt t job else job in
    let job := if Job.UpdatedAt job =? 0 then Job.with_UpdatedAt t job else job in
    let job := if String.eqb (Job.RuntimeInfoJson job) ""
               then Job.with_RuntimeInfoJson "{}" job else job in
    put_db (rows ++ [to_row job]) ;;;
    ret (job, None).

(** [Create(job)]: the hook, then the insert. *)
Definition Create (env : Env) (job : Job.t) : M (Job.t * option error) :=
  record_call (RepoCreate job) ;;;
  match BeforeSave env job with
  | (job, Some e) => ret (job, Some e)
  | (job, None) =>
      match db_fault env OpCreate with
      | Some e => ret (job, Some e)
      | None => insert job
      end
  end.

(** [Where("id = ?", jobID).Save(&job)]: the hook; with a zero primary key an
    insert; otherwise an update of every column of the rows that match the
    clause and the primary key, with [updated_at] set to the current time.
    When the update touches no row gorm inserts the value, overwriting the row
    that holds its primary key. *)
Definition Save (env : Env) (jobID : string) (job : Job.t) : M (Job.t * option error) :=
  record_call (RepoSave jobID job) ;;;
  match BeforeSave env job with
  | (job, Some e) => ret (job, Some e)
  | (job, None) =>
      match db_fault env OpSave with
      | Some e => ret (job, Some e)
      | None =>
          if Job.Pk job =? 0 then insert job
          else
            t <- time_Now ;;
            rows <- get_db ;;
            let job := Job.with_UpdatedAt t job in
            let hit r := id_is jobID r && (Job.Pk r =? Job.Pk job) in
            if List.existsb hit rows
            then
              put_db (List.map (fun r => if hit r then to_row job else r) rows) ;;;
              ret (job, None)
            else if List.existsb (fun r => Job.Pk r =? Job.Pk job) rows
            then
              put_db (List.map (fun r => if Job.Pk r =? Job.Pk job then to_row job else r) rows) ;;;
              ret (job, None)
            else insert job
      end
  end.

(** Modelled from the spec: the repository's delete ([models.DeleteJob]) is
    not among the source files; sections 4.5 and 6: [Delete(id) -> error]
    removes the record. *)
Definition Delete (env : Env) (jobID : string) : M (option error) :=
  record_call (RepoDelete jobID) ;;;
  match db_fault env OpDelete with
  | Some e => ret (Some e)
  | None =>
      rows <- get_db ;;
      put_db (List.filter (fun r => negb (id_is jobID r)) rows) ;;;
      ret None
  end.

End gorm.

(** ** Package [models]: [job.go] *)

Module models.

(** [func (Job) TableName() string] (lines 50-52) *)
Definition TableName (job : Job.t) : string := "job".

(** [func CreateJob(job *Job) error] (lines 65-69); the pointee after the call
    is answered with the error. *)
Definition CreateJob (env : Env) (job : Job.t) : M (Job.t * option error) :=
  gorm.Create env job.

(** [func GetJobByID(jobID string) (Job, error)] (lines 71-79) *)
Definition GetJobByID (env : Env) (jobID : string) : M (Job.t * option error) :=
  r <- gorm.First env jobID ;;
  match r with
  | (_, Some txError) =>
      emit (LoggerForJob jobID) Error "get job failed, err %v" [LErr (Some txError)] ;;;
      ret (Job.zero, Some txError)
  | (job, None) => ret (job, None)
  end.

(** [func GetJobStatusByID(jobID string) (schema.JobStatus, error)] (lines 81-87) *)
Definition GetJobStatusByID (env : Env) (jobID : string)
  : M (schema.JobStatus * option error) :=
  r <- GetJobByID env jobID ;;
  match r with
  | (_, Some _) => ret ("", Some (JobIDNotFoundError jobID))
  | (job, None) => ret (Job.Status job, None)
  end.

(** [func UpdateJobStatus(jobId, errMessage string, jobStatus schema.JobStatus) error]
    (lines 89-106) *)
Definition UpdateJobStatus (env : Env) (jobId errMessage : string)
    (jobStatus : schema.JobStatus) : M (option error) :=
  r <- GetJobByID env jobId ;;
  match r with
  | (_, Some _) => ret (Some (JobIDNotFoundError jobId))
  | (job, None) =>
      let job :=
        if negb (String.eqb jobStatus "") && negb (schema.IsImmutableJobStatus (Job.Status job))
        then Job.with_Status jobStatus job else job in
      let job :=
        if negb (String.eqb errMessage "") then Job.with_Message errMessage job else job in
      log_Infof "update job [%+v]" [LJob job] ;;;
      txError <- gorm.Updates env jobId job ;;
      match txError with
      | Some e => ret (Some e)
      | None => ret None
      end
  end.

(** [func UpdateJob(jobID string, status schema.JobStatus, info interface{},
    message string) (schema.JobStatus, error)] (lines 108-132).  When [Save]
    fails the source logs and returns [err], the variable of the earlier
    [GetJobByID], which is [nil] at that point. *)
Definition UpdateJob (env : Env) (jobID : string) (status : schema.JobStatus)
    (info : option interface_) (message : string) : M (schema.JobStatus * option error) :=
  r <- GetJobByID env jobID ;;
  match r with
  | (_, Some _) => ret ("", Some (JobIDNotFoundError jobID))
  | (job, None as err) =>
      let job :=
        if negb (String.eqb status "") && negb (schema.IsImmutableJobStatus (Job.Status job))
        then Job.with_Status status job else job in
      let job :=
        match info with Some _ => Job.with_RuntimeInfo info job | None => job end in
      let job :=
        if negb (String.eqb message "") then Job.with_Message message job else job in
      job <- (if String.eqb status schema.StatusJobRunning
              then t <- time_Now ;; ret (Job.with_ActivatedAt (NullTime.mk t true) job)
              else ret job) ;;
      s <- gorm.Save env jobID job ;;
      match s with
      | (_, Some _) =>
          emit (LoggerForJob jobID) Error "update job failed, err %v" [LErr err] ;;;
          ret ("", err)
      | (job, None) => ret (Job.Status job, None)
      end
  end.

(** [func ListQueueJob(queueID string, status []schema.JobStatus) []Job]
    (lines 134-143) *)
Definition ListQueueJob (env : Env) (queueID : string) (status : list schema.JobStatus)
  : M (list Job.t) :=
  r <- gorm.Find env (fun j => List.existsb (String.eqb (Job.Status j)) status
                               && String.eqb (Job.QueueID j) queueID) ;;
  match r with
  | (_, Some _) => ret []
  | (jobs, None) => ret jobs
  end.

(** [func GetJobsByRunID(ctx *logger.RequestContext, runID string, jobID string)
    ([]Job, error)] (lines 145-157).  [None] is the nil slice. *)
Definition GetJobsByRunID (env : Env) (runID jobID : string)
  : M (option (list Job.t) * option error) :=
  let query := fun j : Job.t => gorm.like ("job-" +:+ runID +:+ "-%") (Job.ID j) in
  let query :=
    if negb (String.eqb jobID "")
    then fun j => query j && String.eqb (Job.ID j) jobID
    else query in
  r <- gorm.Find env query ;;
  match r with
  | (_, Some err) =>
      emit CtxLogging Error "get jobs by run[%s] failed. error : %s "
        [LStr runID; LErr (Some err)] ;;;
      ret (None, Some err)
  | (jobList, None) => ret (Some jobList, None)
  end.

(** Modelled from the spec: [models.DeleteJob] is not among the source files;
    section 6: [Delete(id) -> error], the delete statement of [gorm.Delete]. *)
Definition DeleteJob (env : Env) (jobID : string) : M (option error) :=
  gorm.Delete env jobID.

End models.

(** ** Package [job]: the controller *)

Module controller.

Definition with_ErrorCode (code : string) (ctx : RequestContext.t) : RequestContext.t :=
  RequestContext.mk code.

(** [func patchEnvs(conf *schema.Conf, commonJobInfo *CommonJobInfo) error]
    (lines 214-240); the pointee [conf] after the call is answered with the
    error. *)
Definition patchEnvs (env : Env) (conf : schema.Conf.t) (commonJobInfo : CommonJobInfo.t)
  : M (schema.Conf.t * option error) :=
  log_Debugf "patch envs for job %s" [LStr (CommonJobInfo.Name commonJobInfo)] ;;;
  let conf := schema.Conf.with_Labels (CommonJobInfo.Labels commonJobInfo) conf in
  let conf := schema.Conf.with_Annotations (CommonJobInfo.Annotations commonJobInfo) conf in
  let conf := schema.Conf.SetEnv schema.EnvJobType schema.TypePodJob conf in
  let conf := schema.Conf.SetUserName (CommonJobInfo.UserName commonJobInfo) conf in
  let queueID := SchedulingPolicy.QueueID (CommonJobInfo.SchedulingPolicy commonJobInfo) in
  match GetQueueByID env queueID with
  | (_, Some err) =>
      log_Errorf "Get queue by id failed when creating job %s failed, err=%v"
        [LStr (CommonJobInfo.Name commonJobInfo); LErr (Some err)] ;;;
      if is_ErrRecordNotFound err
      then ret (conf, Some (Errorf "queue not found by id %s" [FStr queueID]))
      else ret (conf, Some err)
  | (queue, None) =>
      let conf := schema.Conf.SetQueueID queueID conf in
      let conf := schema.Conf.SetEnv schema.EnvJobQueueName (Queue.Name queue) conf in
      let priority := SchedulingPolicy.Priority (CommonJobInfo.SchedulingPolicy commonJobInfo) in
      let conf :=
        if negb (String.eqb priority "") then schema.Conf.SetPriority priority conf else conf in
      let conf := schema.Conf.SetClusterID (Queue.ClusterId queue) conf in
      let conf := schema.Conf.SetNamespace (Queue.Namespace queue) conf in
      ret (conf, None)
  end.

(** [func patchSingleEnvs(conf *schema.Conf, request *CreateSingleJobRequest) error]
    (lines 242-269) *)
Definition patchSingleEnvs (env : Env) (conf : schema.Conf.t)
    (request : CreateSingleJobRequest.t) : M (schema.Conf.t * option error) :=
  let common_ := CreateSingleJobRequest.CommonJobInfo request in
  let spec := CreateSingleJobRequest.JobSpec request in
  log_Debugf "patchSingleEnvs conf=%#v, request=%#v" [LConf conf; LReq request] ;;;
  r <- patchEnvs env conf common_ ;;
  match r with
  | (conf, Some err) =>
      log_Errorf "patch commonInfo of single job failed, err=%v" [LErr (Some err)] ;;;
      ret (conf, Some err)
  | (conf, None) =>
      let conf := schema.Conf.with_ExtraFileSystem (JobSpec.ExtraFileSystems spec) conf in
      let conf := schema.Conf.with_Command (JobSpec.Command spec) conf in
      let conf := schema.Conf.with_Image (JobSpec.Image spec) conf in
      let conf := schema.Conf.with_Port (JobSpec.Port spec) conf in
      let conf := schema.Conf.with_Args (JobSpec.Args spec) conf in
      match GetFlavour env (schema.Flavour.Name (JobSpec.Flavour spec)) with
      | (_, Some err) =>
          log_Errorf "Get flavour by name %s failed when creating job %s failed, err=%v"
            [LStr (schema.Flavour.Name (JobSpec.Flavour spec));
             LStr (CommonJobInfo.Name common_); LErr (Some err)] ;;;
          ret (conf, Some err)
      | (flavour, None) =>
          let conf := schema.Conf.SetFlavour (schema.Flavour.Name flavour) conf in
          let fsID := common.ID (CommonJobInfo.UserName common_)
                        (schema.FileSystem.Name (JobSpec.FileSystem spec)) in
          let conf := schema.Conf.SetFS fsID conf in
          ret (conf, None)
      end
  end.

(** [func checkPriority(conf schema.PFJobConf) error] (lines 316-328); the
    pointee [conf] after the call is answered with the error. *)
Definition checkPriority (conf : schema.Conf.t) : schema.Conf.t * option error :=
  let priority := schema.Conf.GetPriority conf in
  if (String.length priority =? 0)%nat then
    (schema.Conf.SetPriority schema.EnvJobNormalPriority conf, None)
  else
    if negb (String.eqb priority schema.EnvJobLowPriority)
       && negb (String.eqb priority schema.EnvJobNormalPriority)
       && negb (String.eqb priority schema.EnvJobHighPriority)
    then (conf, Some (InvalidJobPriorityError priority))
    else (conf, None).

(** [func CreateJob(conf schema.PFJobConf, jobID, jobTemplate string) (string, error)]
    (lines 283-314); the pointee [conf] after the call is answered first. *)
Definition CreateJob (env : Env) (conf : schema.Conf.t) (jobID jobTemplate : string)
  : M (schema.Conf.t * (string * option error)) :=
  match ValidateJob env conf with
  | Some err => ret (conf, ("", Some err))
  | None =>
      match checkPriority conf with
      | (conf, Some err) =>
          log_Errorf "check priority failed, err=%v" [LErr (Some err)] ;;;
          ret (conf, ("", Some err))
      | (conf, None) =>
          let jobConf := conf in
          let jobID :=
            if String.eqb jobID "" then GenerateID env schema.JobPrefix else jobID in
          let jobInfo :=
            Job.mk 0 jobID (schema.Conf.GetUserName conf) (schema.Conf.GetQueueID conf)
              (schema.Conf.Type_ conf) jobConf "" None schema.StatusJobInit ""
              0 NullTime.zero 0 NullTime.zero jobTemplate in
          r <- models.CreateJob env jobInfo ;;
          match r with
          | (_, Some err) =>
              log_Errorf "create job[%s] in database faield, err: %v"
                [LStr (schema.Conf.GetName conf); LErr (Some err)] ;;;
              ret (conf, ("", Some (Errorf "create job[%s] in database faield, err: %v"
                                      [FStr (schema.Conf.GetName conf); FErr (Some err)])))
          | (jobInfo, None) =>
              log_Infof "create job[%s] successful." [LStr (Job.ID jobInfo)] ;;;
              ret (conf, (Job.ID jobInfo, None))
          end
      end
  end.

(** [CreateSingleJob] from line 183 on, entered with the extension template
    that lines 172-182 settled (the early return of line 177 leaves the
    function before this point). *)
Definition CreateSingleJob_body (env : Env) (request : CreateSingleJobRequest.t)
    (extensionTemplate : string) : M (CreateJobResponse.t + error) :=
  let common_ := CreateSingleJobRequest.CommonJobInfo request in
  let spec := CreateSingleJobRequest.JobSpec request in
  let conf :=
    schema.Conf.mk (CommonJobInfo.Name common_) (JobSpec.Env spec) "" (JobSpec.Image spec)
      (JobSpec.Port spec) (JobSpec.Flavour spec) (JobSpec.FileSystem spec)
      (JobSpec.ExtraFileSystems spec)
      (SchedulingPolicy.Priority (CommonJobInfo.SchedulingPolicy common_))
      (CommonJobInfo.Labels common_) (CommonJobInfo.Annotations common_)
      [] "" "" "" "" "" in
  p <- patchSingleEnvs env conf request ;;
  match p with
  | (_, Some err) =>
      log_Errorf "patch envs when creating job %s failed, err=%v"
        [LStr (CommonJobInfo.Name common_); LErr (Some err)] ;;;
      ret (inr err)
  | (conf, None) =>
      c <- CreateJob env conf (CommonJobInfo.ID common_) extensionTemplate ;;
      match c with
      | (_, (_, Some err)) =>
          log_Errorf "failed to create job %s, err=%v"
            [LStr (CommonJobInfo.Name common_); LErr (Some err)] ;;;
          ret (inr err)
      | (_, (id, None)) => ret (inl (CreateJobResponse.mk id))
      end
  end.

(** [func CreateSingleJob(request *CreateSingleJobRequest)], answering a
    pointer to a [CreateJobResponse] and an [error] (lines 170-212) *)
Definition CreateSingleJob (env : Env) (request : CreateSingleJobRequest.t)
  : M (CreateJobResponse.t + error) :=
  let extensionTemplate :=
    JobSpec.ExtensionTemplate (CreateSingleJobRequest.JobSpec request) in
  if negb (String.eqb extensionTemplate "") then
    match JSONToYAML env
            (JobSpec.ExtensionTemplate (CreateSingleJobRequest.JobSpec request)) with
    | (_, Some err) =>
        log_Errorf "Failed to parse extension template to yaml: %v" [LErr (Some err)] ;;;
        ret (inr err)
    | (bytes, None) => CreateSingleJob_body env request bytes
    end
  else CreateSingleJob_body env request "".

(** [func CreateDistributedJob(request *CreateDisJobRequest)] and
    [func CreateWorkflowJob(request *CreateWfJobRequest)] (lines 271-281):
    both answer an empty response and [nil]. *)
Definition CreateDistributedJob (request : CreateDisJobRequest.t)
  : M (CreateJobResponse.t + error) :=
  ret (inl (CreateJobResponse.mk "")).

Definition CreateWorkflowJob (request : CreateWfJobRequest.t)
  : M (CreateJobResponse.t + error) :=
  ret (inl (CreateJobResponse.mk "")).

(** [func CheckPermission(ctx *logger.RequestContext) error] (lines 330-333) *)
Definition CheckPermission (ctx : RequestContext.t) : option error := None.

(** [func getRuntimeByQueue(ctx *logger.RequestContext, queueID string)
    (runtime.RuntimeService, error)] (lines 400-420); the pointee [ctx] after
    the call is answered first. *)
Definition getRuntimeByQueue (env : Env) (ctx : RequestContext.t) (queueID : string)
  : M (RequestContext.t * (RuntimeService.t + error)) :=
  match GetQueueByID env queueID with
  | (_, Some err) =>
      log_Errorf "get queue for job failed, err: %v" [LErr (Some err)] ;;;
      ret (ctx, inr err)
  | (queue, None) =>
      match GetClusterById env (Queue.ClusterId queue) with
      | (_, Some err) =>
          emit CtxLogging Error "get clusterInfo by id %s failed. error: %s"
            [LStr (Queue.ClusterId queue); LErr (Some err)] ;;;
          ret (ctx, inr err)
      | (clusterInfo, None) =>
          match GetOrCreateRuntime env clusterInfo with
          | inr err =>
              let ctx := with_ErrorCode common.InternalError ctx in
              emit CtxLogging Error "get or create runtime failed, err: %v" [LErr (Some err)] ;;;
              ret (ctx, inr (Errorf "delete queue failed" []))
          | inl runtimeSvc => ret (ctx, inl runtimeSvc)
          end
      end
  end.

(** [func DeleteJob(ctx *logger.RequestContext, jobID string) error]
    (lines 335-365); the pointee [ctx] after the call is answered first. *)
Definition DeleteJob (env : Env) (ctx : RequestContext.t) (jobID : string)
  : M (RequestContext.t * option error) :=
  match CheckPermission ctx with
  | Some err => ret (ctx, Some err)
  | None =>
      r <- models.GetJobByID env jobID ;;
      match r with
      | (_, Some err) =>
          let ctx := with_ErrorCode common.JobNotFound ctx in
          log_Errorf "get job from database failed, err: %v" [LErr (Some err)] ;;;
          ret (ctx, Some err)
      | (job, None) =>
          q <- getRuntimeByQueue env ctx (Job.QueueID job) ;;
          match q with
          | (ctx, inr err) =>
              log_Errorf "get runtime by queue failed, err: %v" [LErr (Some err)] ;;;
              ret (ctx, Some err)
          | (ctx, inl runtimeSvc) =>
              match NewJobInfo env job with
              | inr err => ret (ctx, Some err)
              | inl pfjob =>
                  record_call (RuntimeDeleteJob pfjob) ;;;
                  match RuntimeService.DeleteJob runtimeSvc pfjob with
                  | Some err =>
                      log_Errorf "delete job %s from cluster failed, err: %v"
                        [LStr jobID; LErr (Some err)] ;;;
                      ret (ctx, Some err)
                  | None =>
                      err <- models.DeleteJob env jobID ;;
                      match err with
                      | Some err =>
                          log_Errorf "delete job %s from cluster failed, err: %v"
                            [LStr jobID; LErr (Some err)] ;;;
                          ret (ctx, Some err)
                      | None => ret (ctx, None)
                      end
                  end
              end
          end
      end
  end.

(** [func StopJob(ctx *logger.RequestContext, jobID string) error]
    (lines 367-398).  [msg] is used by the source as the format of both
    [log.Errorf] and [fmt.Errorf], without arguments. *)
Definition StopJob (env : Env) (ctx : RequestContext.t) (jobID : string)
  : M (RequestContext.t * option error) :=
  match CheckPermission ctx with
  | Some err => ret (ctx, Some err)
  | None =>
      r <- models.GetJobByID env jobID ;;
      match r with
      | (_, Some err) =>
          let ctx := with_ErrorCode common.JobNotFound ctx in
          log_Errorf "get job %s from database failed, err: %v" [LStr jobID; LErr (Some err)] ;;;
          ret (ctx, Some err)
      | (job, None) =>
          if schema.IsImmutableJobStatus (Job.Status job) then
            let msg := "job " +:+ jobID +:+ " status is already " +:+ Job.Status job
                       +:+ ", and job cannot be stopped" in
            log_Errorf msg [] ;;;
            ret (ctx, Some (Errorf msg []))
          else
            q <- getRuntimeByQueue env ctx (Job.QueueID job) ;;
            match q with
            | (ctx, inr err) =>
                log_Errorf "get runtime by queue failed, err: %v" [LErr (Some err)] ;;;
                ret (ctx, Some err)
            | (ctx, inl runtimeSvc) =>
                match NewJobInfo env job with
                | inr err => ret (ctx, Some err)
                | inl pfjob =>
                    record_call (RuntimeStopJob pfjob) ;;;
                    match RuntimeService.StopJob runtimeSvc pfjob with
                    | Some err =>
                        log_Errorf "delete job %s from cluster failed, err: %v"
                          [LStr (Job.ID job); LErr (Some err)] ;;;
                        ret (ctx, Some err)
                    | None => ret (ctx, None)
                    end
                end
            end
      end
  end.

End controller.

(** ** Sample collaborators and tables *)

Module sample.

Definition svc_ok : RuntimeService.t :=
  RuntimeService.mk (fun _ => None) (fun _ => None).

Definition unreachable : error := errors_New "connection refused".

(** a backend whose delete fails *)
Definition svc_down : RuntimeService.t :=
  RuntimeService.mk (fun _ => Some unreachable) (fun _ => None).

Definition view (j : Job.t) : PFJob.t :=
  PFJob.mk (Job.ID j) (Job.Type_ j) (Job.Config j) (Job.Status j).

Definition newline : string := String (ascii_of_nat 10) EmptyString.

(** [yaml.JSONToYAML] on the texts of the examples.  The library reads its
    input as YAML, of which JSON is a part, and writes the value back as a
    YAML document that ends with a line feed: a text that is no JSON document
    but is YAML, such as hello, is taken as well, and an unclosed sequence is
    refused.  Texts outside the examples are not converted here. *)
Definition yaml_of (json : string) : string * option error :=
  if String.eqb json "[1]" then ("- 1" +:+ newline, None)
  else if String.eqb json "{}" then ("{}" +:+ newline, None)
  else if String.eqb json "hello" then ("hello" +:+ newline, None)
  else if String.eqb json "[1"
  then ("", Some (errors_New "yaml: line 1: did not find expected ',' or ']'"))
  else ("", Some (errors_New "yaml: text outside the examples")).

(** every collaborator answers, the engine has no fault *)
Definition env_ok : Env :=
  mkEnv (fun _ => None)
        (fun info => (info, None))
        (fun queueID => (Queue.mk "default" "c1" "ns1", None))
        (fun clusterID => (ClusterInfo.mk clusterID, None))
        (fun name => (schema.Flavour.mk name, None))
        (fun _ => inl svc_ok)
        (fun j => inl (view j))
        (fun _ => None)
        (fun prefix => prefix +:+ "-000001")
        yaml_of.

Definition with_runtime (svc : RuntimeService.t) (env : Env) : Env :=
  mkEnv (db_fault env) (json_Marshal env) (GetQueueByID env) (GetClusterById env)
        (GetFlavour env) (fun _ => inl svc) (NewJobInfo env) (ValidateJob env)
        (GenerateID env) (JSONToYAML env).



Definition with_fault (fault : DbOp -> option error) (env : Env) : Env :=
  mkEnv fault (json_Marshal env) (GetQueueByID env) (GetClusterById env)
        (GetFlavour env) (GetOrCreateRuntime env) (NewJobInfo env) (ValidateJob env)
        (GenerateID env) (JSONToYAML env).

(** an engine that fails the delete statement only *)
Definition delete_fails (op : DbOp) : option error :=
  match op with OpDelete => Some unreachable | _ => None end.

Definition conf1 : schema.Conf.t :=
  schema.Conf.mk "job1" ∅ "sleep 10" "busybox" 0 (schema.Flavour.mk "flavour1")
    (schema.FileSystem.mk "") [] "" ∅ ∅ [] "root" "q1" "c1" "ns1" "".

(** a row of table job *)
Definition row (pk : Z) (id : string) (status : schema.JobStatus) (message : string)
    (activated : NullTime.t) : Job.t :=
  Job.mk pk id "root" "q1" "single" conf1 "{}" None status message 10 activated 10
    NullTime.zero "".

Definition world (rows : list Job.t) (t : Z) : World := mkWorld rows t [] [].

(** the same world when the clock reads [t] *)
Definition later (t : Z) (w : World) : World := mkWorld (db w) t (calls w) (logs w).

(** engines that fail one statement only *)
Definition first_fails (op : DbOp) : option error :=
  match op with OpFirst => Some unreachable | _ => None end.
Definition save_fails (op : DbOp) : option error :=
  match op with OpSave => Some unreachable | _ => None end.
Definition create_fails (op : DbOp) : option error :=
  match op with OpCreate => Some unreachable | _ => None end.
Definition find_fails (op : DbOp) : option error :=
  match op with OpFind => Some unreachable | _ => None end.

(** a directory without queues, one without flavours, a registry that cannot
    build a handle *)
Definition without_queues (env : Env) : Env :=
  mkEnv (db_fault env) (json_Marshal env)
        (fun _ => (Queue.mk "" "" "", Some ErrRecordNotFound)) (GetClusterById env)
        (GetFlavour env) (GetOrCreateRuntime env) (NewJobInfo env) (ValidateJob env)
        (GenerateID env) (JSONToYAML env).
Definition without_flavours (env : Env) : Env :=
  mkEnv (db_fault env) (json_Marshal env) (GetQueueByID env) (GetClusterById env)
        (fun _ => (schema.Flavour.mk "", Some ErrRecordNotFound))
        (GetOrCreateRuntime env) (NewJobInfo env) (ValidateJob env)
        (GenerateID env) (JSONToYAML env).
Definition without_runtime (env : Env) : Env :=
  mkEnv (db_fault env) (json_Marshal env) (GetQueueByID env) (GetClusterById env)
        (GetFlavour env) (fun _ => inr (errors_New "bad kubeconfig")) (NewJobInfo env)
        (ValidateJob env) (GenerateID env) (JSONToYAML env).

(** collaborators that cannot build the job-info view *)
Definition without_view (env : Env) : Env :=
  mkEnv (db_fault env) (json_Marshal env) (GetQueueByID env) (GetClusterById env)
        (GetFlavour env) (GetOrCreateRuntime env)
        (fun _ => inr (errors_New "unknown job type")) (ValidateJob env)
        (GenerateID env) (JSONToYAML env).

Definition ctx0 : RequestContext.t := RequestContext.mk "".

Definition request (id priority extensionTemplate : string) : CreateSingleJobRequest.t :=
  CreateSingleJobRequest.mk
    (CommonJobInfo.mk id "job1" ∅ ∅ (SchedulingPolicy.mk "q1" priority) "root")
    (JobSpec.mk (schema.Flavour.mk "flavour1") (schema.FileSystem.mk "fs1") []
       "busybox" ∅ "sleep 10" [] 0 extensionTemplate).

End sample.

(** ** Notions used in the statements *)

(** What [UpdateJobStatus] hands to [Updates] for a stored job. *)
Definition status_update (errMessage : string) (jobStatus : schema.JobStatus)
    (job : Job.t) : Job.t :=
  let job :=
    if negb (String.eqb jobStatus "") && negb (schema.IsImmutableJobStatus (Job.Status job))
    then Job.with_Status jobStatus job else job in
  if negb (String.eqb errMessage "") then Job.with_Message errMessage job else job.

(** The error [StopJob] builds for a job that has finished (lines 379-381):
    the StateConflictError of the specification. *)
Definition StateConflictError (jobID : string) (status : schema.JobStatus) : error :=
  Errorf ("job " +:+ jobID +:+ " status is already " +:+ status
          +:+ ", and job cannot be stopped") [].

(** The lookups of [DeleteJob] and [StopJob] between the read of the job and
    the call of the backend all answer: the queue of the job, its cluster, the
    runtime handle of that cluster, and the job-info view. *)
Definition resolves (env : Env) (job : Job.t) (svc : RuntimeService.t) (pfjob : PFJob.t)
  : Prop :=
  exists queue cluster,
    GetQueueByID env (Job.QueueID job) = (queue, None)
    /\ GetClusterById env (Queue.ClusterId queue) = (cluster, None)
    /\ GetOrCreateRuntime env cluster = inl svc
    /\ NewJobInfo env job = inl pfjob.

(** The line both failure branches of [DeleteJob] log (lines 356 and 361). *)
Definition delete_failed_line (jobID : string) (err : error) : LogEntry :=
  mkLog Std Error "delete job %s from cluster failed, err: %v" [LStr jobID; LErr (Some err)].

(** What [UpdateJob] hands to [Save] for a stored job, when the clock reads [t]. *)
Definition job_update (status : schema.JobStatus) (info : option interface_)
    (message : string) (t : Z) (job : Job.t) : Job.t :=
  let job :=
    if negb (String.eqb status "") && negb (schema.IsImmutableJobStatus (Job.Status job))
    then Job.with_Status status job else job in
  let job := match info with Some _ => Job.with_RuntimeInfo info job | None => job end in
  let job := if negb (String.eqb message "") then Job.with_Message message job else job in
  if String.eqb status schema.StatusJobRunning
  then Job.with_ActivatedAt (NullTime.mk t true) job else job.

(** [json.Marshal] accepts the runtime info of the call, if there is one. *)
Definition marshals (env : Env) (info : option interface_) : Prop :=
  match info with
  | Some i => snd (json_Marshal env i) = None
  | None => True
  end.

(** A plain run id: ASCII characters only, none of them the wildcards [%]
    and [_] of [LIKE] or the zero byte. *)
Fixpoint plain (s : string) : bool :=
  match s with
  | EmptyString => true
  | String c s' =>
      let v := N_of_ascii c in
      ((0 <? v) && (v <? 0x80) && negb (v =? 37) && negb (v =? 95))%N && plain s'
  end.

(** a byte with an ASCII capital turned to lower case *)
Definition fold_case (c : ascii) : N := gorm.Tolower (N_of_ascii c).

(** [s] starts with [q], the case of ASCII letters set aside. *)
Fixpoint prefix_nocase (q s : string) : bool :=
  match q, s with
  | EmptyString, _ => true
  | String _ _, EmptyString => false
  | String c q', String d s' => (fold_case c =? fold_case d)%N && prefix_nocase q' s'
  end.

(** The id has the form job-<runID>-*: it starts with job-<runID>-. *)
Definition of_run (runID : string) (j : Job.t) : bool :=
  String.prefix ("job-" +:+ runID +:+ "-") (Job.ID j).

(** The id starts with job-<runID>-, the case of ASCII letters set aside. *)
Definition of_run_nocase (runID : string) (j : Job.t) : bool :=
  prefix_nocase ("job-" +:+ runID +:+ "-") (Job.ID j).

(** The same collaborators with another JSON-to-YAML converter. *)
Definition with_JSONToYAML (convert : string -> string * option error) (env : Env) : Env :=
  mkEnv (db_fault env) (json_Marshal env) (GetQueueByID env) (GetClusterById env)
        (GetFlavour env) (GetOrCreateRuntime env) (NewJobInfo env) (ValidateJob env)
        (GenerateID env) convert.

(** The table [after] is the table [before] with some rows under [jobID]
    rewritten in place: no row is added, removed or moved, rows of other jobs
    are the same, and every row keeps its id. *)
Definition only_touches (jobID : string) (before after : list Job.t) : Prop :=
  exists f : Job.t -> Job.t,
    after = List.map f before
    /\ (forall r, gorm.id_is jobID r = false -> f r = r)
    /\ (forall r, Job.ID (f r) = Job.ID r).

(** The configuration [CreateSingleJob] builds from a request, the queue
    record and the flavour record, as lines 183-194, [patchSingleEnvs] and
    [checkPriority] leave it. *)
Definition built_conf (request : CreateSingleJobRequest.t) (queue : Queue.t)
    (flavour : schema.Flavour.t) : schema.Conf.t :=
  let common_ := CreateSingleJobRequest.CommonJobInfo request in
  let spec := CreateSingleJobRequest.JobSpec request in
  let priority := SchedulingPolicy.Priority (CommonJobInfo.SchedulingPolicy common_) in
  schema.Conf.mk
    (CommonJobInfo.Name common_)
    (<[schema.EnvJobQueueName := Queue.Name queue]>
       (<[schema.EnvJobType := schema.TypePodJob]> (JobSpec.Env spec)))
    (JobSpec.Command spec)
    (JobSpec.Image spec)
    (JobSpec.Port spec)
    (schema.Flavour.mk (schema.Flavour.Name flavour))
    (JobSpec.FileSystem spec)
    (JobSpec.ExtraFileSystems spec)
    (if String.eqb priority "" then schema.EnvJobNormalPriority else priority)
    (CommonJobInfo.Labels common_)
    (CommonJobInfo.Annotations common_)
    (JobSpec.Args spec)
    (CommonJobInfo.UserName common_)
    (SchedulingPolicy.QueueID (CommonJobInfo.SchedulingPolicy common_))
    (Queue.ClusterId queue)
    (Queue.Namespace queue)
    (common.ID (CommonJobInfo.UserName common_)
       (schema.FileSystem.Name (JobSpec.FileSystem spec))).

(** The extension template of the request is empty or the converter takes it. *)
Definition template_converts (env : Env) (request : CreateSingleJobRequest.t) : Prop :=
  let ext := JobSpec.ExtensionTemplate (CreateSingleJobRequest.JobSpec request) in
  ext = "" \/ snd (JSONToYAML env ext) = None.

(** One step of a history of the table: a call of one of the writers of the
    two files that never remove a row, each with the collaborators of its
    moment, or the clock moving. *)
Inductive update : Type :=
| ByUpdateJobStatus (env : Env) (jobId errMessage : string) (jobStatus : schema.JobStatus)
| ByUpdateJob (env : Env) (jobID : string) (status : schema.JobStatus)
    (info : option interface_) (message : string)
| ByCreateJob (env : Env) (conf : schema.Conf.t) (jobID jobTemplate : string)
| ClockReads (t : Z).

Definition apply_update (w : World) (u : update) : World :=
  match u with
  | ByUpdateJobStatus env jobId errMessage jobStatus =>
      snd (models.UpdateJobStatus env jobId errMessage jobStatus w)
  | ByUpdateJob env jobID status info message =>
      snd (models.UpdateJob env jobID status info message w)
  | ByCreateJob env conf jobID jobTemplate =>
      snd (controller.CreateJob env conf jobID jobTemplate w)
  | ClockReads t => mkWorld (db w) t (calls w) (logs w)
  end.

(** The row a read under [jobID] scans. *)
Definition first_row (jobID : string) (w : World) : option Job.t :=
  List.find (gorm.id_is jobID) (db w).

(** * Properties *)

(** ** Reading the repository *)

Section Lookup.

Variable env : Env.

Lemma GetJobByID_found (jobID : string) (w : World) (r : Job.t) :
  db_fault env OpFirst = None ->
  List.find (gorm.id_is jobID) (db w) = Some r ->
  models.GetJobByID env jobID w = ((gorm.to_row r, None), w).
Proof.
  intros Hf Hr. unfold models.GetJobByID, gorm.First, bind, ret, get_db.
  rewrite Hf, Hr. reflexivity.
Qed.

Lemma GetJobByID_missing (jobID : string) (w : World) :
  db_fault env OpFirst = None ->
  List.find (gorm.id_is jobID) (db w) = None ->
  fst (models.GetJobByID env jobID w) = (Job.zero, Some ErrRecordNotFound).
Proof.
  intros Hf Hr. unfold models.GetJobByID, gorm.First, bind, ret, get_db.
  rewrite Hf, Hr. reflexivity.
Qed.

(** A successful read is a read of the first live row under that id, and
    writes nothing, not even a log line. *)
Lemma GetJobByID_ok_inv (jobID : string) (w w' : World) (job : Job.t) :
  models.GetJobByID env jobID w = ((job, None), w') ->
  db_fault env OpFirst = None
  /\ (exists r, List.find (gorm.id_is jobID) (db w) = Some r /\ job = gorm.to_row r)
  /\ w' = w.
Proof.
  unfold models.GetJobByID, gorm.First, bind, ret, get_db, emit.
  destruct (db_fault env OpFirst) as [e|]; [discriminate|].
  destruct (List.find (gorm.id_is jobID) (db w)) as [r|]; [|discriminate].
  intros H. inversion H. subst. eauto.
Qed.

Lemma found_id_is (jobID : string) (rows : list Job.t) (job : Job.t) :
  List.find (gorm.id_is jobID) rows = Some job -> gorm.id_is jobID job = true.
Proof. intros H. apply List.find_some in H. tauto. Qed.

End Lookup.

Lemma id_is_inv (jobID : string) (r : Job.t) :
  gorm.id_is jobID r = true ->
  Job.ID r = jobID /\ NullTime.Valid (Job.DeletedAt r) = false.
Proof.
  unfold gorm.id_is, gorm.live. intros H.
  apply andb_prop in H. destruct H as [H1 H2].
  apply String.eqb_eq in H1. apply negb_true_iff in H2. auto.
Qed.

Lemma id_is_intro (jobID : string) (r : Job.t) :
  Job.ID r = jobID -> NullTime.Valid (Job.DeletedAt r) = false ->
  gorm.id_is jobID r = true.
Proof.
  unfold gorm.id_is, gorm.live. intros -> ->. now rewrite String.eqb_refl.
Qed.

Lemma to_row_fields (j : Job.t) :
  Job.Pk (gorm.to_row j) = Job.Pk j
  /\ Job.ID (gorm.to_row j) = Job.ID j
  /\ Job.Status (gorm.to_row j) = Job.Status j
  /\ Job.Message (gorm.to_row j) = Job.Message j
  /\ Job.ActivatedAt (gorm.to_row j) = Job.ActivatedAt j
  /\ Job.DeletedAt (gorm.to_row j) = Job.DeletedAt j
  /\ Job.RuntimeInfo (gorm.to_row j) = None.
Proof. destruct j. repeat split. Qed.

Lemma id_is_to_row (jobID : string) (j : Job.t) :
  gorm.id_is jobID (gorm.to_row j) = gorm.id_is jobID j.
Proof. now destruct j. Qed.

Lemma to_row_assign_nonzero (t : Z) (job r : Job.t) :
  gorm.to_row (gorm.assign_nonzero t job r) = gorm.assign_nonzero t job r.
Proof. reflexivity. Qed.

Lemma pick_str_same (s : string) : gorm.pick_str s s = s.
Proof. unfold gorm.pick_str. now destruct (String.eqb s ""). Qed.

Lemma find_map_keep {A} (p : A -> bool) (f : A -> A) (l : list A) :
  (forall r, p (f r) = p r) ->
  List.find p (List.map f l) = option_map f (List.find p l).
Proof.
  intros Hp. induction l as [|a l IH]; simpl; [reflexivity|].
  rewrite Hp. destruct (p a); [reflexivity|exact IH].
Qed.

(** ** [UpdateJobStatus] on a job that has finished *)

(** The columns [Updates] writes for a value that was read from the row and
    changed in status and message only: the row stays under its id. *)
Lemma assign_nonzero_id_is (jobID : string) (t : Z) (job r : Job.t) :
  gorm.id_is jobID job = true ->
  gorm.id_is jobID r = true ->
  gorm.id_is jobID (gorm.assign_nonzero t job r) = true.
Proof.
  intros Hj Hr. apply id_is_inv in Hj, Hr. destruct Hj as [Hj1 Hj2], Hr as [Hr1 Hr2].
  apply id_is_intro; unfold gorm.assign_nonzero; simpl.
  - rewrite Hj1, Hr1. apply pick_str_same.
  - now destruct (NullTime.isZero (Job.DeletedAt job)).
Qed.

Lemma id_is_with_Status (jobID : string) (s : string) (j : Job.t) :
  gorm.id_is jobID (Job.with_Status s j) = gorm.id_is jobID j.
Proof. now destruct j. Qed.

Lemma id_is_with_Message (jobID : string) (s : string) (j : Job.t) :
  gorm.id_is jobID (Job.with_Message s j) = gorm.id_is jobID j.
Proof. now destruct j. Qed.

Lemma Updates_ok (env : Env) (jobID : string) (job : Job.t) (w : World) :
  db_fault env OpUpdates = None ->
  gorm.Updates env jobID job w
  = (None,
     mkWorld
       (List.map (fun r => if gorm.id_is jobID r
                           then gorm.assign_nonzero (now w) job r else r) (db w))
       (now w) (calls w ++ [RepoUpdates jobID job]) (logs w)).
Proof.
  intros Hf. unfold gorm.Updates, bind, ret, record_call, time_Now, get_db, put_db.
  simpl. rewrite Hf. reflexivity.
Qed.

Lemma Updates_fault (env : Env) (jobID : string) (job : Job.t) (w : World) (e : error) :
  db_fault env OpUpdates = Some e ->
  gorm.Updates env jobID job w
  = (Some e, mkWorld (db w) (now w) (calls w ++ [RepoUpdates jobID job]) (logs w)).
Proof.
  intros Hf. unfold gorm.Updates, bind, ret, record_call. simpl. rewrite Hf. reflexivity.
Qed.

Lemma UpdateJobStatus_stored (env : Env) (jobId errMessage : string)
    (jobStatus : schema.JobStatus) (job : Job.t) (w : World) :
  models.GetJobByID env jobId w = ((job, None), w) ->
  models.UpdateJobStatus env jobId errMessage jobStatus w
  = (let w1 := mkWorld (db w) (now w) (calls w)
                 (logs w ++ [mkLog Std Info "update job [%+v]"
                               [LJob (status_update errMessage jobStatus job)]]) in
     let (txError, w2) :=
       gorm.Updates env jobId (status_update errMessage jobStatus job) w1 in
     (txError, w2)).
Proof.
  intros Hg. unfold models.UpdateJobStatus, bind at 1. rewrite Hg.
  unfold status_update, bind, ret, log_Infof, emit. simpl.
  match goal with |- context [gorm.Updates ?e ?i ?j ?w] =>
    destruct (gorm.Updates e i j w) as [[err|] w2] end; reflexivity.
Qed.

Lemma status_update_id_is (jobID errMessage : string) (jobStatus : schema.JobStatus)
    (job : Job.t) :
  gorm.id_is jobID (status_update errMessage jobStatus job) = gorm.id_is jobID job.
Proof.
  unfold status_update.
  destruct (negb (String.eqb errMessage "")); [rewrite id_is_with_Message|];
    destruct (negb (String.eqb jobStatus "")
              && negb (schema.IsImmutableJobStatus (Job.Status job)));
    now rewrite ?id_is_with_Status.
Qed.

Lemma status_update_terminal (errMessage : string) (jobStatus : schema.JobStatus)
    (job : Job.t) :
  schema.IsImmutableJobStatus (Job.Status job) = true ->
  Job.Status (status_update errMessage jobStatus job) = Job.Status job
  /\ Job.Message (status_update errMessage jobStatus job)
     = if String.eqb errMessage "" then Job.Message job else errMessage.
Proof.
  intros Ht. unfold status_update. rewrite Ht, andb_false_r.
  destruct (String.eqb errMessage ""); simpl; destruct job; auto.
Qed.

(** C1, as the code has it.  For a job whose stored status is terminal,
    [UpdateJobStatus] never changes the stored status; the stored message is
    replaced by [errMessage] when that is not empty and kept otherwise; and
    the caller gets the error of the store's update statement, which is [nil]
    when the store works: the refused transition itself is not reported. *)
Theorem UpdateJobStatus_terminal_keeps_status (env : Env) (jobId errMessage : string)
    (jobStatus : schema.JobStatus) (job : Job.t) (w : World) :
  models.GetJobByID env jobId w = ((job, None), w) ->
  schema.IsImmutableJobStatus (Job.Status job) = true ->
  let (err, w') := models.UpdateJobStatus env jobId errMessage jobStatus w in
  err = db_fault env OpUpdates
  /\ match db_fault env OpUpdates with
     | Some _ => db w' = db w
     | None =>
         exists job',
           models.GetJobByID env jobId w' = ((job', None), w')
           /\ Job.Status job' = Job.Status job
           /\ Job.Message job'
              = if String.eqb errMessage "" then Job.Message job else errMessage
     end.
Proof.
  intros Hg Ht. rewrite (UpdateJobStatus_stored _ _ _ _ _ _ Hg).
  apply GetJobByID_ok_inv in Hg. destruct Hg as (Hf & (r0 & Hfind & ->) & _).
  pose proof (found_id_is _ _ _ Hfind) as Hid.
  destruct (status_update_terminal errMessage jobStatus _ Ht) as [Hs Hm].
  destruct (to_row_fields r0) as (_ & _ & Hst & Hms & _).
  destruct (db_fault env OpUpdates) as [e|] eqn:Hu; cbv zeta.
  - rewrite (Updates_fault _ _ _ _ e Hu). simpl. auto.
  - rewrite (Updates_ok _ _ _ _ Hu). simpl. split; [reflexivity|].
    set (job1 := status_update errMessage jobStatus (gorm.to_row r0)) in *.
    exists (gorm.assign_nonzero (now w) job1 r0). split.
    + rewrite <- to_row_assign_nonzero.
      apply GetJobByID_found; [exact Hf|]. simpl.
      rewrite find_map_keep.
      * now rewrite Hfind; simpl; rewrite Hid.
      * intros r. destruct (gorm.id_is jobId r) eqn:Hr; [|exact Hr].
        apply assign_nonzero_id_is; [|exact Hr].
        unfold job1. now rewrite status_update_id_is, id_is_to_row.
    + unfold gorm.assign_nonzero; simpl. rewrite Hs, Hm, Hst, Hms, pick_str_same.
      split; [reflexivity|].
      unfold gorm.pick_str.
      destruct (String.eqb errMessage "") eqn:He; [|now rewrite He].
      now destruct (String.eqb (Job.Message r0) "").
Qed.

Lemma UpdateJobStatus_terminal_keeps_status_witness :
  let w := sample.world
             [sample.row 1 "job-1" schema.StatusJobFailed "image pull failed" NullTime.zero]
             100 in
  let (err, w') := models.UpdateJobStatus sample.env_ok "job-1" "" "running" w in
  err = None
  /\ exists job',
       models.GetJobByID sample.env_ok "job-1" w' = ((job', None), w')
       /\ Job.Status job' = schema.StatusJobFailed
       /\ Job.Message job' = "image pull failed".
Proof.
  exact (UpdateJobStatus_terminal_keeps_status sample.env_ok "job-1" "" "running"
           (sample.row 1 "job-1" schema.StatusJobFailed "image pull failed" NullTime.zero)
           (sample.world
              [sample.row 1 "job-1" schema.StatusJobFailed "image pull failed" NullTime.zero]
              100)
           eq_refl eq_refl).
Defined.

(** C1, as the specification words it, fails: on a job that has succeeded, an
    update to running with a message returns no error, and the stored message
    is overwritten. *)
Lemma UpdateJobStatus_terminal_not_refused :
  let job := sample.row 1 "job-1" schema.StatusJobSucceeded "done" NullTime.zero in
  let w := sample.world [job] 100 in
  let out := models.UpdateJobStatus sample.env_ok "job-1" "boom" schema.StatusJobRunning w in
  models.GetJobByID sample.env_ok "job-1" w = ((job, None), w)
  /\ schema.IsImmutableJobStatus (Job.Status job) = true
  /\ fst out = None
  /\ List.map Job.Status (db (snd out)) = [schema.StatusJobSucceeded]
  /\ List.map Job.Message (db (snd out)) = ["boom"].
Proof. vm_compute. repeat split. Qed.

(** ** [StopJob] on a job that has finished *)

(** C2.  For a job whose stored status is terminal, [StopJob] returns the
    state-conflict error, and neither the Runtime Service nor the Job
    Repository receives a call: the table and the list of calls are as
    before. *)
Theorem StopJob_terminal_rejected (env : Env) (ctx : RequestContext.t) (jobID : string)
    (job : Job.t) (w : World) :
  models.GetJobByID env jobID w = ((job, None), w) ->
  schema.IsImmutableJobStatus (Job.Status job) = true ->
  let (r, w') := controller.StopJob env ctx jobID w in
  r = (ctx, Some (StateConflictError jobID (Job.Status job)))
  /\ db w' = db w
  /\ calls w' = calls w.
Proof.
  intros Hg Ht. unfold controller.StopJob, controller.CheckPermission, bind at 1.
  rewrite Hg, Ht. unfold bind, ret, log_Errorf, emit. simpl. auto.
Qed.

Lemma StopJob_terminal_rejected_witness :
  let w := sample.world
             [sample.row 7 "job-7" schema.StatusJobTerminated "" NullTime.zero] 50 in
  let (r, w') := controller.StopJob sample.env_ok sample.ctx0 "job-7" w in
  r = (sample.ctx0, Some (StateConflictError "job-7" schema.StatusJobTerminated))
  /\ db w' = db w
  /\ calls w' = calls w.
Proof.
  exact (StopJob_terminal_rejected sample.env_ok sample.ctx0 "job-7"
           (sample.row 7 "job-7" schema.StatusJobTerminated "" NullTime.zero)
           (sample.world
              [sample.row 7 "job-7" schema.StatusJobTerminated "" NullTime.zero] 50)
           eq_refl eq_refl).
Defined.

(** ** [DeleteJob] *)

Lemma getRuntimeByQueue_resolved (env : Env) (ctx : RequestContext.t) (job : Job.t)
    (svc : RuntimeService.t) (pfjob : PFJob.t) (w : World) :
  resolves env job svc pfjob ->
  controller.getRuntimeByQueue env ctx (Job.QueueID job) w = ((ctx, inl svc), w).
Proof.
  intros (queue & cluster & Hq & Hc & Hr & _).
  unfold controller.getRuntimeByQueue. rewrite Hq, Hc, Hr. reflexivity.
Qed.

(** The whole of [DeleteJob] once the job is read and the lookups answer. *)
Lemma DeleteJob_resolved (env : Env) (ctx : RequestContext.t) (jobID : string)
    (job : Job.t) (svc : RuntimeService.t) (pfjob : PFJob.t) (w : World) :
  models.GetJobByID env jobID w = ((job, None), w) ->
  resolves env job svc pfjob ->
  controller.DeleteJob env ctx jobID w
  = match RuntimeService.DeleteJob svc pfjob with
    | Some e =>
        ((ctx, Some e),
         mkWorld (db w) (now w) (calls w ++ [RuntimeDeleteJob pfjob])
           (logs w ++ [delete_failed_line jobID e]))
    | None =>
        match db_fault env OpDelete with
        | Some e =>
            ((ctx, Some e),
             mkWorld (db w) (now w)
               ((calls w ++ [RuntimeDeleteJob pfjob]) ++ [RepoDelete jobID])
               (logs w ++ [delete_failed_line jobID e]))
        | None =>
            ((ctx, None),
             mkWorld (List.filter (fun r => negb (gorm.id_is jobID r)) (db w)) (now w)
               ((calls w ++ [RuntimeDeleteJob pfjob]) ++ [RepoDelete jobID])
               (logs w))
        end
    end.
Proof.
  intros Hg Hres.
  unfold controller.DeleteJob, controller.CheckPermission, bind at 1. rewrite Hg.
  unfold bind at 1. rewrite (getRuntimeByQueue_resolved _ ctx _ _ _ w Hres).
  destruct Hres as (queue & cluster & _ & _ & _ & Hn). rewrite Hn.
  unfold bind, ret, record_call, log_Errorf, emit, models.DeleteJob, gorm.Delete,
    get_db, put_db. simpl.
  destruct (RuntimeService.DeleteJob svc pfjob) as [e|]; [reflexivity|].
  destruct (db_fault env OpDelete) as [e|]; reflexivity.
Qed.

Lemma find_filter_out {A} (p : A -> bool) (l : list A) :
  List.find p (List.filter (fun r => negb (p r)) l) = None.
Proof.
  induction l as [|a l IH]; simpl; [reflexivity|].
  destruct (p a) eqn:Hp; simpl; [exact IH|]. now rewrite Hp.
Qed.

(** A failed backend delete, then a retry against a backend that accepts. *)
Lemma DeleteJob_failure_then_retry
    (env env' : Env) (ctx : RequestContext.t) (jobID : string) (job : Job.t)
    (svc svc' : RuntimeService.t) (pfjob pfjob' : PFJob.t) (e : error) (w : World) :
  models.GetJobByID env jobID w = ((job, None), w) ->
  resolves env job svc pfjob ->
  RuntimeService.DeleteJob svc pfjob = Some e ->
  db_fault env' OpFirst = None ->
  db_fault env' OpDelete = None ->
  resolves env' job svc' pfjob' ->
  RuntimeService.DeleteJob svc' pfjob' = None ->
  let (r, w1) := controller.DeleteJob env ctx jobID w in
  r = (ctx, Some e)
  /\ db w1 = db w
  /\ calls w1 = calls w ++ [RuntimeDeleteJob pfjob]
  /\ let (r', w2) := controller.DeleteJob env' ctx jobID w1 in
     r' = (ctx, None)
     /\ calls w2 = calls w1 ++ [RuntimeDeleteJob pfjob'; RepoDelete jobID]
     /\ fst (models.GetJobByID env' jobID w2) = (Job.zero, Some ErrRecordNotFound).
Proof.
  intros Hg Hres He Hf' Hd' Hres' Hok'.
  rewrite (DeleteJob_resolved _ ctx _ _ _ _ _ Hg Hres), He.
  repeat (split; [reflexivity|]).
  apply GetJobByID_ok_inv in Hg. destruct Hg as (_ & (r0 & Hfind & Hjob) & _).
  set (w1 := mkWorld (db w) (now w) (calls w ++ [RuntimeDeleteJob pfjob])
               (logs w ++ [delete_failed_line jobID e])).
  assert (Hg1 : models.GetJobByID env' jobID w1 = ((job, None), w1))
    by (rewrite Hjob; apply GetJobByID_found; [exact Hf'|exact Hfind]).
  rewrite (DeleteJob_resolved _ ctx _ _ _ _ _ Hg1 Hres'), Hok', Hd'.
  split; [reflexivity|]. split; [now rewrite <- app_assoc|].
  apply GetJobByID_missing; [exact Hf'|]. simpl. apply find_filter_out.
Qed.

Lemma resolves_sample (svc : RuntimeService.t) (fault : DbOp -> option error) (j : Job.t) :
  resolves (sample.with_fault fault (sample.with_runtime svc sample.env_ok)) j svc
    (sample.view j).
Proof.
  exists (Queue.mk "default" "c1" "ns1"), (ClusterInfo.mk "c1"). repeat split.
Defined.

Lemma GetJobByID_frame (env : Env) (jobID : string) (w : World) :
  let (r, w') := models.GetJobByID env jobID w in
  db w' = db w /\ calls w' = calls w.
Proof.
  unfold models.GetJobByID, gorm.First, bind, ret, get_db, emit.
  destruct (db_fault env OpFirst) as [e|]; simpl; [auto|].
  destruct (List.find (gorm.id_is jobID) (db w)); simpl; auto.
Qed.

Lemma getRuntimeByQueue_frame (env : Env) (ctx : RequestContext.t) (queueID : string)
    (w : World) :
  let (r, w') := controller.getRuntimeByQueue env ctx queueID w in
  db w' = db w /\ calls w' = calls w.
Proof.
  unfold controller.getRuntimeByQueue, bind, ret, log_Errorf, emit.
  destruct (GetQueueByID env queueID) as [queue [e|]]; simpl; [auto|].
  destruct (GetClusterById env _) as [cluster [e|]]; simpl; [auto|].
  destruct (GetOrCreateRuntime env cluster) as [svc|e]; simpl; auto.
Qed.

(** The calls one [DeleteJob] makes: none; or the backend's delete alone, and
    then the caller gets an error and the table is untouched; or the backend's
    delete, answered with [nil], followed by the repository's delete. *)
Lemma DeleteJob_calls (env : Env) (ctx : RequestContext.t) (jobID : string) (w : World) :
  let (r, w') := controller.DeleteJob env ctx jobID w in
  (calls w' = calls w /\ db w' = db w /\ snd r <> None)
  \/ (exists pfjob,
        calls w' = calls w ++ [RuntimeDeleteJob pfjob] /\ db w' = db w /\ snd r <> None)
  \/ (exists svc pfjob,
        RuntimeService.DeleteJob svc pfjob = None
        /\ calls w' = calls w ++ [RuntimeDeleteJob pfjob; RepoDelete jobID]).
Proof.
  unfold controller.DeleteJob, controller.CheckPermission, bind at 1.
  pose proof (GetJobByID_frame env jobID w) as Hg.
  destruct (models.GetJobByID env jobID w) as [[job [e|]] w1].
  - left. unfold bind, ret, log_Errorf, emit. simpl. destruct Hg. repeat split; auto; try discriminate.
  - unfold bind at 1.
    pose proof (getRuntimeByQueue_frame env ctx (Job.QueueID job) w1) as Hq.
    destruct (controller.getRuntimeByQueue env ctx (Job.QueueID job) w1)
      as [[ctx1 [svc|e]] w2].
    + destruct Hg as [Hg1 Hg2], Hq as [Hq1 Hq2].
      destruct (NewJobInfo env job) as [pfjob|e].
      * unfold bind, ret, record_call, log_Errorf, emit, models.DeleteJob, gorm.Delete,
          get_db, put_db. simpl.
        destruct (RuntimeService.DeleteJob svc pfjob) as [e|] eqn:Hrt.
        -- simpl. right. left. exists pfjob. simpl. repeat split; try congruence.
        -- destruct (db_fault env OpDelete) as [e|]; simpl;
             right; right; exists svc, pfjob; (split; [exact Hrt|]);
             rewrite <- app_assoc; simpl; congruence.
      * left. unfold ret. simpl. repeat split; try congruence.
    + left. unfold bind, ret, log_Errorf, emit. simpl.
      destruct Hg, Hq. repeat split; try congruence.
Qed.

(** C3.  The repository's delete is called only after the Runtime Service's
    [DeleteJob] has answered [nil].  When the Runtime Service's [DeleteJob]
    fails, the controller returns that error, the table is untouched and the
    repository receives no call; a retry against a backend whose delete
    succeeds then calls the backend first and the repository's delete after
    it, returns [nil], and the record is gone. *)
Theorem DeleteJob_runtime_failure_keeps_record (env : Env) (ctx : RequestContext.t)
    (jobID : string) (w : World) :
  let (r, w1) := controller.DeleteJob env ctx jobID w in
  ((calls w1 = calls w /\ db w1 = db w /\ snd r <> None)
   \/ (exists pfjob,
         calls w1 = calls w ++ [RuntimeDeleteJob pfjob] /\ db w1 = db w /\ snd r <> None)
   \/ (exists svc pfjob,
         RuntimeService.DeleteJob svc pfjob = None
         /\ calls w1 = calls w ++ [RuntimeDeleteJob pfjob; RepoDelete jobID]))
  /\ forall job svc pfjob e,
       models.GetJobByID env jobID w = ((job, None), w) ->
       resolves env job svc pfjob ->
       RuntimeService.DeleteJob svc pfjob = Some e ->
       r = (ctx, Some e)
       /\ db w1 = db w
       /\ calls w1 = calls w ++ [RuntimeDeleteJob pfjob]
       /\ forall env' svc' pfjob',
            db_fault env' OpFirst = None ->
            db_fault env' OpDelete = None ->
            resolves env' job svc' pfjob' ->
            RuntimeService.DeleteJob svc' pfjob' = None ->
            let (r', w2) := controller.DeleteJob env' ctx jobID w1 in
            r' = (ctx, None)
            /\ calls w2 = calls w1 ++ [RuntimeDeleteJob pfjob'; RepoDelete jobID]
            /\ fst (models.GetJobByID env' jobID w2) = (Job.zero, Some ErrRecordNotFound).
Proof.
  pose proof (DeleteJob_calls env ctx jobID w) as Hcalls.
  destruct (controller.DeleteJob env ctx jobID w) as [r w1] eqn:Hrun.
  split; [exact Hcalls|].
  intros job svc pfjob e Hg Hres He.
  assert (Hall : forall env' svc' pfjob',
             db_fault env' OpFirst = None ->
             db_fault env' OpDelete = None ->
             resolves env' job svc' pfjob' ->
             RuntimeService.DeleteJob svc' pfjob' = None ->
             r = (ctx, Some e)
             /\ db w1 = db w
             /\ calls w1 = calls w ++ [RuntimeDeleteJob pfjob]
             /\ let (r', w2) := controller.DeleteJob env' ctx jobID w1 in
                r' = (ctx, None)
                /\ calls w2 = calls w1 ++ [RuntimeDeleteJob pfjob'; RepoDelete jobID]
                /\ fst (models.GetJobByID env' jobID w2)
                   = (Job.zero, Some ErrRecordNotFound)).
  { intros env' svc' pfjob' Hf' Hd' Hres' Hok'.
    pose proof (DeleteJob_failure_then_retry env env' ctx jobID job svc svc' pfjob pfjob'
                  e w Hg Hres He Hf' Hd' Hres' Hok') as H.
    rewrite Hrun in H. exact H. }
  pose proof (DeleteJob_resolved _ ctx _ _ _ _ _ Hg Hres) as Hfirst.
  rewrite He, Hrun in Hfirst. inversion Hfirst. subst r w1. simpl.
  repeat (split; [reflexivity|]).
  intros env' svc' pfjob' Hf' Hd' Hres' Hok'.
  destruct (Hall env' svc' pfjob' Hf' Hd' Hres' Hok') as (_ & _ & _ & H). exact H.
Qed.

Lemma DeleteJob_runtime_failure_keeps_record_witness :
  let job := sample.row 3 "job-3" schema.StatusJobRunning "" NullTime.zero in
  let w := sample.world [job] 50 in
  let down := sample.with_fault (fun _ => None)
                (sample.with_runtime sample.svc_down sample.env_ok) in
  let up := sample.with_fault (fun _ => None)
              (sample.with_runtime sample.svc_ok sample.env_ok) in
  let (r, w1) := controller.DeleteJob down sample.ctx0 "job-3" w in
  r = (sample.ctx0, Some sample.unreachable)
  /\ db w1 = db w
  /\ calls w1 = calls w ++ [RuntimeDeleteJob (sample.view job)]
  /\ let (r', w2) := controller.DeleteJob up sample.ctx0 "job-3" w1 in
     r' = (sample.ctx0, None)
     /\ calls w2 = calls w1 ++ [RuntimeDeleteJob (sample.view job); RepoDelete "job-3"]
     /\ fst (models.GetJobByID up "job-3" w2) = (Job.zero, Some ErrRecordNotFound).
Proof.
  intros job w down up.
  pose proof (DeleteJob_runtime_failure_keeps_record down sample.ctx0 "job-3" w) as H.
  destruct (controller.DeleteJob down sample.ctx0 "job-3" w) as [r w1].
  destruct H as [_ H].
  destruct (H job sample.svc_down (sample.view job) sample.unreachable
              eq_refl (resolves_sample _ _ _) eq_refl) as (Hr & Hd & Hc & Hretry).
  repeat (split; [assumption|]).
  exact (Hretry up sample.svc_ok (sample.view job) eq_refl eq_refl
           (resolves_sample _ _ _) eq_refl).
Defined.

(** C5, as the code has it.  [DeleteJob] never looks at the status.  For a job
    whose stored status is terminal and whose lookups answer, it calls the
    Runtime Service's [DeleteJob]; when that fails it returns the backend's
    error and leaves the table alone; when that succeeds it calls the
    repository's delete and returns what the store answers, the record being
    gone when the store works.  No state-conflict error is produced. *)
Theorem DeleteJob_terminal_proceeds (env : Env) (ctx : RequestContext.t) (jobID : string)
    (job : Job.t) (svc : RuntimeService.t) (pfjob : PFJob.t) (w : World) :
  models.GetJobByID env jobID w = ((job, None), w) ->
  schema.IsImmutableJobStatus (Job.Status job) = true ->
  resolves env job svc pfjob ->
  let (r, w') := controller.DeleteJob env ctx jobID w in
  match RuntimeService.DeleteJob svc pfjob with
  | Some e =>
      r = (ctx, Some e)
      /\ calls w' = calls w ++ [RuntimeDeleteJob pfjob]
      /\ db w' = db w
  | None =>
      r = (ctx, db_fault env OpDelete)
      /\ calls w' = calls w ++ [RuntimeDeleteJob pfjob; RepoDelete jobID]
      /\ (db_fault env OpDelete = None ->
          fst (models.GetJobByID env jobID w') = (Job.zero, Some ErrRecordNotFound))
  end.
Proof.
  intros Hg _ Hres. rewrite (DeleteJob_resolved _ ctx _ _ _ _ _ Hg Hres).
  apply GetJobByID_ok_inv in Hg. destruct Hg as (Hf & _ & _).
  destruct (RuntimeService.DeleteJob svc pfjob) as [e|]; [auto|].
  destruct (db_fault env OpDelete) as [e|]; simpl.
  - split; [reflexivity|]. split; [now rewrite <- app_assoc|]. discriminate.
  - split; [reflexivity|]. split; [now rewrite <- app_assoc|]. intros _.
    apply GetJobByID_missing; [exact Hf|]. simpl. apply find_filter_out.
Qed.

Lemma DeleteJob_terminal_proceeds_witness :
  let job := sample.row 4 "job-4" schema.StatusJobFailed "oom" NullTime.zero in
  let w := sample.world [job] 60 in
  let env := sample.with_fault (fun _ => None)
               (sample.with_runtime sample.svc_ok sample.env_ok) in
  let (r, w') := controller.DeleteJob env sample.ctx0 "job-4" w in
  r = (sample.ctx0, None)
  /\ calls w' = calls w ++ [RuntimeDeleteJob (sample.view job); RepoDelete "job-4"]
  /\ fst (models.GetJobByID env "job-4" w') = (Job.zero, Some ErrRecordNotFound).
Proof.
  intros job w env.
  pose proof (DeleteJob_terminal_proceeds env sample.ctx0 "job-4" job sample.svc_ok
                (sample.view job) w eq_refl eq_refl (resolves_sample _ _ _)) as H.
  destruct (controller.DeleteJob env sample.ctx0 "job-4" w) as [r w'].
  destruct H as (Hr & Hc & Hgone).
  split; [exact Hr|]. split; [exact Hc|]. exact (Hgone eq_refl).
Defined.

(** C5, as the specification words it, fails: on a job that has succeeded,
    [DeleteJob] calls the backend and then the repository's delete, returns
    [nil], and the record is gone. *)
Lemma DeleteJob_terminal_not_refused :
  let job := sample.row 1 "job-1" schema.StatusJobSucceeded "done" NullTime.zero in
  let w := sample.world [job] 100 in
  let out := controller.DeleteJob sample.env_ok sample.ctx0 "job-1" w in
  models.GetJobByID sample.env_ok "job-1" w = ((job, None), w)
  /\ schema.IsImmutableJobStatus (Job.Status job) = true
  /\ fst out = (sample.ctx0, None)
  /\ calls (snd out) = [RuntimeDeleteJob (sample.view job); RepoDelete "job-1"]
  /\ db (snd out) = [].
Proof. vm_compute. repeat split. Qed.

(** The two failure branches of [DeleteJob] differ in nothing but the error
    value they pass on: same context, same log line. *)
Lemma DeleteJob_failures_same_report (env1 env2 : Env) (ctx : RequestContext.t)
    (jobID : string) (job : Job.t) (svc1 svc2 : RuntimeService.t) (pf1 pf2 : PFJob.t)
    (e : error) (w : World) :
  models.GetJobByID env1 jobID w = ((job, None), w) ->
  models.GetJobByID env2 jobID w = ((job, None), w) ->
  resolves env1 job svc1 pf1 ->
  resolves env2 job svc2 pf2 ->
  RuntimeService.DeleteJob svc1 pf1 = Some e ->
  RuntimeService.DeleteJob svc2 pf2 = None ->
  db_fault env2 OpDelete = Some e ->
  fst (controller.DeleteJob env1 ctx jobID w) = fst (controller.DeleteJob env2 ctx jobID w)
  /\ logs (snd (controller.DeleteJob env1 ctx jobID w))
     = logs (snd (controller.DeleteJob env2 ctx jobID w)).
Proof.
  intros Hg1 Hg2 Hr1 Hr2 He1 He2 Hd.
  rewrite (DeleteJob_resolved _ ctx _ _ _ _ _ Hg1 Hr1), He1.
  rewrite (DeleteJob_resolved _ ctx _ _ _ _ _ Hg2 Hr2), He2, Hd.
  split; reflexivity.
Qed.

(** C6 fails on the code.  With the same job in the same table, a cluster
    whose delete is refused and a store whose delete statement is refused
    (after the cluster accepted) give the caller the same error, the same
    untouched error code and the same log line, which names the cluster in
    both cases; only the calls that were made tell the two apart. *)
Theorem DeleteJob_store_failure_reported_as_cluster_failure :
  let job := sample.row 1 "job-1" schema.StatusJobRunning "" NullTime.zero in
  let w := sample.world [job] 100 in
  let cluster_side :=
    controller.DeleteJob (sample.with_runtime sample.svc_down sample.env_ok)
      sample.ctx0 "job-1" w in
  let store_side :=
    controller.DeleteJob (sample.with_fault sample.delete_fails sample.env_ok)
      sample.ctx0 "job-1" w in
  calls (snd cluster_side) = [RuntimeDeleteJob (sample.view job)]
  /\ calls (snd store_side) = [RuntimeDeleteJob (sample.view job); RepoDelete "job-1"]
  /\ fst cluster_side = (sample.ctx0, Some sample.unreachable)
  /\ fst store_side = fst cluster_side
  /\ logs (snd cluster_side) = [delete_failed_line "job-1" sample.unreachable]
  /\ logs (snd store_side) = logs (snd cluster_side).
Proof. vm_compute. repeat split. Qed.

(** ** [UpdateJob] and the activation time *)

Lemma UpdateJob_stored (env : Env) (jobID : string) (status : schema.JobStatus)
    (info : option interface_) (message : string) (job : Job.t) (w : World) :
  models.GetJobByID env jobID w = ((job, None), w) ->
  models.UpdateJob env jobID status info message w
  = (let (s, w2) := gorm.Save env jobID (job_update status info message (now w) job) w in
     match s with
     | (_, Some _) =>
         (("", None),
          mkWorld (db w2) (now w2) (calls w2)
            (logs w2 ++ [mkLog (LoggerForJob jobID) Error "update job failed, err %v"
                           [LErr None]]))
     | (job', None) => ((Job.Status job', None), w2)
     end).
Proof.
  intros Hg. unfold models.UpdateJob, bind at 1. rewrite Hg.
  unfold job_update, bind at 1.
  destruct (String.eqb status schema.StatusJobRunning);
    unfold bind, ret, time_Now, emit; simpl;
    match goal with |- context [gorm.Save ?e ?i ?j ?w] =>
      destruct (gorm.Save e i j w) as [[j' [err|]] w2] end; reflexivity.
Qed.

Lemma job_update_fields (status : schema.JobStatus) (info : option interface_)
    (message : string) (t : Z) (job : Job.t) :
  Job.Pk (job_update status info message t job) = Job.Pk job
  /\ Job.ID (job_update status info message t job) = Job.ID job
  /\ Job.DeletedAt (job_update status info message t job) = Job.DeletedAt job
  /\ Job.RuntimeInfo (job_update status info message t job)
     = match info with Some _ => info | None => Job.RuntimeInfo job end
  /\ Job.ActivatedAt (job_update status info message t job)
     = if String.eqb status schema.StatusJobRunning
       then NullTime.mk t true else Job.ActivatedAt job.
Proof.
  unfold job_update. destruct job.
  destruct (String.eqb status schema.StatusJobRunning), (negb (String.eqb message "")),
    info, (negb (String.eqb status "") && negb (schema.IsImmutableJobStatus _));
    repeat split.
Qed.

Lemma BeforeSave_fields (env : Env) (job job' : Job.t) :
  gorm.BeforeSave env job = (job', None) ->
  Job.Pk job' = Job.Pk job
  /\ Job.ID job' = Job.ID job
  /\ Job.DeletedAt job' = Job.DeletedAt job
  /\ Job.ActivatedAt job' = Job.ActivatedAt job.
Proof.
  unfold gorm.BeforeSave. destruct (Job.RuntimeInfo job) as [i|].
  - destruct (json_Marshal env i) as [js [e|]]; [discriminate|].
    intros H. inversion H. destruct job. repeat split.
  - intros H. inversion H. repeat split.
Qed.

Lemma BeforeSave_marshals (env : Env) (job : Job.t) :
  marshals env (Job.RuntimeInfo job) ->
  exists job', gorm.BeforeSave env job = (job', None).
Proof.
  unfold marshals, gorm.BeforeSave. destruct (Job.RuntimeInfo job) as [i|].
  - destruct (json_Marshal env i) as [js [e|]]; simpl; [discriminate|eauto].
  - eauto.
Qed.

Lemma with_UpdatedAt_fields (t : Z) (j : Job.t) :
  Job.Pk (Job.with_UpdatedAt t j) = Job.Pk j
  /\ Job.ID (Job.with_UpdatedAt t j) = Job.ID j
  /\ Job.DeletedAt (Job.with_UpdatedAt t j) = Job.DeletedAt j
  /\ Job.ActivatedAt (Job.with_UpdatedAt t j) = Job.ActivatedAt j.
Proof. destruct j. repeat split. Qed.

Lemma to_row_idem (j : Job.t) : gorm.to_row (gorm.to_row j) = gorm.to_row j.
Proof. now destruct j. Qed.

(** [Save] of a value that carries the primary key and the id of a live row:
    that row is overwritten and is what the next read under the id finds. *)
Lemma Save_overwrites (env : Env) (jobID : string) (job job' r0 : Job.t) (w : World) :
  db_fault env OpFirst = None ->
  db_fault env OpSave = None ->
  gorm.BeforeSave env job = (job', None) ->
  List.find (gorm.id_is jobID) (db w) = Some r0 ->
  Job.Pk job = Job.Pk r0 ->
  Job.Pk r0 <> 0 ->
  Job.ID job = Job.ID r0 ->
  Job.DeletedAt job = Job.DeletedAt r0 ->
  let saved := Job.with_UpdatedAt (now w) job' in
  exists w',
    gorm.Save env jobID job w = ((saved, None), w')
    /\ models.GetJobByID env jobID w' = ((gorm.to_row saved, None), w').
Proof.
  intros Hf Hs Hb Hfind Hpk Hnz Hid Hdel saved.
  destruct (BeforeSave_fields _ _ _ Hb) as (Bpk & Bid & Bdel & _).
  destruct (with_UpdatedAt_fields (now w) job') as (Upk & Uid & Udel & _).
  fold saved in Upk, Uid, Udel.
  pose proof (found_id_is _ _ _ Hfind) as Hr0.
  assert (Hsaved : gorm.id_is jobID (gorm.to_row saved) = true).
  { rewrite id_is_to_row. apply id_is_inv in Hr0. destruct Hr0 as [Hr1 Hr2].
    apply id_is_intro; congruence. }
  set (hit := fun r => gorm.id_is jobID r && (Job.Pk r =? Job.Pk saved)).
  assert (Hhit0 : hit r0 = true).
  { unfold hit. rewrite Hr0. simpl. apply Z.eqb_eq. congruence. }
  assert (Hex : List.existsb hit (db w) = true).
  { apply List.existsb_exists. exists r0. split; [|exact Hhit0].
    apply List.find_some in Hfind. tauto. }
  eexists. split.
  - unfold gorm.Save, bind, ret, record_call, time_Now, get_db, put_db. simpl.
    rewrite Hb, Hs.
    replace (Job.Pk job' =? 0) with false
      by (symmetry; apply Z.eqb_neq; congruence).
    cbn [db now calls logs]. fold saved. fold hit. rewrite Hex. reflexivity.
  - match goal with |- models.GetJobByID _ _ ?w' = _ =>
      pose proof (GetJobByID_found env jobID w' (gorm.to_row saved) Hf) as H end.
    rewrite to_row_idem in H. apply H. cbn [db].
    rewrite find_map_keep.
    + rewrite Hfind. cbn [option_map]. unfold hit in Hhit0. now rewrite Hhit0.
    + intros r.
      destruct (gorm.id_is jobID r && (Job.Pk r =? Job.Pk saved)) eqn:Hr; [|reflexivity].
      rewrite Hsaved. apply andb_prop in Hr. now destruct Hr as [-> _].
Qed.

(** C7, as the code has it.  [UpdateJob] stamps [ActivatedAt] with the time of
    the call whenever the requested status is running and the job has not
    finished, also when the job is running already; a call with any other
    requested status leaves [ActivatedAt] as it was. *)
Theorem UpdateJob_ActivatedAt (env : Env) (jobID : string) (status : schema.JobStatus)
    (info : option interface_) (message : string) (job : Job.t) (w : World) :
  models.GetJobByID env jobID w = ((job, None), w) ->
  Job.Pk job <> 0 ->
  db_fault env OpSave = None ->
  marshals env info ->
  let (r, w') := models.UpdateJob env jobID status info message w in
  exists job',
    models.GetJobByID env jobID w' = ((job', None), w')
    /\ r = (Job.Status job', None)
    /\ (String.eqb status schema.StatusJobRunning = false ->
        Job.ActivatedAt job' = Job.ActivatedAt job)
    /\ (String.eqb status schema.StatusJobRunning = true ->
        schema.IsImmutableJobStatus (Job.Status job) = false ->
        Job.ActivatedAt job' = NullTime.mk (now w) true).
Proof.
  intros Hg Hpk Hs Hm. rewrite (UpdateJob_stored _ _ _ _ _ _ _ Hg).
  apply GetJobByID_ok_inv in Hg. destruct Hg as (Hf & (r0 & Hfind & ->) & _).
  destruct (to_row_fields r0) as (Tpk & Tid & _ & _ & Tact & Tdel & Tinfo).
  set (job1 := job_update status info message (now w) (gorm.to_row r0)).
  destruct (job_update_fields status info message (now w) (gorm.to_row r0))
    as (Jpk & Jid & Jdel & Jinfo & Jact).
  fold job1 in Jpk, Jid, Jdel, Jinfo, Jact.
  assert (Hm1 : marshals env (Job.RuntimeInfo job1)).
  { rewrite Jinfo. destruct info; [exact Hm|]. now rewrite Tinfo. }
  destruct (BeforeSave_marshals env job1 Hm1) as [job2 Hb].
  destruct (Save_overwrites env jobID job1 job2 r0 w Hf Hs Hb Hfind)
    as (w' & Hsave & Hread); try congruence.
  rewrite Hsave. exists (gorm.to_row (Job.with_UpdatedAt (now w) job2)).
  split; [exact Hread|].
  destruct (BeforeSave_fields _ _ _ Hb) as (_ & _ & _ & Bact).
  destruct (with_UpdatedAt_fields (now w) job2) as (_ & _ & _ & Uact).
  destruct (to_row_fields (Job.with_UpdatedAt (now w) job2))
    as (_ & _ & Sst & _ & Sact & _).
  rewrite Sst, Sact, Uact, Bact, Jact, Tact.
  split; [reflexivity|]. split; intros ->; auto.
Qed.

Lemma UpdateJob_ActivatedAt_witness :
  let job := sample.row 2 "job-2" schema.StatusJobPending "" NullTime.zero in
  let w := sample.world [job] 100 in
  let (r, w') :=
    models.UpdateJob sample.env_ok "job-2" schema.StatusJobRunning None "" w in
  exists job',
    models.GetJobByID sample.env_ok "job-2" w' = ((job', None), w')
    /\ r = (Job.Status job', None)
    /\ Job.ActivatedAt job' = NullTime.mk 100 true.
Proof.
  intros job w.
  assert (Hpk : Job.Pk job <> 0) by (simpl; lia).
  pose proof (UpdateJob_ActivatedAt sample.env_ok "job-2" schema.StatusJobRunning None ""
                job w eq_refl Hpk eq_refl I) as H.
  destruct (models.UpdateJob sample.env_ok "job-2" schema.StatusJobRunning None "" w)
    as [r w'].
  destruct H as (job' & Hread & Hr & _ & Hstamp).
  exists job'. split; [exact Hread|]. split; [exact Hr|].
  exact (Hstamp eq_refl eq_refl).
Defined.

(** C7, as the specification words it, fails: a job activated when the clock
    read 100 and updated to running again when it reads 200 has its
    [ActivatedAt] moved to 200. *)
Lemma UpdateJob_running_again_restamps :
  let w0 := sample.world
              [sample.row 1 "job-1" schema.StatusJobPending "" NullTime.zero] 100 in
  let first := models.UpdateJob sample.env_ok "job-1" schema.StatusJobRunning None "" w0 in
  let w1 := sample.later 200 (snd first) in
  let second := models.UpdateJob sample.env_ok "job-1" schema.StatusJobRunning None "" w1 in
  fst first = (schema.StatusJobRunning, None)
  /\ List.map Job.ActivatedAt (db (snd first)) = [NullTime.mk 100 true]
  /\ fst second = (schema.StatusJobRunning, None)
  /\ List.map Job.ActivatedAt (db (snd second)) = [NullTime.mk 200 true].
Proof. vm_compute. repeat split. Qed.

(** ** [GetJobsByRunID] and the pattern of [LIKE] *)

Lemma append_cons (x : ascii) (a b : string) : String x a +:+ b = String x (a +:+ b).
Proof. reflexivity. Qed.

Lemma Utf8Replace_high (c : N) : (0x80 <= gorm.Utf8Replace c)%N.
Proof.
  unfold gorm.Utf8Replace.
  destruct (c <? 0x80)%N eqn:Hc; cbn [orb]; [lia|].
  apply N.ltb_ge in Hc.
  destruct (_ || _); lia.
Qed.

Lemma Utf8Read_pending (z : string) :
  forall c, exists c' rest, gorm.Utf8Read (Some c) z = gorm.Utf8Replace c' :: rest.
Proof.
  induction z as [|b z IH]; intros c; cbn [gorm.Utf8Read].
  - now exists c, [].
  - destruct (N.land (N_of_ascii b) 0xC0 =? 0x80)%N.
    + apply IH.
    + eexists c, _. reflexivity.
Qed.

Lemma same_char_plain (v w : N) :
  (v < 0x80)%N -> v <> 95%N -> (w < 0x80)%N ->
  gorm.same_char v w = (gorm.Tolower v =? gorm.Tolower w)%N.
Proof.
  intros Hv H95 Hw. unfold gorm.same_char.
  apply N.ltb_lt in Hv. apply N.ltb_lt in Hw. apply N.eqb_neq in H95.
  rewrite Hv, Hw, H95.
  rewrite !andb_true_r, orb_false_r.
  destruct (N.eqb_spec v w) as [->|_]; [now rewrite N.eqb_refl|reflexivity].
Qed.

Lemma same_char_high (v w : N) :
  (v < 0x80)%N -> v <> 95%N -> (0x80 <= w)%N -> gorm.same_char v w = false.
Proof.
  intros Hv H95 Hw. unfold gorm.same_char.
  apply N.eqb_neq in H95. rewrite H95.
  assert ((w <? 0x80) = false)%N as -> by (apply N.ltb_ge; lia).
  assert ((v =? w) = false)%N as -> by (apply N.eqb_neq; lia).
  now rewrite andb_false_r.
Qed.

Lemma Tolower_high (v w : N) :
  (v < 0x80)%N -> (0x80 <= w)%N -> (gorm.Tolower v =? gorm.Tolower w)%N = false.
Proof.
  intros Hv Hw. apply N.eqb_neq. unfold gorm.Tolower.
  destruct (N.leb_spec 65 v), (N.leb_spec v 90), (N.leb_spec 65 w), (N.leb_spec w 90);
    cbn [andb]; lia.
Qed.

Lemma Tolower_zero (v : N) : (0 < v)%N -> (gorm.Tolower v =? gorm.Tolower 0)%N = false.
Proof.
  intros Hv. apply N.eqb_neq. unfold gorm.Tolower. cbn.
  destruct (_ && _); lia.
Qed.

Lemma patternCompare_percent (s : list N) : gorm.patternCompare [37%N] s = true.
Proof. induction s as [|c s IH]; [reflexivity|]. exact IH. Qed.

Lemma like_plain_prefix (q : string) :
  plain q = true ->
  forall s, gorm.like (q +:+ "%") s = prefix_nocase q s.
Proof.
  unfold gorm.like.
  induction q as [|c q IH]; intros Hq s.
  - apply patternCompare_percent.
  - cbn [plain] in Hq.
    apply andb_true_iff in Hq as [Hc Hq].
    apply andb_true_iff in Hc as [Hc H95]. apply andb_true_iff in Hc as [Hc H37].
    apply andb_true_iff in Hc as [H0 H80].
    apply N.ltb_lt in H0, H80.
    apply negb_true_iff, N.eqb_neq in H37, H95.
    rewrite append_cons. cbn [gorm.Utf8Read].
    assert ((N_of_ascii c =? 0) = false)%N as -> by (apply N.eqb_neq; lia).
    assert ((N_of_ascii c <? 0xC0) = true)%N as -> by (apply N.ltb_lt; lia).
    cbn [gorm.patternCompare].
    apply N.eqb_neq in H37 as E37. rewrite E37.
    destruct s as [|d s]; [reflexivity|].
    cbn [gorm.Utf8Read prefix_nocase]. unfold fold_case.
    destruct (N.eqb_spec (N_of_ascii d) 0) as [E0|N0].
    { rewrite E0, Tolower_zero by lia. reflexivity. }
    destruct (N.ltb_spec (N_of_ascii d) 0xC0) as [Hd|Hd].
    + rewrite (IH Hq s). f_equal.
      destruct (N.ltb_spec (N_of_ascii d) 0x80) as [Hd'|Hd'].
      * now apply same_char_plain.
      * rewrite same_char_high, Tolower_high by lia. reflexivity.
    + destruct (Utf8Read_pending s (gorm.Utf8Trans1 (N_of_ascii d))) as (c' & rest & ->).
      rewrite same_char_high, Tolower_high by (try apply Utf8Replace_high; lia).
      reflexivity.
Qed.

Lemma plain_app (a b : string) : plain (a +:+ b) = plain a && plain b.
Proof.
  induction a as [|c a IH]; [reflexivity|].
  rewrite append_cons. cbn [plain]. rewrite IH. now rewrite !andb_assoc.
Qed.

Lemma append_assoc (a b c : string) : (a +:+ b) +:+ c = a +:+ (b +:+ c).
Proof.
  induction a as [|x a IH]; [reflexivity|]. rewrite !append_cons. now rewrite IH.
Qed.

(** [LIKE] sets the case of ASCII letters aside, and [_] stands for one
    character, of one byte or of several (here the three bytes of U+4E2D). *)
Lemma like_case_and_characters :
  let wide := String (ascii_of_nat 228) (String (ascii_of_nat 184)
                (String (ascii_of_nat 173) EmptyString)) in
  gorm.like "job-ABC123-%" "job-abc123-a" = true
  /\ gorm.like "job-a_c-%" "job-abc-1" = true
  /\ gorm.like "job-_-%" ("job-" +:+ wide +:+ "-1") = true
  /\ gorm.like "job-___-%" ("job-" +:+ wide +:+ "-1") = false.
Proof. vm_compute. repeat split. Qed.

(** For a plain run id the [LIKE] clause of the source is the prefix test
    that sets the case of ASCII letters aside. *)
Lemma like_run_pattern (runID : string) (j : Job.t) :
  plain runID = true ->
  gorm.like ("job-" +:+ runID +:+ "-%") (Job.ID j) = of_run_nocase runID j.
Proof.
  intros Hr. unfold of_run_nocase.
  change "-%" with ("-" +:+ "%").
  rewrite <- (append_assoc runID "-" "%"), <- (append_assoc "job-" (runID +:+ "-") "%").
  apply like_plain_prefix.
  rewrite !plain_app, Hr. reflexivity.
Qed.

Lemma filter_unique {A} (f : A -> string) (p : A -> bool) (a : string) (l : list A) :
  (forall x, p x = true -> f x = a) ->
  List.NoDup (List.map f l) ->
  (List.length (List.filter p l) <= 1)%nat.
Proof.
  intros Hp. induction l as [|x l IH]; simpl; intros Hnd; [lia|].
  inversion Hnd as [|? ? Hnotin Hnd']; subst.
  destruct (p x) eqn:Hx; [|now apply IH].
  assert (Hnil : List.filter p l = []).
  { destruct (List.filter p l) as [|y ys] eqn:Hfl; [reflexivity|]. exfalso.
    assert (Hy : List.In y (List.filter p l)) by (rewrite Hfl; now left).
    apply List.filter_In in Hy. destruct Hy as [Hin Hpy].
    apply Hnotin. rewrite (Hp x Hx), <- (Hp y Hpy). now apply List.in_map. }
  rewrite Hnil. simpl. lia.
Qed.

Lemma GetJobsByRunID_all (env : Env) (runID : string) (w : World) :
  db_fault env OpFind = None ->
  models.GetJobsByRunID env runID "" w
  = ((Some (List.map gorm.to_row
              (List.filter
                 (fun j => gorm.like ("job-" +:+ runID +:+ "-%") (Job.ID j) && gorm.live j)
                 (db w))),
      None), w).
Proof.
  intros Hf. unfold models.GetJobsByRunID, gorm.Find, bind, ret, get_db.
  rewrite Hf. reflexivity.
Qed.

Lemma GetJobsByRunID_one (env : Env) (runID jobID : string) (w : World) :
  db_fault env OpFind = None ->
  jobID <> "" ->
  models.GetJobsByRunID env runID jobID w
  = ((Some (List.map gorm.to_row
              (List.filter
                 (fun j => gorm.like ("job-" +:+ runID +:+ "-%") (Job.ID j)
                           && String.eqb (Job.ID j) jobID && gorm.live j)
                 (db w))),
      None), w).
Proof.
  intros Hf Hne. unfold models.GetJobsByRunID, gorm.Find, bind, ret, get_db.
  apply String.eqb_neq in Hne. rewrite Hf, Hne. reflexivity.
Qed.

(** C9, as the code has it.  For a plain run id (ASCII characters, none of
    them [%], [_] or the zero byte), [GetJobsByRunID] with an empty job id
    returns exactly the stored jobs (rows not marked deleted) whose id starts
    with job-<runID>-, the case of ASCII letters set aside; with a job id it
    returns those of them whose id is exactly that job id, which is at most
    one record when ids are unique in the table. *)
Theorem GetJobsByRunID_prefix (env : Env) (runID jobID : string) (w : World) :
  db_fault env OpFind = None ->
  plain runID = true ->
  models.GetJobsByRunID env runID "" w
  = ((Some (List.map gorm.to_row
              (List.filter (fun j => of_run_nocase runID j && gorm.live j) (db w))),
      None), w)
  /\ (jobID <> "" ->
      let narrowed :=
        List.filter
          (fun j => of_run_nocase runID j && String.eqb (Job.ID j) jobID && gorm.live j)
          (db w) in
      models.GetJobsByRunID env runID jobID w
      = ((Some (List.map gorm.to_row narrowed), None), w)
      /\ (forall j, List.In j (List.map gorm.to_row narrowed) -> Job.ID j = jobID)
      /\ (List.NoDup (List.map Job.ID (db w)) ->
          (List.length (List.map gorm.to_row narrowed) <= 1)%nat)).
Proof.
  intros Hf Hr. split.
  - rewrite (GetJobsByRunID_all _ _ _ Hf).
    do 4 f_equal. apply List.filter_ext. intros j. now rewrite like_run_pattern.
  - intros Hne narrowed. split; [|split].
    + rewrite (GetJobsByRunID_one _ _ _ _ Hf Hne). unfold narrowed.
      do 4 f_equal. apply List.filter_ext. intros j. now rewrite like_run_pattern.
    + intros j Hin. apply List.in_map_iff in Hin. destruct Hin as (r & <- & Hin).
      apply List.filter_In in Hin. destruct Hin as [_ Hp].
      apply andb_prop in Hp. destruct Hp as [Hp _].
      apply andb_prop in Hp. destruct Hp as [_ Hp].
      apply String.eqb_eq in Hp. now destruct r.
    + intros Hnd. rewrite List.length_map.
      apply (filter_unique Job.ID _ jobID); [|exact Hnd].
      intros x Hp. apply andb_prop in Hp. destruct Hp as [Hp _].
      apply andb_prop in Hp. destruct Hp as [_ Hp]. now apply String.eqb_eq.
Qed.

Lemma GetJobsByRunID_prefix_witness :
  let rows := [sample.row 1 "job-abc123-a" schema.StatusJobRunning "" NullTime.zero;
               sample.row 2 "job-abc124-a" schema.StatusJobRunning "" NullTime.zero;
               sample.row 3 "job-abc123-b" schema.StatusJobPending "" NullTime.zero] in
  let w := sample.world rows 10 in
  models.GetJobsByRunID sample.env_ok "ABC123" "" w
  = ((Some [sample.row 1 "job-abc123-a" schema.StatusJobRunning "" NullTime.zero;
            sample.row 3 "job-abc123-b" schema.StatusJobPending "" NullTime.zero],
      None), w)
  /\ models.GetJobsByRunID sample.env_ok "ABC123" "job-abc123-b" w
     = ((Some [sample.row 3 "job-abc123-b" schema.StatusJobPending "" NullTime.zero],
         None), w).
Proof.
  pose proof (GetJobsByRunID_prefix sample.env_ok "ABC123" "job-abc123-b"
                (sample.world
                   [sample.row 1 "job-abc123-a" schema.StatusJobRunning "" NullTime.zero;
                    sample.row 2 "job-abc124-a" schema.StatusJobRunning "" NullTime.zero;
                    sample.row 3 "job-abc123-b" schema.StatusJobPending "" NullTime.zero]
                   10)
                eq_refl eq_refl) as [H1 H2].
  split; [exact H1|].
  exact (proj1 (H2 ltac:(discriminate))).
Defined.

(** C9, as the specification words it, fails for a run id with a wildcard:
    for run id a_c the job job-abc-1 is returned, and its id does not have the
    form job-a_c-*. *)
Lemma GetJobsByRunID_wildcard_run_id :
  let other := sample.row 1 "job-abc-1" schema.StatusJobRunning "" NullTime.zero in
  let w := sample.world [other] 10 in
  fst (models.GetJobsByRunID sample.env_ok "a_c" "" w) = (Some [other], None)
  /\ of_run "a_c" other = false.
Proof. vm_compute. split; reflexivity. Qed.

(** ** Priority policy and [CreateJob] *)

Lemma checkPriority_empty (conf : schema.Conf.t) :
  schema.Conf.GetPriority conf = "" ->
  controller.checkPriority conf
  = (schema.Conf.SetPriority schema.EnvJobNormalPriority conf, None).
Proof. intros H. unfold controller.checkPriority. now rewrite H. Qed.


Lemma checkPriority_listed (conf : schema.Conf.t) :
  schema.Conf.GetPriority conf = schema.EnvJobLowPriority
  \/ schema.Conf.GetPriority conf = schema.EnvJobNormalPriority
  \/ schema.Conf.GetPriority conf = schema.EnvJobHighPriority ->
  controller.checkPriority conf = (conf, None).
Proof.
  unfold controller.checkPriority. intros [-> | [-> | ->]]; reflexivity.
Qed.

Lemma SetPriority_get (pc : string) (conf : schema.Conf.t) :
  schema.Conf.GetPriority (schema.Conf.SetPriority pc conf) = pc.
Proof. now destruct conf. Qed.

Lemma insert_inv (job job' : Job.t) (err : option error) (w w' : World) :
  gorm.insert job w = ((job', err), w') ->
  calls w' = calls w
  /\ match err with
     | Some _ => db w' = db w
     | None =>
         db w' = db w ++ [gorm.to_row job']
         /\ Job.ID job' = Job.ID job
         /\ Job.Config job' = Job.Config job
         /\ Job.Status job' = Job.Status job
         /\ Job.ExtensionTemplate job' = Job.ExtensionTemplate job
         /\ Job.RuntimeInfo job' = Job.RuntimeInfo job
     end.
Proof.
  unfold gorm.insert, bind, ret, time_Now, get_db, put_db.
  destruct (List.existsb _ (db w)).
  - intros H. inversion H. subst. auto.
  - intros H. inversion H. subst. simpl. split; [reflexivity|].
    split; [reflexivity|].
    destruct job. simpl.
    repeat match goal with |- context [if ?b then _ else _] => destruct b end;
      repeat split.
Qed.

Lemma Create_inv (env : Env) (job job' : Job.t) (err : option error) (w w' : World) :
  gorm.Create env job w = ((job', err), w') ->
  calls w' = calls w ++ [RepoCreate job]
  /\ match err with
     | Some _ => db w' = db w
     | None =>
         db w' = db w ++ [gorm.to_row job']
         /\ Job.ID job' = Job.ID job
         /\ Job.Config job' = Job.Config job
         /\ Job.Status job' = Job.Status job
         /\ Job.ExtensionTemplate job' = Job.ExtensionTemplate job
     end.
Proof.
  unfold gorm.Create, bind at 1. unfold record_call at 1.
  unfold gorm.BeforeSave.
  destruct (Job.RuntimeInfo job) as [i|] eqn:Hi.
  - destruct (json_Marshal env i) as [js [e|]].
    + intros H. inversion H. subst. auto.
    + destruct (db_fault env OpCreate) as [e|].
      * intros H. inversion H. subst. auto.
      * intros H. apply insert_inv in H. destruct H as [Hc H]. simpl in Hc.
        split; [exact Hc|]. destruct err; [exact H|].
        destruct H as (Hd & Hid & Hcf & Hst & Het & _). simpl in Hd.
        destruct job. simpl in *. auto.
  - destruct (db_fault env OpCreate) as [e|].
    + intros H. inversion H. subst. auto.
    + intros H. apply insert_inv in H. destruct H as [Hc H]. simpl in Hc.
      split; [exact Hc|]. destruct err; [exact H|]. simpl in H. tauto.
Qed.

(** A [CreateJob] that returns an id has passed validation and the priority
    check, and has added one row: under that id, in status init, with the
    checked configuration and the template it was given. *)
Lemma CreateJob_success (env : Env) (conf conf' : schema.Conf.t)
    (jobID jobTemplate id : string) (w w' : World) :
  controller.CreateJob env conf jobID jobTemplate w = ((conf', (id, None)), w') ->
  ValidateJob env conf = None
  /\ controller.checkPriority conf = (conf', None)
  /\ exists row,
       db w' = db w ++ [row]
       /\ Job.ID row = id
       /\ Job.Config row = conf'
       /\ Job.Status row = schema.StatusJobInit
       /\ Job.ExtensionTemplate row = jobTemplate.
Proof.
  unfold controller.CreateJob.
  destruct (ValidateJob env conf) as [e|]; [discriminate|].
  destruct (controller.checkPriority conf) as [c [e|]]; [discriminate|].
  unfold models.CreateJob, bind at 1.
  match goal with |- context [gorm.Create ?en ?j ?w0] =>
    destruct (gorm.Create en j w0) as [[job' [e0|]] w1] eqn:Hc end.
  - discriminate.
  - unfold bind, ret, log_Infof, emit. intros H. inversion H. subst.
    apply Create_inv in Hc. destruct Hc as (_ & Hd & Hid & Hcf & Hst & Het).
    split; [reflexivity|]. split; [reflexivity|].
    exists (gorm.to_row job'). simpl.
    destruct (to_row_fields job') as (_ & Tid & Tst & _).
    rewrite Tid, Tst. destruct job'; simpl in *. auto.
Qed.





(** ** [CreateSingleJob] and the extension template *)

(** Building the configuration logs and looks up, and writes nothing. *)
Lemma patchSingleEnvs_frame (env : Env) (conf : schema.Conf.t)
    (request : CreateSingleJobRequest.t) (w : World) :
  let (r, w') := controller.patchSingleEnvs env conf request w in
  db w' = db w /\ calls w' = calls w.
Proof.
  unfold controller.patchSingleEnvs, controller.patchEnvs, bind, ret, log_Debugf,
    log_Errorf, emit. simpl.
  destruct (GetQueueByID env _) as [queue [e|]].
  - destruct (is_ErrRecordNotFound e); simpl; auto.
  - simpl. destruct (GetFlavour env _) as [flavour [e|]]; simpl; auto.
Qed.

Lemma CreateSingleJob_body_created (env : Env) (request : CreateSingleJobRequest.t)
    (extensionTemplate : string) (resp : CreateJobResponse.t) (w w' : World) :
  controller.CreateSingleJob_body env request extensionTemplate w = (inl resp, w') ->
  exists row,
    db w' = db w ++ [row]
    /\ Job.ID row = CreateJobResponse.ID resp
    /\ Job.Status row = schema.StatusJobInit
    /\ Job.ExtensionTemplate row = extensionTemplate.
Proof.
  unfold controller.CreateSingleJob_body, bind at 1.
  match goal with |- context [controller.patchSingleEnvs ?en ?c ?r ?w0] =>
    pose proof (patchSingleEnvs_frame en c r w0) as Hfr;
    destruct (controller.patchSingleEnvs en c r w0) as [[conf1 [e1|]] w1] end.
  - unfold bind, ret, log_Errorf, emit. discriminate.
  - destruct Hfr as [Hdb _]. unfold bind at 1.
    match goal with |- context [controller.CreateJob ?en ?c ?i ?t ?w0] =>
      destruct (controller.CreateJob en c i t w0) as [[conf2 [id [e2|]]] w2] eqn:Hc end.
    + unfold bind, ret, log_Errorf, emit. discriminate.
    + unfold ret. intros H. inversion H. subst.
      apply CreateJob_success in Hc.
      destruct Hc as (_ & _ & row & Hd & Hid & _ & Hst & Het).
      exists row. rewrite Hd, Hdb. auto.
Qed.

(** C10, as the code has it: the verdict of [yaml.JSONToYAML] decides, not
    the form of the text.  With an empty [extensionTemplate] no conversion is
    attempted ([the converter does not matter]) and the empty string goes to
    [CreateJob]; with one that the converter takes, the text it returns goes
    to [CreateJob]; with one that the converter refuses, the call returns the
    converter's error and neither the table nor the list of calls changes.
    Whatever template goes to [CreateJob] is the template of the row a
    successful call has added. *)
Theorem CreateSingleJob_extension_template (env : Env)
    (request : CreateSingleJobRequest.t) (w : World) :
  let ext := JobSpec.ExtensionTemplate (CreateSingleJobRequest.JobSpec request) in
  (ext = "" ->
   controller.CreateSingleJob env request w
   = controller.CreateSingleJob_body env request "" w
   /\ forall convert,
        controller.CreateSingleJob (with_JSONToYAML convert env) request w
        = controller.CreateSingleJob env request w)
  /\ (ext <> "" ->
      forall yaml, JSONToYAML env ext = (yaml, None) ->
        controller.CreateSingleJob env request w
        = controller.CreateSingleJob_body env request yaml w)
  /\ (ext <> "" ->
      forall out err, JSONToYAML env ext = (out, Some err) ->
        let (r, w') := controller.CreateSingleJob env request w in
        r = inr err /\ db w' = db w /\ calls w' = calls w)
  /\ (forall extensionTemplate resp w',
        controller.CreateSingleJob_body env request extensionTemplate w = (inl resp, w') ->
        exists row,
          db w' = db w ++ [row]
          /\ Job.ID row = CreateJobResponse.ID resp
          /\ Job.ExtensionTemplate row = extensionTemplate).
Proof.
  intros ext. split; [|split; [|split]].
  - intros He. unfold controller.CreateSingleJob. fold ext. rewrite He.
    split; reflexivity.
  - intros Hne yaml Hy. unfold controller.CreateSingleJob. fold ext.
    apply String.eqb_neq in Hne. rewrite Hne, Hy. reflexivity.
  - intros Hne out err Hy. unfold controller.CreateSingleJob. fold ext.
    apply String.eqb_neq in Hne. rewrite Hne, Hy.
    unfold bind, ret, log_Errorf, emit. simpl. auto.
  - intros T resp w' Hb. apply CreateSingleJob_body_created in Hb.
    destruct Hb as (row & Hd & Hid & _ & Het). eauto.
Qed.

Lemma CreateSingleJob_extension_template_witness :
  (exists row w',
     controller.CreateSingleJob sample.env_ok (sample.request "" "" "[1]") (sample.world [] 5)
     = (inl (CreateJobResponse.mk "job-000001"), w')
     /\ db w' = [row]
     /\ Job.ExtensionTemplate row = "- 1" +:+ sample.newline)
  /\ (exists row w',
        controller.CreateSingleJob sample.env_ok (sample.request "" "" "") (sample.world [] 5)
        = (inl (CreateJobResponse.mk "job-000001"), w')
        /\ db w' = [row]
        /\ Job.ExtensionTemplate row = "")
  /\ (let (r, w') :=
        controller.CreateSingleJob sample.env_ok (sample.request "" "" "[1")
          (sample.world [] 5) in
      r = inr (errors_New "yaml: line 1: did not find expected ',' or ']'")
      /\ db w' = []
      /\ calls w' = []).
Proof.
  split; [|split].
  - destruct (CreateSingleJob_extension_template sample.env_ok
                (sample.request "" "" "[1]") (sample.world [] 5))
      as (_ & Hyaml & _ & Hrow).
    specialize (Hyaml ltac:(discriminate) ("- 1" +:+ sample.newline) eq_refl).
    destruct (controller.CreateSingleJob_body sample.env_ok (sample.request "" "" "[1]")
                ("- 1" +:+ sample.newline) (sample.world [] 5)) as [r w'] eqn:Hb.
    assert (Hr : r = inl (CreateJobResponse.mk "job-000001"))
      by (apply (f_equal fst) in Hb; vm_compute in Hb; now subst r).
    subst r. destruct (Hrow _ _ _ Hb) as (row & Hd & _ & Het).
    exists row, w'. split; [exact Hyaml|]. split; [exact Hd|exact Het].
  - destruct (CreateSingleJob_extension_template sample.env_ok
                (sample.request "" "" "") (sample.world [] 5))
      as (Hempty & _ & _ & Hrow).
    destruct (Hempty eq_refl) as [Hpass _].
    destruct (controller.CreateSingleJob_body sample.env_ok (sample.request "" "" "")
                "" (sample.world [] 5)) as [r w'] eqn:Hb.
    assert (Hr : r = inl (CreateJobResponse.mk "job-000001"))
      by (apply (f_equal fst) in Hb; vm_compute in Hb; now subst r).
    subst r. destruct (Hrow _ _ _ Hb) as (row & Hd & _ & Het).
    exists row, w'. split; [exact Hpass|]. split; [exact Hd|exact Het].
  - destruct (CreateSingleJob_extension_template sample.env_ok
                (sample.request "" "" "[1") (sample.world [] 5))
      as (_ & _ & Hbad & _).
    exact (Hbad ltac:(discriminate) "" _ eq_refl).
Defined.

(** C10, as the specification words it, fails for a template that is no JSON
    document and that the converter takes all the same: for the text hello the
    call returns no error, [CreateJob] is invoked and a record is persisted,
    its template the text the converter returned. *)
Lemma CreateSingleJob_template_not_JSON_accepted :
  let (r, w') :=
    controller.CreateSingleJob sample.env_ok (sample.request "" "" "hello")
      (sample.world [] 5) in
  r = inl (CreateJobResponse.mk "job-000001")
  /\ List.map Job.ID (db w') = ["job-000001"]
  /\ List.map Job.ExtensionTemplate (db w') = ["hello" +:+ sample.newline]
  /\ List.length (calls w') = 1%nat.
Proof. vm_compute. repeat split. Qed.

(** * Further properties of the repository *)

(** ** Failed lookups and failed saves *)

Lemma update_after_failed_read (env : Env) (jobID : string) (w : World) (e : error) :
  snd (fst (models.GetJobByID env jobID w)) = Some e ->
  (forall errMessage jobStatus,
     let (r, w') := models.UpdateJobStatus env jobID errMessage jobStatus w in
     r = Some (JobIDNotFoundError jobID) /\ db w' = db w /\ calls w' = calls w)
  /\ (forall status info message,
        let (r, w') := models.UpdateJob env jobID status info message w in
        r = ("", Some (JobIDNotFoundError jobID)) /\ db w' = db w /\ calls w' = calls w)
  /\ fst (models.GetJobStatusByID env jobID w) = ("", Some (JobIDNotFoundError jobID)).
Proof.
  intros He. pose proof (GetJobByID_frame env jobID w) as Hfr.
  unfold models.UpdateJobStatus, models.UpdateJob, models.GetJobStatusByID, bind.
  destruct (models.GetJobByID env jobID w) as [[job [e'|]] w1]; [|discriminate].
  destruct Hfr as [Hd Hc]. unfold ret. simpl. auto.
Qed.

(** X1.  Whatever makes the read of the job fail, a missing row or an error of the
    engine, [UpdateJobStatus], [UpdateJob] and [GetJobStatusByID] report it as
    [JobIDNotFoundError] of the id, and the two updates write nothing. *)
Theorem lookup_failure_reported_as_not_found (env : Env) (jobID : string) (w : World)
    (e : error) :
  snd (fst (models.GetJobByID env jobID w)) = Some e ->
  (forall errMessage jobStatus,
     let (r, w') := models.UpdateJobStatus env jobID errMessage jobStatus w in
     r = Some (JobIDNotFoundError jobID) /\ db w' = db w /\ calls w' = calls w)
  /\ (forall status info message,
        let (r, w') := models.UpdateJob env jobID status info message w in
        r = ("", Some (JobIDNotFoundError jobID)) /\ db w' = db w /\ calls w' = calls w)
  /\ fst (models.GetJobStatusByID env jobID w) = ("", Some (JobIDNotFoundError jobID)).
Proof.
  intros He. pose proof (GetJobByID_frame env jobID w) as Hfr.
  unfold models.UpdateJobStatus, models.UpdateJob, models.GetJobStatusByID, bind.
  destruct (models.GetJobByID env jobID w) as [[job [e'|]] w1]; [|discriminate].
  destruct Hfr as [Hd Hc]. unfold ret. simpl. auto.
Qed.

Lemma lookup_failure_reported_as_not_found_witness :
  let env := sample.with_fault sample.first_fails sample.env_ok in
  let w := sample.world
             [sample.row 1 "job-1" schema.StatusJobRunning "" NullTime.zero] 100 in
  fst (models.UpdateJobStatus env "job-1" "" schema.StatusJobFailed w)
  = Some (JobIDNotFoundError "job-1")
  /\ fst (models.UpdateJob env "job-1" schema.StatusJobFailed None "" w)
     = ("", Some (JobIDNotFoundError "job-1"))
  /\ fst (models.GetJobStatusByID env "job-1" w) = ("", Some (JobIDNotFoundError "job-1")).
Proof.
  intros env w.
  destruct (lookup_failure_reported_as_not_found env "job-1" w sample.unreachable eq_refl)
    as (H1 & H2 & H3).
  specialize (H1 "" schema.StatusJobFailed).
  specialize (H2 schema.StatusJobFailed None "").
  destruct (models.UpdateJobStatus env "job-1" "" schema.StatusJobFailed w) as [r1 w1].
  destruct (models.UpdateJob env "job-1" schema.StatusJobFailed None "" w) as [r2 w2].
  simpl. intuition.
Defined.

Lemma Save_fault (env : Env) (jobID : string) (job : Job.t) (w : World) (e : error) :
  db_fault env OpSave = Some e ->
  exists j e' w',
    gorm.Save env jobID job w = ((j, Some e'), w') /\ db w' = db w.
Proof.
  intros Hf. unfold gorm.Save, bind, ret, record_call.
  destruct (gorm.BeforeSave env job) as [j [e'|]].
  - eexists _, _, _. split; reflexivity.
  - rewrite Hf. eexists _, _, _. split; reflexivity.
Qed.

Lemma Save_refused_hook (env : Env) (jobID : string) (job : Job.t) (w : World)
    (i : interface_) :
  Job.RuntimeInfo job = Some i ->
  snd (json_Marshal env i) <> None ->
  exists j e' w',
    gorm.Save env jobID job w = ((j, Some e'), w') /\ db w' = db w.
Proof.
  intros Hi Hm. unfold gorm.Save, gorm.BeforeSave, bind, ret, record_call. rewrite Hi.
  destruct (json_Marshal env i) as [js [e|]]; [|now simpl in Hm].
  eexists _, _, _. split; reflexivity.
Qed.

(** X2.  When the job is read and the save fails, because the engine refuses the
    statement or because [json.Marshal] refuses the runtime info in the hook,
    [UpdateJob] returns the empty status together with a [nil] error (line 129
    returns the [err] of the earlier read), and the table is as before. *)
Theorem UpdateJob_save_failure_returns_nil (env : Env) (jobID : string)
    (status : schema.JobStatus) (info : option interface_) (message : string)
    (job : Job.t) (w : World) :
  models.GetJobByID env jobID w = ((job, None), w) ->
  db_fault env OpSave <> None
  \/ (exists i, info = Some i /\ snd (json_Marshal env i) <> None) ->
  let (r, w') := models.UpdateJob env jobID status info message w in
  r = ("", None) /\ db w' = db w.
Proof.
  intros Hg Hbad. rewrite (UpdateJob_stored _ _ _ _ _ _ _ Hg).
  assert (Hs : exists j e' w',
             gorm.Save env jobID (job_update status info message (now w) job) w
             = ((j, Some e'), w') /\ db w' = db w).
  { destruct Hbad as [Hf|(i & -> & Hm)].
    - destruct (db_fault env OpSave) as [e|] eqn:He; [|congruence].
      exact (Save_fault env jobID _ w e He).
    - apply (Save_refused_hook env jobID _ w i); [|exact Hm].
      now destruct (job_update_fields status (Some i) message (now w) job)
        as (_ & _ & _ & -> & _). }
  destruct Hs as (j & e' & w' & Hs & Hd). rewrite Hs. simpl. auto.
Qed.

Lemma UpdateJob_save_failure_returns_nil_witness :
  let env := sample.with_fault sample.save_fails sample.env_ok in
  let job := sample.row 1 "job-1" schema.StatusJobPending "" NullTime.zero in
  let w := sample.world [job] 100 in
  let (r, w') := models.UpdateJob env "job-1" schema.StatusJobRunning None "" w in
  r = ("", None) /\ db w' = db w.
Proof.
  refine (UpdateJob_save_failure_returns_nil
            (sample.with_fault sample.save_fails sample.env_ok) "job-1"
            schema.StatusJobRunning None ""
            (sample.row 1 "job-1" schema.StatusJobPending "" NullTime.zero)
            (sample.world [sample.row 1 "job-1" schema.StatusJobPending "" NullTime.zero] 100)
            eq_refl _).
  left. discriminate.
Defined.

(** ** What [UpdateJobStatus] stores *)

Lemma status_update_fields (errMessage : string) (jobStatus : schema.JobStatus)
    (job : Job.t) :
  Job.Status (status_update errMessage jobStatus job)
  = (if String.eqb jobStatus "" || schema.IsImmutableJobStatus (Job.Status job)
     then Job.Status job else jobStatus)
  /\ Job.Message (status_update errMessage jobStatus job)
     = (if String.eqb errMessage "" then Job.Message job else errMessage)
  /\ Job.ActivatedAt (status_update errMessage jobStatus job) = Job.ActivatedAt job.
Proof.
  unfold status_update. destruct job. simpl.
  destruct (String.eqb jobStatus ""), (schema.IsImmutableJobStatus Status),
    (String.eqb errMessage ""); repeat split.
Qed.

Lemma pick_str_new (new old : string) :
  gorm.pick_str (if String.eqb new "" then old else new) old
  = if String.eqb new "" then old else new.
Proof.
  destruct (String.eqb new "") eqn:He; [apply pick_str_same|].
  unfold gorm.pick_str. now rewrite He.
Qed.

(** X3.  For a job that is read and a store that works, [UpdateJobStatus] returns
    [nil] and the next read finds: the requested status when it is not empty
    and the job had not finished, else the old status; the message of the call
    when it is not empty, else the old message; and the old [ActivatedAt],
    also when the requested status is running. *)
Theorem UpdateJobStatus_applies (env : Env) (jobId errMessage : string)
    (jobStatus : schema.JobStatus) (job : Job.t) (w : World) :
  models.GetJobByID env jobId w = ((job, None), w) ->
  db_fault env OpUpdates = None ->
  let (err, w') := models.UpdateJobStatus env jobId errMessage jobStatus w in
  err = None
  /\ exists job',
       models.GetJobByID env jobId w' = ((job', None), w')
       /\ Job.Status job'
          = (if String.eqb jobStatus "" || schema.IsImmutableJobStatus (Job.Status job)
             then Job.Status job else jobStatus)
       /\ Job.Message job' = (if String.eqb errMessage "" then Job.Message job else errMessage)
       /\ Job.ActivatedAt job' = Job.ActivatedAt job.
Proof.
  intros Hg Hu. rewrite (UpdateJobStatus_stored _ _ _ _ _ _ Hg).
  apply GetJobByID_ok_inv in Hg. destruct Hg as (Hf & (r0 & Hfind & ->) & _).
  pose proof (found_id_is _ _ _ Hfind) as Hid.
  destruct (status_update_fields errMessage jobStatus (gorm.to_row r0)) as (Hs & Hm & Ha).
  destruct (to_row_fields r0) as (_ & _ & Hst & Hms & Hact & _).
  rewrite Hst in Hs. rewrite Hms in Hm. rewrite Hact in Ha.
  cbv zeta. rewrite (Updates_ok _ _ _ _ Hu). cbn [fst snd]. split; [reflexivity|].
  set (job1 := status_update errMessage jobStatus (gorm.to_row r0)) in *.
  exists (gorm.assign_nonzero (now w) job1 r0). split.
  - rewrite <- to_row_assign_nonzero.
    apply GetJobByID_found; [exact Hf|]. cbn [db].
    rewrite find_map_keep.
    + rewrite Hfind. cbn [option_map]. now rewrite Hid.
    + intros r. destruct (gorm.id_is jobId r) eqn:Hr; [|exact Hr].
      apply assign_nonzero_id_is; [|exact Hr].
      unfold job1. now rewrite status_update_id_is, id_is_to_row.
  - unfold gorm.assign_nonzero. cbn [Job.Status Job.Message Job.ActivatedAt].
    rewrite Hs, Hm, Ha, Hst, Hms, Hact. split; [|split].
    + destruct (String.eqb jobStatus "") eqn:He; simpl; [apply pick_str_same|].
      destruct (schema.IsImmutableJobStatus (Job.Status r0)); [apply pick_str_same|].
      unfold gorm.pick_str. now rewrite He.
    + apply pick_str_new.
    + now destruct (NullTime.isZero (Job.ActivatedAt r0)).
Qed.

Lemma UpdateJobStatus_applies_witness :
  let job := sample.row 1 "job-1" schema.StatusJobPending "" NullTime.zero in
  let w := sample.world [job] 100 in
  let (err, w') :=
    models.UpdateJobStatus sample.env_ok "job-1" "pulled" schema.StatusJobRunning w in
  err = None
  /\ exists job',
       models.GetJobByID sample.env_ok "job-1" w' = ((job', None), w')
       /\ Job.Status job' = schema.StatusJobRunning
       /\ Job.Message job' = "pulled"
       /\ Job.ActivatedAt job' = NullTime.zero.
Proof.
  exact (UpdateJobStatus_applies sample.env_ok "job-1" "pulled" schema.StatusJobRunning
           (sample.row 1 "job-1" schema.StatusJobPending "" NullTime.zero)
           (sample.world [sample.row 1 "job-1" schema.StatusJobPending "" NullTime.zero] 100)
           eq_refl eq_refl).
Defined.

(** ** What [UpdateJob] stores and returns *)

Lemma job_update_content (status : schema.JobStatus) (info : option interface_)
    (message : string) (t : Z) (job : Job.t) :
  Job.Status (job_update status info message t job)
  = (if String.eqb status "" || schema.IsImmutableJobStatus (Job.Status job)
     then Job.Status job else status)
  /\ Job.Message (job_update status info message t job)
     = (if String.eqb message "" then Job.Message job else message)
  /\ Job.RuntimeInfoJson (job_update status info message t job) = Job.RuntimeInfoJson job.
Proof.
  unfold job_update. destruct job. simpl.
  destruct (String.eqb status schema.StatusJobRunning), (String.eqb message ""), info,
    (String.eqb status ""), (schema.IsImmutableJobStatus Status); repeat split.
Qed.

Lemma BeforeSave_content (env : Env) (job job' : Job.t) :
  gorm.BeforeSave env job = (job', None) ->
  Job.Status job' = Job.Status job
  /\ Job.Message job' = Job.Message job
  /\ Job.RuntimeInfoJson job'
     = match Job.RuntimeInfo job with
       | Some i => fst (json_Marshal env i)
       | None => Job.RuntimeInfoJson job
       end.
Proof.
  unfold gorm.BeforeSave. destruct (Job.RuntimeInfo job) as [i|].
  - destruct (json_Marshal env i) as [js [e|]]; [discriminate|].
    intros H. inversion H. destruct job. repeat split.
  - intros H. inversion H. repeat split.
Qed.

Lemma saved_row_content (t : Z) (j : Job.t) :
  Job.Status (gorm.to_row (Job.with_UpdatedAt t j)) = Job.Status j
  /\ Job.Message (gorm.to_row (Job.with_UpdatedAt t j)) = Job.Message j
  /\ Job.RuntimeInfoJson (gorm.to_row (Job.with_UpdatedAt t j)) = Job.RuntimeInfoJson j
  /\ Job.UpdatedAt (gorm.to_row (Job.with_UpdatedAt t j)) = t.
Proof. destruct j. repeat split. Qed.

Lemma to_row_RuntimeInfoJson (j : Job.t) :
  Job.RuntimeInfoJson (gorm.to_row j) = Job.RuntimeInfoJson j.
Proof. now destruct j. Qed.

(** X4.  For a job that is read under its primary key, a store that works and
    runtime info that [json.Marshal] accepts, [UpdateJob] returns the status
    the next read finds, with a [nil] error.  That status is the requested one
    when it is not empty and the job had not finished, else the old one; the
    message is the one of the call when it is not empty, else the old one; the
    stored runtime info is the JSON text of [info] when [info] is given, else
    what was stored; and [updated_at] is the time of the call. *)
Theorem UpdateJob_stores (env : Env) (jobID : string) (status : schema.JobStatus)
    (info : option interface_) (message : string) (job : Job.t) (w : World) :
  models.GetJobByID env jobID w = ((job, None), w) ->
  Job.Pk job <> 0 ->
  db_fault env OpSave = None ->
  marshals env info ->
  let (r, w') := models.UpdateJob env jobID status info message w in
  exists job',
    models.GetJobByID env jobID w' = ((job', None), w')
    /\ r = (Job.Status job', None)
    /\ Job.Status job'
       = (if String.eqb status "" || schema.IsImmutableJobStatus (Job.Status job)
          then Job.Status job else status)
    /\ Job.Message job' = (if String.eqb message "" then Job.Message job else message)
    /\ Job.RuntimeInfoJson job'
       = match info with
         | Some i => fst (json_Marshal env i)
         | None => Job.RuntimeInfoJson job
         end
    /\ Job.UpdatedAt job' = now w.
Proof.
  intros Hg Hpk Hs Hm. rewrite (UpdateJob_stored _ _ _ _ _ _ _ Hg).
  apply GetJobByID_ok_inv in Hg. destruct Hg as (Hf & (r0 & Hfind & ->) & _).
  destruct (to_row_fields r0) as (Tpk & Tid & _ & _ & _ & Tdel & Tinfo).
  set (job1 := job_update status info message (now w) (gorm.to_row r0)).
  destruct (job_update_fields status info message (now w) (gorm.to_row r0))
    as (Jpk & Jid & Jdel & Jinfo & _).
  destruct (job_update_content status info message (now w) (gorm.to_row r0))
    as (Jst & Jms & Jjs).
  fold job1 in Jpk, Jid, Jdel, Jinfo, Jst, Jms, Jjs.
  assert (Hm1 : marshals env (Job.RuntimeInfo job1)).
  { rewrite Jinfo. destruct info; [exact Hm|]. now rewrite Tinfo. }
  destruct (BeforeSave_marshals env job1 Hm1) as [job2 Hb].
  destruct (Save_overwrites env jobID job1 job2 r0 w Hf Hs Hb Hfind)
    as (w' & Hsave & Hread); try congruence.
  rewrite Hsave. exists (gorm.to_row (Job.with_UpdatedAt (now w) job2)).
  split; [exact Hread|].
  destruct (BeforeSave_content _ _ _ Hb) as (Bst & Bms & Bjs).
  destruct (saved_row_content (now w) job2) as (Sst & Sms & Sjs & Sup).
  assert (Hst' : Job.Status (Job.with_UpdatedAt (now w) job2) = Job.Status job2)
    by now destruct job2.
  rewrite Hst', Sst, Sms, Sjs, Sup, Bst, Bms, Bjs, Jst, Jms, Jjs, Jinfo.
  repeat (split; [reflexivity|]).
  split; [|reflexivity].
  destruct info; [reflexivity|]. now rewrite Tinfo.
Qed.

Lemma UpdateJob_stores_witness :
  let job := sample.row 2 "job-2" schema.StatusJobRunning "" (NullTime.mk 90 true) in
  let w := sample.world [job] 100 in
  let (r, w') :=
    models.UpdateJob sample.env_ok "job-2" schema.StatusJobSucceeded (Some "{exit:0}")
      "done" w in
  exists job',
    models.GetJobByID sample.env_ok "job-2" w' = ((job', None), w')
    /\ r = (schema.StatusJobSucceeded, None)
    /\ Job.Message job' = "done"
    /\ Job.RuntimeInfoJson job' = "{exit:0}"
    /\ Job.UpdatedAt job' = 100.
Proof.
  intros job w.
  assert (Hpk : Job.Pk job <> 0) by (simpl; lia).
  pose proof (UpdateJob_stores sample.env_ok "job-2" schema.StatusJobSucceeded
                (Some "{exit:0}") "done" job w eq_refl Hpk eq_refl eq_refl) as H.
  destruct (models.UpdateJob sample.env_ok "job-2" schema.StatusJobSucceeded
              (Some "{exit:0}") "done" w) as [r w'].
  destruct H as (job' & Hread & Hr & Hst & Hms & Hjs & Hup).
  exists job'. rewrite Hr, Hst. auto.
Defined.

(** ** Updates stay within their job *)

Lemma only_touches_refl (jobID : string) (rows : list Job.t) :
  only_touches jobID rows rows.
Proof.
  exists (fun r => r). split; [now rewrite List.map_id|]. split; reflexivity.
Qed.

Lemma Save_only_touches (env : Env) (jobID : string) (job r0 : Job.t) (w : World) :
  List.find (gorm.id_is jobID) (db w) = Some r0 ->
  Job.ID job = Job.ID r0 ->
  Job.Pk job = Job.Pk r0 ->
  Job.DeletedAt job = Job.DeletedAt r0 ->
  only_touches jobID (db w) (db (snd (gorm.Save env jobID job w))).
Proof.
  intros Hfind Hid Hpk Hdel.
  pose proof (found_id_is _ _ _ Hfind) as Hr0.
  pose proof (proj1 (List.find_some _ _ Hfind)) as Hin.
  destruct (id_is_inv _ _ Hr0) as [Hr0id Hr0del].
  unfold gorm.Save, bind, ret, record_call.
  destruct (gorm.BeforeSave env job) as [job2 [e|]] eqn:Hb; [apply only_touches_refl|].
  destruct (BeforeSave_fields _ _ _ Hb) as (Bpk & Bid & Bdel & _).
  destruct (db_fault env OpSave) as [e|]; [apply only_touches_refl|].
  destruct (Job.Pk job2 =? 0) eqn:Hz.
  - unfold gorm.insert, bind, ret, time_Now, get_db. cbn [db now calls logs].
    replace (List.existsb (fun r => String.eqb (Job.ID r) (Job.ID job2)) (db w)) with true.
    + apply only_touches_refl.
    + symmetry. apply List.existsb_exists. exists r0. split; [exact Hin|].
      apply String.eqb_eq. congruence.
  - unfold time_Now, get_db, put_db. cbn [db now calls logs].
    destruct (with_UpdatedAt_fields (now w) job2) as (Upk & Uid & Udel & _).
    set (saved := Job.with_UpdatedAt (now w) job2) in *.
    replace (List.existsb
               (fun r => gorm.id_is jobID r && (Job.Pk r =? Job.Pk saved)) (db w))
      with true.
    + cbn [snd db].
      exists (fun r => if gorm.id_is jobID r && (Job.Pk r =? Job.Pk saved)
                       then gorm.to_row saved else r).
      split; [reflexivity|]. split.
      * intros r Hr. now rewrite Hr.
      * intros r. destruct (gorm.id_is jobID r) eqn:Hr; [|reflexivity].
        destruct (Job.Pk r =? Job.Pk saved); [|reflexivity]. simpl.
        destruct (to_row_fields saved) as (_ & Tid & _).
        destruct (id_is_inv _ _ Hr) as [Hrid _]. congruence.
    + symmetry. apply List.existsb_exists. exists r0. split; [exact Hin|].
      rewrite Hr0. simpl. apply Z.eqb_eq. congruence.
Qed.

(** X5.  [UpdateJobStatus] and [UpdateJob] rewrite rows of their own job only,
    whatever their arguments and whatever fails: no row is added or removed,
    rows under another id are untouched, and no row changes its id. *)
Theorem updates_touch_only_their_job (env : Env) (jobID : string) (w : World) :
  (forall errMessage jobStatus,
     only_touches jobID (db w)
       (db (snd (models.UpdateJobStatus env jobID errMessage jobStatus w))))
  /\ (forall status info message,
        only_touches jobID (db w)
          (db (snd (models.UpdateJob env jobID status info message w)))).
Proof.
  split.
  - intros errMessage jobStatus.
    destruct (models.GetJobByID env jobID w) as [[job [e|]] w1] eqn:Hg.
    + assert (He : snd (fst (models.GetJobByID env jobID w)) = Some e) by now rewrite Hg.
      destruct (update_after_failed_read env jobID w e He) as (H & _).
      specialize (H errMessage jobStatus).
      destruct (models.UpdateJobStatus env jobID errMessage jobStatus w) as [r w'].
      destruct H as (_ & Hd & _). simpl. rewrite Hd. apply only_touches_refl.
    + destruct (GetJobByID_ok_inv _ _ _ _ _ Hg) as (_ & (r0 & Hfind & ->) & ->).
      rewrite (UpdateJobStatus_stored _ _ _ _ _ _ Hg). cbv zeta.
      set (job1 := status_update errMessage jobStatus (gorm.to_row r0)).
      destruct (db_fault env OpUpdates) as [e|] eqn:Hu.
      * rewrite (Updates_fault _ _ _ _ e Hu). simpl. apply only_touches_refl.
      * rewrite (Updates_ok _ _ _ _ Hu). cbn [snd db now].
        exists (fun r => if gorm.id_is jobID r
                         then gorm.assign_nonzero (now w) job1 r else r).
        split; [reflexivity|]. split.
        -- intros r Hr. now rewrite Hr.
        -- intros r. destruct (gorm.id_is jobID r) eqn:Hr; [|reflexivity].
           unfold gorm.assign_nonzero. cbn [Job.ID].
           assert (Hj : gorm.id_is jobID job1 = true).
           { unfold job1. rewrite status_update_id_is, id_is_to_row.
             exact (found_id_is _ _ _ Hfind). }
           destruct (id_is_inv _ _ Hj) as [-> _].
           destruct (id_is_inv _ _ Hr) as [-> _]. apply pick_str_same.
  - intros status info message.
    destruct (models.GetJobByID env jobID w) as [[job [e|]] w1] eqn:Hg.
    + assert (He : snd (fst (models.GetJobByID env jobID w)) = Some e) by now rewrite Hg.
      destruct (update_after_failed_read env jobID w e He) as (_ & H & _).
      specialize (H status info message).
      destruct (models.UpdateJob env jobID status info message w) as [r w'].
      destruct H as (_ & Hd & _). simpl. rewrite Hd. apply only_touches_refl.
    + destruct (GetJobByID_ok_inv _ _ _ _ _ Hg) as (_ & (r0 & Hfind & ->) & ->).
      rewrite (UpdateJob_stored _ _ _ _ _ _ _ Hg).
      destruct (job_update_fields status info message (now w) (gorm.to_row r0))
        as (Jpk & Jid & Jdel & _).
      destruct (to_row_fields r0) as (Tpk & Tid & _ & _ & _ & Tdel & _).
      pose proof (Save_only_touches env jobID
                    (job_update status info message (now w) (gorm.to_row r0)) r0 w Hfind
                    ltac:(congruence) ltac:(congruence) ltac:(congruence)) as H.
      destruct (gorm.Save env jobID _ w) as [[j [e|]] w2]; exact H.
Qed.

(** * Further properties of the controller *)

(** ** [CreateJob] and the table *)

Lemma insert_fresh (job job' : Job.t) (w w' : World) :
  gorm.insert job w = ((job', None), w') ->
  List.existsb (fun r => String.eqb (Job.ID r) (Job.ID job)) (db w) = false
  /\ Job.DeletedAt job' = Job.DeletedAt job
  /\ Job.UserName job' = Job.UserName job
  /\ Job.QueueID job' = Job.QueueID job.
Proof.
  unfold gorm.insert, bind, ret, time_Now, get_db, put_db.
  destruct (List.existsb _ (db w)); [discriminate|].
  intros H. inversion H. subst. split; [reflexivity|].
  destruct job. simpl.
  repeat match goal with |- context [if ?b then _ else _] => destruct b end;
    repeat split.
Qed.

Lemma find_fresh_last (jobID : string) (rows : list Job.t) (row : Job.t) :
  List.existsb (fun r => String.eqb (Job.ID r) jobID) rows = false ->
  gorm.id_is jobID row = true ->
  List.find (gorm.id_is jobID) (rows ++ [row]) = Some row.
Proof.
  intros Hex Hrow. induction rows as [|r rows IH]; simpl.
  - now rewrite Hrow.
  - simpl in Hex. apply orb_false_iff in Hex. destruct Hex as [Hr Hex].
    unfold gorm.id_is at 1. rewrite Hr. simpl. now apply IH.
Qed.

(** The row a successful [CreateJob] adds. *)
Lemma CreateJob_row (env : Env) (conf conf' : schema.Conf.t)
    (jobID jobTemplate id : string) (w w' : World) :
  controller.CreateJob env conf jobID jobTemplate w = ((conf', (id, None)), w') ->
  id = (if String.eqb jobID "" then GenerateID env schema.JobPrefix else jobID)
  /\ List.existsb (fun r => String.eqb (Job.ID r) id) (db w) = false
  /\ exists row,
       db w' = db w ++ [row]
       /\ gorm.to_row row = row
       /\ gorm.id_is id row = true
       /\ Job.Status row = schema.StatusJobInit
       /\ Job.Config row = conf'
       /\ Job.ExtensionTemplate row = jobTemplate
       /\ Job.UserName row = schema.Conf.GetUserName conf'
       /\ Job.QueueID row = schema.Conf.GetQueueID conf'.
Proof.
  unfold controller.CreateJob.
  destruct (ValidateJob env conf) as [e|]; [discriminate|].
  destruct (controller.checkPriority conf) as [c [e|]]; [discriminate|].
  unfold models.CreateJob, gorm.Create, gorm.BeforeSave, bind at 1 2.
  unfold record_call at 1. cbn [Job.RuntimeInfo].
  destruct (db_fault env OpCreate) as [e|].
  { unfold bind, ret, log_Errorf, emit. discriminate. }
  match goal with |- context [gorm.insert ?j ?w0] =>
    destruct (gorm.insert j w0) as [[job' [e0|]] w1] eqn:Hi end.
  { unfold bind, ret, log_Errorf, emit. discriminate. }
  unfold bind, ret, log_Infof, emit. intros H. inversion H. subst. clear H.
  pose proof (insert_fresh _ _ _ _ Hi) as (Hex & Hdel & Hun & Hq).
  apply insert_inv in Hi. destruct Hi as (_ & Hd & Hid & Hcf & Hst & Het & _).
  cbn [Job.ID Job.Config Job.Status Job.ExtensionTemplate Job.DeletedAt Job.UserName
       Job.QueueID db] in *.
  split; [exact Hid|]. rewrite Hid. split; [exact Hex|].
  exists (gorm.to_row job'). cbn [db]. split; [exact Hd|].
  split; [apply to_row_idem|].
  destruct (to_row_fields job') as (_ & Tid & Tst & _ & _ & Tdel & _).
  split.
  { apply id_is_intro; [now rewrite Tid|]. now rewrite Tdel, Hdel. }
  rewrite Tst. destruct job'; simpl in *. subst. auto.
Qed.

(** X8.  Insert then look up.  After a [CreateJob] that returns an id, the id is
    the requested one, or the generated one when none was requested, and
    [GetJobByID] of that id finds the new job: in status init, with the
    checked configuration, the given template, and the user name and queue id
    of the configuration. *)
Theorem CreateJob_then_GetJobByID (env : Env) (conf conf' : schema.Conf.t)
    (jobID jobTemplate id : string) (w w' : World) :
  controller.CreateJob env conf jobID jobTemplate w = ((conf', (id, None)), w') ->
  db_fault env OpFirst = None ->
  id = (if String.eqb jobID "" then GenerateID env schema.JobPrefix else jobID)
  /\ exists job,
       models.GetJobByID env id w' = ((job, None), w')
       /\ Job.ID job = id
       /\ Job.Status job = schema.StatusJobInit
       /\ Job.Config job = conf'
       /\ Job.ExtensionTemplate job = jobTemplate
       /\ Job.UserName job = schema.Conf.GetUserName conf'
       /\ Job.QueueID job = schema.Conf.GetQueueID conf'.
Proof.
  intros Hc Hf. apply CreateJob_row in Hc.
  destruct Hc as (Hid & Hex & row & Hd & Hrow & Hidis & Hst & Hcf & Het & Hun & Hq).
  split; [exact Hid|]. exists row. split.
  - rewrite <- Hrow at 1. apply GetJobByID_found; [exact Hf|].
    rewrite Hd. now apply find_fresh_last.
  - destruct (id_is_inv _ _ Hidis) as [Hi _].
    repeat (split; [assumption|]). assumption.
Qed.

Lemma CreateJob_then_GetJobByID_witness :
  exists w' job,
    controller.CreateJob sample.env_ok sample.conf1 "" "- 1" (sample.world [] 5)
    = ((schema.Conf.SetPriority "normal" sample.conf1, ("job-000001", None)), w')
    /\ models.GetJobByID sample.env_ok "job-000001" w' = ((job, None), w')
    /\ Job.Status job = schema.StatusJobInit
    /\ Job.ExtensionTemplate job = "- 1".
Proof.
  destruct (controller.CreateJob sample.env_ok sample.conf1 "" "- 1" (sample.world [] 5))
    as [r w'] eqn:Hc.
  assert (Hr : r = (schema.Conf.SetPriority "normal" sample.conf1, ("job-000001", None)))
    by (apply (f_equal fst) in Hc; vm_compute in Hc; now subst r).
  subst r.
  destruct (CreateJob_then_GetJobByID _ _ _ _ _ _ _ _ Hc eq_refl)
    as (_ & job & Hread & _ & Hst & _ & Het & _).
  exists w', job. auto.
Defined.

Lemma CreateJob_failure_frame (env : Env) (conf conf' : schema.Conf.t)
    (jobID jobTemplate id : string) (e : error) (w w' : World) :
  controller.CreateJob env conf jobID jobTemplate w = ((conf', (id, Some e)), w') ->
  db w' = db w /\ id = "".
Proof.
  unfold controller.CreateJob.
  destruct (ValidateJob env conf) as [e1|].
  { unfold ret. intros H. inversion H. auto. }
  destruct (controller.checkPriority conf) as [c [e1|]].
  { unfold bind, ret, log_Errorf, emit. intros H. inversion H. auto. }
  unfold models.CreateJob, bind at 1.
  match goal with |- context [gorm.Create ?en ?j ?w0] =>
    destruct (gorm.Create en j w0) as [[job' [e0|]] w1] eqn:Hc end.
  - apply Create_inv in Hc. destruct Hc as [_ Hd].
    unfold bind, ret, log_Errorf, emit. intros H. inversion H. subst. simpl. auto.
  - unfold bind, ret, log_Infof, emit. discriminate.
Qed.

Lemma existsb_id_not_in (id : string) (rows : list Job.t) :
  List.existsb (fun r => String.eqb (Job.ID r) id) rows = false ->
  ~ List.In id (List.map Job.ID rows).
Proof.
  intros Hex Hin. apply List.in_map_iff in Hin. destruct Hin as (r & Hr & Hin).
  assert (Ht : List.existsb (fun r => String.eqb (Job.ID r) id) rows = true).
  { apply List.existsb_exists. exists r. split; [exact Hin|]. now apply String.eqb_eq. }
  congruence.
Qed.

(** X9.  Ids stay unique.  If no two rows of the table share an id before
    [CreateJob], none do after it, whether it succeeds or fails: the unique
    index on the id refuses a second row under an id. *)
Theorem CreateJob_keeps_ids_unique (env : Env) (conf : schema.Conf.t)
    (jobID jobTemplate : string) (w : World) :
  List.NoDup (List.map Job.ID (db w)) ->
  List.NoDup
    (List.map Job.ID (db (snd (controller.CreateJob env conf jobID jobTemplate w)))).
Proof.
  intros Hnd.
  destruct (controller.CreateJob env conf jobID jobTemplate w)
    as [[conf' [id [e|]]] w'] eqn:Hc; cbn [snd].
  - apply CreateJob_failure_frame in Hc. destruct Hc as [-> _]. exact Hnd.
  - apply CreateJob_row in Hc.
    destruct Hc as (_ & Hex & row & Hd & _ & Hidis & _).
    destruct (id_is_inv _ _ Hidis) as [Hid _].
    rewrite Hd, List.map_app. simpl.
    apply List.NoDup_app; [exact Hnd|repeat constructor; intros []|].
    intros x Hin [Hx|[]]. subst x. rewrite Hid in Hin.
    exact (existsb_id_not_in _ _ Hex Hin).
Qed.

Lemma CreateJob_keeps_ids_unique_witness :
  let w := sample.world
             [sample.row 1 "job-000001" schema.StatusJobRunning "" NullTime.zero] 5 in
  List.NoDup
    (List.map Job.ID (db (snd (controller.CreateJob sample.env_ok sample.conf1 "" "" w)))).
Proof.
  refine (CreateJob_keeps_ids_unique sample.env_ok sample.conf1 "" ""
            (sample.world
               [sample.row 1 "job-000001" schema.StatusJobRunning "" NullTime.zero] 5) _).
  simpl. repeat constructor. intros [].
Defined.

(** X10.  When the configuration passes validation and the priority check but the
    store refuses the row, because the engine fails or because a row already
    holds the id, [CreateJob] returns the empty id and an error that wraps the
    store's error under the job's name, and the table is as before. *)
Theorem CreateJob_store_failure (env : Env) (conf conf1 : schema.Conf.t)
    (jobID jobTemplate : string) (w : World) :
  ValidateJob env conf = None ->
  controller.checkPriority conf = (conf1, None) ->
  let id := if String.eqb jobID "" then GenerateID env schema.JobPrefix else jobID in
  db_fault env OpCreate <> None
  \/ List.existsb (fun r => String.eqb (Job.ID r) id) (db w) = true ->
  let (r, w') := controller.CreateJob env conf jobID jobTemplate w in
  db w' = db w
  /\ exists e,
       r = (conf1,
            ("", Some (Errorf "create job[%s] in database faield, err: %v"
                         [FStr (schema.Conf.GetName conf1); FErr (Some e)])))
       /\ (forall e0, db_fault env OpCreate = Some e0 -> e = e0).
Proof.
  intros Hv Hp id Hbad. unfold controller.CreateJob. rewrite Hv, Hp. fold id.
  unfold models.CreateJob, gorm.Create, gorm.BeforeSave, bind at 1 2.
  unfold record_call at 1. cbn [Job.RuntimeInfo].
  destruct (db_fault env OpCreate) as [e|] eqn:Hf.
  - unfold bind, ret, log_Errorf, emit. cbn [db fst snd]. split; [reflexivity|].
    exists e. split; [reflexivity|]. intros e0 H. now inversion H.
  - destruct Hbad as [Hbad|Hbad]; [congruence|].
    unfold gorm.insert, bind, ret, time_Now, get_db, log_Errorf, emit.
    cbn [db now calls logs Job.ID]. rewrite Hbad. cbn [db fst snd].
    split; [reflexivity|]. eexists. split; [reflexivity|]. discriminate.
Qed.

Lemma CreateJob_store_failure_witness :
  let w := sample.world
             [sample.row 1 "job-1" schema.StatusJobRunning "" NullTime.zero] 5 in
  let (r, w') := controller.CreateJob sample.env_ok sample.conf1 "job-1" "" w in
  db w' = db w /\ fst (snd r) = "" /\ snd (snd r) <> None.
Proof.
  intros w.
  pose proof (CreateJob_store_failure sample.env_ok sample.conf1
                (schema.Conf.SetPriority "normal" sample.conf1) "job-1" "" w
                eq_refl eq_refl (or_intror eq_refl)) as H.
  destruct (controller.CreateJob sample.env_ok sample.conf1 "job-1" "" w) as [r w'].
  destruct H as (Hd & e & -> & _). simpl. split; [exact Hd|]. split; [reflexivity|].
  discriminate.
Defined.

(** ** [CreateSingleJob] as a whole *)

Lemma CreateSingleJob_body_failed (env : Env) (request : CreateSingleJobRequest.t)
    (extensionTemplate : string) (e : error) (w w' : World) :
  controller.CreateSingleJob_body env request extensionTemplate w = (inr e, w') ->
  db w' = db w.
Proof.
  unfold controller.CreateSingleJob_body, bind at 1.
  match goal with |- context [controller.patchSingleEnvs ?en ?c ?r ?w0] =>
    pose proof (patchSingleEnvs_frame en c r w0) as Hfr;
    destruct (controller.patchSingleEnvs en c r w0) as [[conf1 [e1|]] w1] end;
    destruct Hfr as [Hdb _].
  - unfold bind, ret, log_Errorf, emit. intros H. inversion H. subst. exact Hdb.
  - unfold bind at 1.
    match goal with |- context [controller.CreateJob ?en ?c ?i ?t ?w0] =>
      destruct (controller.CreateJob en c i t w0) as [[conf2 [id [e2|]]] w2] eqn:Hc end.
    + apply CreateJob_failure_frame in Hc. destruct Hc as [Hd _].
      unfold bind, ret, log_Errorf, emit. intros H. inversion H. subst. simpl. congruence.
    + unfold ret. discriminate.
Qed.

Lemma CreateSingleJob_cases (env : Env) (request : CreateSingleJobRequest.t) (w : World) :
  (exists extensionTemplate,
     controller.CreateSingleJob env request w
     = controller.CreateSingleJob_body env request extensionTemplate w
     /\ (extensionTemplate = ""
         \/ JSONToYAML env (JobSpec.ExtensionTemplate
                              (CreateSingleJobRequest.JobSpec request))
            = (extensionTemplate, None)))
  \/ (exists e w',
        controller.CreateSingleJob env request w = (inr e, w')
        /\ db w' = db w /\ calls w' = calls w).
Proof.
  unfold controller.CreateSingleJob.
  destruct (negb (String.eqb _ "")).
  - destruct (JSONToYAML env _) as [bytes [e|]].
    + right. unfold bind, ret, log_Errorf, emit. eexists _, _. repeat split.
    + left. exists bytes. auto.
  - left. exists "". auto.
Qed.

(** X11.  All or nothing.  A [CreateSingleJob] that returns a response has added
    exactly one row, at the end of the table, under the id of the response and
    in status init; one that returns an error has left the table as it was,
    at whichever step it failed. *)
Theorem CreateSingleJob_all_or_nothing (env : Env) (request : CreateSingleJobRequest.t)
    (w : World) :
  let (r, w') := controller.CreateSingleJob env request w in
  match r with
  | inl resp =>
      exists row,
        db w' = db w ++ [row]
        /\ Job.ID row = CreateJobResponse.ID resp
        /\ Job.Status row = schema.StatusJobInit
  | inr _ => db w' = db w
  end.
Proof.
  destruct (CreateSingleJob_cases env request w) as [(T & -> & _)|(e & w' & -> & Hd & _)];
    [|exact Hd].
  destruct (controller.CreateSingleJob_body env request T w) as [[resp|e] w'] eqn:Hb.
  - apply CreateSingleJob_body_created in Hb.
    destruct Hb as (row & Hd & Hid & Hst & _). eauto.
  - now apply CreateSingleJob_body_failed in Hb.
Qed.

Lemma checkPriority_built (request : CreateSingleJobRequest.t) (queue : Queue.t)
    (flavour : schema.Flavour.t) (conf conf' : schema.Conf.t) :
  let priority :=
    SchedulingPolicy.Priority
      (CommonJobInfo.SchedulingPolicy (CreateSingleJobRequest.CommonJobInfo request)) in
  schema.Conf.SetPriority
    (if String.eqb priority "" then schema.EnvJobNormalPriority else priority) conf
  = built_conf request queue flavour ->
  schema.Conf.GetPriority conf = priority ->
  controller.checkPriority conf = (conf', None) ->
  conf' = built_conf request queue flavour.
Proof.
  intros priority Hb Hp. unfold controller.checkPriority. rewrite Hp.
  destruct priority as [|c p] eqn:He.
  - simpl. intros H. inversion H. exact Hb.
  - cbn [String.length Nat.eqb].
    destruct (negb _ && negb _ && negb _); [discriminate|].
    intros H. inversion H. subst conf'. rewrite <- Hb.
    change (String.eqb (String c p) "") with false. cbv iota.
    destruct conf. simpl in Hp. subst. reflexivity.
Qed.

(** X12.  The row behind a response.  When [CreateSingleJob] returns a response,
    the queue and the flavour of the request were found, and the one row
    added carries the id of the response, the user name and queue id of the
    request, and the configuration built from the request: name, labels,
    annotations, image, command, args, port and filesystems as requested; the
    environment of the request plus the job-kind marker and the queue name;
    cluster id and namespace of the queue; the name of the flavour found; the
    filesystem id of user and filesystem name; and the requested priority,
    or the normal label when none was requested. *)
Theorem CreateSingleJob_persists_request (env : Env) (request : CreateSingleJobRequest.t)
    (resp : CreateJobResponse.t) (w w' : World) :
  controller.CreateSingleJob env request w = (inl resp, w') ->
  exists queue flavour row,
    GetQueueByID env
      (SchedulingPolicy.QueueID
         (CommonJobInfo.SchedulingPolicy (CreateSingleJobRequest.CommonJobInfo request)))
    = (queue, None)
    /\ GetFlavour env
         (schema.Flavour.Name (JobSpec.Flavour (CreateSingleJobRequest.JobSpec request)))
       = (flavour, None)
    /\ db w' = db w ++ [row]
    /\ Job.ID row = CreateJobResponse.ID resp
    /\ Job.Config row = built_conf request queue flavour
    /\ Job.UserName row
       = CommonJobInfo.UserName (CreateSingleJobRequest.CommonJobInfo request)
    /\ Job.QueueID row
       = SchedulingPolicy.QueueID
           (CommonJobInfo.SchedulingPolicy (CreateSingleJobRequest.CommonJobInfo request)).
Proof.
  intros Hrun.
  destruct (CreateSingleJob_cases env request w) as [(T & Heq & _)|(e & w1 & Heq & _)];
    rewrite Heq in Hrun; [|discriminate]. clear Heq.
  revert Hrun.
  unfold controller.CreateSingleJob_body, controller.patchSingleEnvs, controller.patchEnvs.
  unfold bind at 1 2 3 4. unfold log_Debugf at 1 2. unfold emit at 1 2.
  destruct (GetQueueByID env _) as [queue [e|]] eqn:Hq.
  { destruct (is_ErrRecordNotFound e); unfold bind, ret, log_Errorf, emit; discriminate. }
  unfold ret at 1.
  destruct (GetFlavour env _) as [flavour [e|]] eqn:Hfl.
  { unfold bind, ret, log_Errorf, emit. discriminate. }
  unfold ret at 1. unfold bind at 1.
  match goal with |- context [controller.CreateJob ?en ?c ?i ?t ?w0] =>
    set (patched := c);
    destruct (controller.CreateJob en patched i t w0) as [[conf2 [id [e2|]]] w2] eqn:Hc end.
  { unfold bind, ret, log_Errorf, emit. discriminate. }
  unfold ret. intros H. inversion H. subst. clear H.
  pose proof (CreateJob_success _ _ _ _ _ _ _ _ Hc) as (_ & Hcp & _).
  apply CreateJob_row in Hc.
  destruct Hc as (_ & _ & row & Hd & _ & Hidis & _ & Hcf & _ & Hun & Hqid).
  destruct (id_is_inv _ _ Hidis) as [Hid _].
  assert (Hbuilt : conf2 = built_conf request queue flavour).
  { apply (checkPriority_built request queue flavour patched conf2); [| |exact Hcp].
    - unfold patched, built_conf.
      destruct (String.eqb (SchedulingPolicy.Priority _) ""); reflexivity.
    - unfold patched.
      destruct (String.eqb (SchedulingPolicy.Priority _) "") eqn:Hp; [|reflexivity].
      apply String.eqb_eq in Hp. simpl. now rewrite Hp. }
  exists queue, flavour, row. rewrite Hun, Hqid, Hcf, Hbuilt.
  split; [reflexivity|]. split; [reflexivity|]. split; [exact Hd|].
  split; [exact Hid|]. repeat split.
Qed.

Lemma CreateSingleJob_persists_request_witness :
  let request := sample.request "job-5" "high" "" in
  exists row w',
    controller.CreateSingleJob sample.env_ok request (sample.world [] 5)
    = (inl (CreateJobResponse.mk "job-5"), w')
    /\ db w' = [row]
    /\ Job.Config row
       = built_conf request (Queue.mk "default" "c1" "ns1") (schema.Flavour.mk "flavour1").
Proof.
  intros request.
  destruct (controller.CreateSingleJob sample.env_ok request (sample.world [] 5))
    as [r w'] eqn:Hrun.
  assert (Hr : r = inl (CreateJobResponse.mk "job-5"))
    by (apply (f_equal fst) in Hrun; vm_compute in Hrun; now subst r).
  subst r.
  destruct (CreateSingleJob_persists_request _ _ _ _ _ Hrun)
    as (queue & flavour & row & Hq & Hfl & Hd & _ & Hcf & _).
  inversion Hq. inversion Hfl. subst queue flavour.
  exists row, w'. split; [reflexivity|]. split; [exact Hd|exact Hcf].
Defined.

Lemma CreateSingleJob_converts (env : Env) (request : CreateSingleJobRequest.t) (w : World) :
  template_converts env request ->
  exists extensionTemplate,
    controller.CreateSingleJob env request w
    = controller.CreateSingleJob_body env request extensionTemplate w.
Proof.
  unfold template_converts, controller.CreateSingleJob. intros [He|He].
  - rewrite He. exists "". reflexivity.
  - destruct (negb (String.eqb _ "")); [|exists ""; reflexivity].
    destruct (JSONToYAML env _) as [bytes [e|]]; [discriminate|].
    exists bytes. reflexivity.
Qed.

(** X13.  Failed lookups of the builder.  With a template that converts, a request
    whose queue cannot be read fails with the error of the lookup, rewritten
    to "queue not found by id" of the queue id when it is gorm's
    [ErrRecordNotFound]; a request whose flavour cannot be read fails with the
    error of that lookup.  In both cases nothing is written and the
    repository is not called. *)
Theorem CreateSingleJob_lookup_failures (env : Env) (request : CreateSingleJobRequest.t)
    (w : World) :
  template_converts env request ->
  let queueID :=
    SchedulingPolicy.QueueID
      (CommonJobInfo.SchedulingPolicy (CreateSingleJobRequest.CommonJobInfo request)) in
  let name :=
    schema.Flavour.Name (JobSpec.Flavour (CreateSingleJobRequest.JobSpec request)) in
  let (r, w') := controller.CreateSingleJob env request w in
  (forall queue e,
     GetQueueByID env queueID = (queue, Some e) ->
     r = inr (if is_ErrRecordNotFound e
              then Errorf "queue not found by id %s" [FStr queueID] else e)
     /\ db w' = db w /\ calls w' = calls w)
  /\ (forall queue flavour e,
        GetQueueByID env queueID = (queue, None) ->
        GetFlavour env name = (flavour, Some e) ->
        r = inr e /\ db w' = db w /\ calls w' = calls w).
Proof.
  intros Hconv queueID name.
  destruct (CreateSingleJob_converts env request w Hconv) as [T ->].
  destruct (controller.CreateSingleJob_body env request T w) as [r w'] eqn:Hb.
  revert Hb.
  unfold controller.CreateSingleJob_body, controller.patchSingleEnvs, controller.patchEnvs.
  fold queueID. fold name. intros Hb. split.
  - intros queue e Hq. rewrite Hq in Hb. revert Hb.
    unfold bind, ret, log_Debugf, log_Errorf, emit.
    destruct (is_ErrRecordNotFound e); simpl; intros Hb; inversion Hb; auto.
  - intros queue flavour e Hq Hfl. rewrite Hq, Hfl in Hb. revert Hb.
    unfold bind, ret, log_Debugf, log_Errorf, emit. simpl.
    intros Hb. inversion Hb. auto.
Qed.

Lemma CreateSingleJob_lookup_failures_witness :
  (let (r, w') :=
     controller.CreateSingleJob (sample.without_queues sample.env_ok)
       (sample.request "" "" "") (sample.world [] 5) in
   r = inr (Errorf "queue not found by id %s" [FStr "q1"]) /\ db w' = [] /\ calls w' = [])
  /\ (let (r, w') :=
        controller.CreateSingleJob (sample.without_flavours sample.env_ok)
          (sample.request "" "" "") (sample.world [] 5) in
      r = inr ErrRecordNotFound /\ db w' = [] /\ calls w' = []).
Proof.
  split.
  - pose proof (CreateSingleJob_lookup_failures (sample.without_queues sample.env_ok)
                  (sample.request "" "" "") (sample.world [] 5) (or_introl eq_refl)) as H.
    cbv zeta in H.
    destruct (controller.CreateSingleJob (sample.without_queues sample.env_ok)
                (sample.request "" "" "") (sample.world [] 5)) as [r w'].
    destruct H as [H _]. exact (H _ _ eq_refl).
  - pose proof (CreateSingleJob_lookup_failures (sample.without_flavours sample.env_ok)
                  (sample.request "" "" "") (sample.world [] 5) (or_introl eq_refl)) as H.
    cbv zeta in H.
    destruct (controller.CreateSingleJob (sample.without_flavours sample.env_ok)
                (sample.request "" "" "") (sample.world [] 5)) as [r w'].
    destruct H as [_ H]. exact (H _ _ _ eq_refl eq_refl).
Defined.

(** ** [StopJob] and [DeleteJob] before the backend is reached *)

Lemma DeleteJob_unresolved (env : Env) (ctx ctx' : RequestContext.t) (jobID : string)
    (job : Job.t) (e : error) (w : World) :
  models.GetJobByID env jobID w = ((job, None), w) ->
  fst (controller.getRuntimeByQueue env ctx (Job.QueueID job) w) = (ctx', inr e) ->
  let (r, w') := controller.DeleteJob env ctx jobID w in
  r = (ctx', Some e) /\ db w' = db w /\ calls w' = calls w.
Proof.
  intros Hg Hq. unfold controller.DeleteJob, controller.CheckPermission, bind at 1.
  rewrite Hg. unfold bind at 1.
  pose proof (getRuntimeByQueue_frame env ctx (Job.QueueID job) w) as Hfr.
  destruct (controller.getRuntimeByQueue env ctx (Job.QueueID job) w) as [q w1].
  simpl in Hq. subst q. destruct Hfr as [Hd Hc].
  unfold bind, ret, log_Errorf, emit. simpl. auto.
Qed.

Lemma StopJob_unresolved (env : Env) (ctx ctx' : RequestContext.t) (jobID : string)
    (job : Job.t) (e : error) (w : World) :
  models.GetJobByID env jobID w = ((job, None), w) ->
  schema.IsImmutableJobStatus (Job.Status job) = false ->
  fst (controller.getRuntimeByQueue env ctx (Job.QueueID job) w) = (ctx', inr e) ->
  let (r, w') := controller.StopJob env ctx jobID w in
  r = (ctx', Some e) /\ db w' = db w /\ calls w' = calls w.
Proof.
  intros Hg Ht Hq. unfold controller.StopJob, controller.CheckPermission, bind at 1.
  rewrite Hg, Ht. unfold bind at 1.
  pose proof (getRuntimeByQueue_frame env ctx (Job.QueueID job) w) as Hfr.
  destruct (controller.getRuntimeByQueue env ctx (Job.QueueID job) w) as [q w1].
  simpl in Hq. subst q. destruct Hfr as [Hd Hc].
  unfold bind, ret, log_Errorf, emit. simpl. auto.
Qed.

(** X14.  When the job cannot be read, be it absent or the engine failing,
    [DeleteJob] and [StopJob] set the error code of the context to
    JobNotFound, return the error of the read, call neither the backend nor
    the repository and leave the table alone. *)
Theorem unreadable_job_sets_JobNotFound (env : Env) (ctx : RequestContext.t)
    (jobID : string) (w : World) (e : error) :
  snd (fst (models.GetJobByID env jobID w)) = Some e ->
  (let (r, w') := controller.DeleteJob env ctx jobID w in
   r = (controller.with_ErrorCode common.JobNotFound ctx, Some e)
   /\ db w' = db w /\ calls w' = calls w)
  /\ (let (r, w') := controller.StopJob env ctx jobID w in
      r = (controller.with_ErrorCode common.JobNotFound ctx, Some e)
      /\ db w' = db w /\ calls w' = calls w).
Proof.
  intros He. pose proof (GetJobByID_frame env jobID w) as Hfr.
  unfold controller.DeleteJob, controller.StopJob, controller.CheckPermission, bind.
  destruct (models.GetJobByID env jobID w) as [[job [e'|]] w1]; [|discriminate].
  simpl in He. inversion He. subst e'. destruct Hfr as [Hd Hc].
  unfold ret, log_Errorf, emit. simpl. auto.
Qed.

Lemma unreadable_job_sets_JobNotFound_witness :
  (let (r, w') := controller.DeleteJob sample.env_ok sample.ctx0 "job-1" (sample.world [] 5) in
   r = (RequestContext.mk "JobNotFound", Some ErrRecordNotFound)
   /\ db w' = [] /\ calls w' = [])
  /\ (let (r, w') := controller.StopJob sample.env_ok sample.ctx0 "job-1" (sample.world [] 5) in
      r = (RequestContext.mk "JobNotFound", Some ErrRecordNotFound)
      /\ db w' = [] /\ calls w' = []).
Proof.
  exact (unreadable_job_sets_JobNotFound sample.env_ok sample.ctx0 "job-1"
           (sample.world [] 5) ErrRecordNotFound eq_refl).
Defined.

(** X15.  When the runtime handle of the job's cluster cannot be built, [DeleteJob]
    and, for a job that has not finished, [StopJob] do not return the error of
    the construction: they return the error "delete queue failed", set the
    error code of the context to InternalError, and call neither the backend
    nor the repository. *)
Theorem runtime_handle_failure_masked (env : Env) (ctx : RequestContext.t)
    (jobID : string) (job : Job.t) (queue : Queue.t) (cluster : ClusterInfo.t)
    (e : error) (w : World) :
  models.GetJobByID env jobID w = ((job, None), w) ->
  GetQueueByID env (Job.QueueID job) = (queue, None) ->
  GetClusterById env (Queue.ClusterId queue) = (cluster, None) ->
  GetOrCreateRuntime env cluster = inr e ->
  (let (r, w') := controller.DeleteJob env ctx jobID w in
   r = (controller.with_ErrorCode common.InternalError ctx,
        Some (Errorf "delete queue failed" []))
   /\ db w' = db w /\ calls w' = calls w)
  /\ (schema.IsImmutableJobStatus (Job.Status job) = false ->
      let (r, w') := controller.StopJob env ctx jobID w in
      r = (controller.with_ErrorCode common.InternalError ctx,
           Some (Errorf "delete queue failed" []))
      /\ db w' = db w /\ calls w' = calls w).
Proof.
  intros Hg Hq Hc Hr.
  assert (Hres : fst (controller.getRuntimeByQueue env ctx (Job.QueueID job) w)
                 = (controller.with_ErrorCode common.InternalError ctx,
                    inr (Errorf "delete queue failed" []))).
  { unfold controller.getRuntimeByQueue. rewrite Hq, Hc, Hr. reflexivity. }
  split.
  - exact (DeleteJob_unresolved _ _ _ _ _ _ _ Hg Hres).
  - intros Ht. exact (StopJob_unresolved _ _ _ _ _ _ _ Hg Ht Hres).
Qed.

Lemma runtime_handle_failure_masked_witness :
  let env := sample.without_runtime sample.env_ok in
  let w := sample.world
             [sample.row 1 "job-1" schema.StatusJobRunning "" NullTime.zero] 100 in
  (let (r, w') := controller.DeleteJob env sample.ctx0 "job-1" w in
   r = (RequestContext.mk "InternalError", Some (Errorf "delete queue failed" []))
   /\ db w' = db w /\ calls w' = calls w)
  /\ (let (r, w') := controller.StopJob env sample.ctx0 "job-1" w in
      r = (RequestContext.mk "InternalError", Some (Errorf "delete queue failed" []))
      /\ db w' = db w /\ calls w' = calls w).
Proof.
  intros env w.
  destruct (runtime_handle_failure_masked env sample.ctx0 "job-1"
              (sample.row 1 "job-1" schema.StatusJobRunning "" NullTime.zero)
              (Queue.mk "default" "c1" "ns1") (ClusterInfo.mk "c1")
              (errors_New "bad kubeconfig") w eq_refl eq_refl eq_refl eq_refl)
    as [Hd Hs].
  split; [exact Hd|exact (Hs eq_refl)].
Defined.

(** X16.  An error of the queue lookup, or of the cluster lookup after it, is what
    [DeleteJob] and, for a job that has not finished, [StopJob] return,
    unchanged and with the context untouched; nothing is called or written. *)
Theorem directory_errors_pass_through (env : Env) (ctx : RequestContext.t)
    (jobID : string) (job : Job.t) (e : error) (w : World) :
  models.GetJobByID env jobID w = ((job, None), w) ->
  snd (GetQueueByID env (Job.QueueID job)) = Some e
  \/ (snd (GetQueueByID env (Job.QueueID job)) = None
      /\ snd (GetClusterById env (Queue.ClusterId (fst (GetQueueByID env (Job.QueueID job)))))
         = Some e) ->
  (let (r, w') := controller.DeleteJob env ctx jobID w in
   r = (ctx, Some e) /\ db w' = db w /\ calls w' = calls w)
  /\ (schema.IsImmutableJobStatus (Job.Status job) = false ->
      let (r, w') := controller.StopJob env ctx jobID w in
      r = (ctx, Some e) /\ db w' = db w /\ calls w' = calls w).
Proof.
  intros Hg Hdir.
  assert (Hres : fst (controller.getRuntimeByQueue env ctx (Job.QueueID job) w)
                 = (ctx, inr e)).
  { unfold controller.getRuntimeByQueue.
    destruct (GetQueueByID env (Job.QueueID job)) as [queue [eq|]]; simpl in Hdir.
    - destruct Hdir as [H|[H _]]; [|discriminate]. inversion H. reflexivity.
    - destruct Hdir as [H|[_ H]]; [discriminate|].
      destruct (GetClusterById env (Queue.ClusterId queue)) as [cluster [ec|]];
        simpl in H; [|discriminate]. inversion H. reflexivity. }
  split.
  - exact (DeleteJob_unresolved _ _ _ _ _ _ _ Hg Hres).
  - intros Ht. exact (StopJob_unresolved _ _ _ _ _ _ _ Hg Ht Hres).
Qed.

Lemma directory_errors_pass_through_witness :
  let env := sample.without_queues sample.env_ok in
  let w := sample.world
             [sample.row 1 "job-1" schema.StatusJobRunning "" NullTime.zero] 100 in
  (let (r, w') := controller.DeleteJob env sample.ctx0 "job-1" w in
   r = (sample.ctx0, Some ErrRecordNotFound) /\ db w' = db w /\ calls w' = calls w)
  /\ (let (r, w') := controller.StopJob env sample.ctx0 "job-1" w in
      r = (sample.ctx0, Some ErrRecordNotFound) /\ db w' = db w /\ calls w' = calls w).
Proof.
  intros env w.
  destruct (directory_errors_pass_through env sample.ctx0 "job-1"
              (sample.row 1 "job-1" schema.StatusJobRunning "" NullTime.zero)
              ErrRecordNotFound w eq_refl (or_introl eq_refl)) as [Hd Hs].
  split; [exact Hd|exact (Hs eq_refl)].
Defined.

(** ** [StopJob] and the backend *)

Lemma getRuntimeByQueue_ok_inv (env : Env) (ctx ctx' : RequestContext.t)
    (queueID : string) (svc : RuntimeService.t) (w w' : World) :
  controller.getRuntimeByQueue env ctx queueID w = ((ctx', inl svc), w') ->
  ctx' = ctx /\ w' = w
  /\ exists queue cluster,
       GetQueueByID env queueID = (queue, None)
       /\ GetClusterById env (Queue.ClusterId queue) = (cluster, None)
       /\ GetOrCreateRuntime env cluster = inl svc.
Proof.
  unfold controller.getRuntimeByQueue.
  destruct (GetQueueByID env queueID) as [queue [e|]] eqn:Hq;
    [unfold bind, ret, log_Errorf, emit; intros H; inversion H|].
  destruct (GetClusterById env (Queue.ClusterId queue)) as [cluster [e|]] eqn:Hc;
    [unfold bind, ret, emit; intros H; inversion H|].
  destruct (GetOrCreateRuntime env cluster) as [svc0|e] eqn:Hr;
    [|unfold bind, ret, emit; intros H; inversion H].
  unfold ret. intros H. inversion H; subst.
  split; [reflexivity|]. split; [reflexivity|]. now exists queue, cluster.
Qed.

(** X17.  [StopJob] never writes to the table, and calls nothing but, at most once,
    the backend's [StopJob]: then the job was read from the table, the backend
    and the view are the ones that the queue of the job resolves to, and the
    answer of that backend to that view is the error [StopJob] returns. *)
Theorem StopJob_never_writes (env : Env) (ctx : RequestContext.t) (jobID : string)
    (w : World) :
  let (r, w') := controller.StopJob env ctx jobID w in
  db w' = db w
  /\ (calls w' = calls w
      \/ exists job svc pfjob,
           fst (models.GetJobByID env jobID w) = (job, None)
           /\ resolves env job svc pfjob
           /\ calls w' = calls w ++ [RuntimeStopJob pfjob]
           /\ r = (ctx, RuntimeService.StopJob svc pfjob)).
Proof.
  unfold controller.StopJob, controller.CheckPermission, bind at 1.
  pose proof (GetJobByID_frame env jobID w) as Hg.
  destruct (models.GetJobByID env jobID w) as [[job [e|]] w1] eqn:Hget;
    destruct Hg as [Hg1 Hg2].
  - unfold bind, ret, log_Errorf, emit. simpl. auto.
  - destruct (schema.IsImmutableJobStatus (Job.Status job)).
    + unfold bind, ret, log_Errorf, emit. simpl. auto.
    + unfold bind at 1.
      pose proof (getRuntimeByQueue_frame env ctx (Job.QueueID job) w1) as Hq.
      destruct (controller.getRuntimeByQueue env ctx (Job.QueueID job) w1)
        as [[ctx1 [svc|e]] w2] eqn:Hrt; destruct Hq as [Hq1 Hq2].
      * apply getRuntimeByQueue_ok_inv in Hrt.
        destruct Hrt as (-> & -> & queue & cluster & Hqu & Hcl & Hsvc).
        destruct (NewJobInfo env job) as [pfjob|e] eqn:Hview.
        -- assert (Hres : resolves env job svc pfjob) by (now exists queue, cluster).
           unfold bind, ret, record_call, log_Errorf, emit. simpl.
           destruct (RuntimeService.StopJob svc pfjob) as [e|] eqn:Hs; simpl;
             (split; [congruence|]); right; exists job, svc, pfjob; rewrite Hs;
             (split; [reflexivity|]); (split; [exact Hres|]);
             (split; [congruence|reflexivity]).
        -- unfold ret. simpl. split; [congruence|]. left. congruence.
      * unfold bind, ret, log_Errorf, emit. simpl. split; [congruence|]. left. congruence.
Qed.

(** X18.  For a job that has not finished and whose lookups answer, [StopJob] hands
    the job-info view to the backend's [StopJob] and returns exactly what the
    backend answers; the row of the job, its status included, is not touched
    by the call. *)
Theorem StopJob_forwards (env : Env) (ctx : RequestContext.t) (jobID : string)
    (job : Job.t) (svc : RuntimeService.t) (pfjob : PFJob.t) (w : World) :
  models.GetJobByID env jobID w = ((job, None), w) ->
  schema.IsImmutableJobStatus (Job.Status job) = false ->
  resolves env job svc pfjob ->
  let (r, w') := controller.StopJob env ctx jobID w in
  r = (ctx, RuntimeService.StopJob svc pfjob)
  /\ calls w' = calls w ++ [RuntimeStopJob pfjob]
  /\ db w' = db w.
Proof.
  intros Hg Ht Hres.
  unfold controller.StopJob, controller.CheckPermission, bind at 1. rewrite Hg, Ht.
  unfold bind at 1. rewrite (getRuntimeByQueue_resolved _ ctx _ _ _ w Hres).
  destruct Hres as (queue & cluster & _ & _ & _ & Hn). rewrite Hn.
  unfold bind, ret, record_call, log_Errorf, emit. simpl.
  destruct (RuntimeService.StopJob svc pfjob) as [e|]; simpl; auto.
Qed.

Lemma StopJob_forwards_witness :
  let job := sample.row 1 "job-1" schema.StatusJobRunning "" NullTime.zero in
  let w := sample.world [job] 100 in
  let env := sample.with_fault (fun _ => None)
               (sample.with_runtime sample.svc_ok sample.env_ok) in
  let (r, w') := controller.StopJob env sample.ctx0 "job-1" w in
  r = (sample.ctx0, None)
  /\ calls w' = calls w ++ [RuntimeStopJob (sample.view job)]
  /\ db w' = db w.
Proof.
  exact (StopJob_forwards
           (sample.with_fault (fun _ => None)
              (sample.with_runtime sample.svc_ok sample.env_ok))
           sample.ctx0 "job-1"
           (sample.row 1 "job-1" schema.StatusJobRunning "" NullTime.zero)
           sample.svc_ok _
           (sample.world [sample.row 1 "job-1" schema.StatusJobRunning "" NullTime.zero] 100)
           eq_refl eq_refl (resolves_sample _ _ _)).
Defined.

(** ** [checkPriority] *)

(** X19.  [checkPriority] accepts exactly the empty priority and the three labels
    low, normal and high; what it accepts it leaves as it is, except the empty
    priority, which it sets to normal; and a configuration it has accepted is
    accepted again, unchanged. *)
Theorem checkPriority_accepts_iff (conf : schema.Conf.t) :
  let priority := schema.Conf.GetPriority conf in
  (snd (controller.checkPriority conf) = None
   <-> priority = "" \/ priority = schema.EnvJobLowPriority
       \/ priority = schema.EnvJobNormalPriority \/ priority = schema.EnvJobHighPriority)
  /\ (priority <> "" -> fst (controller.checkPriority conf) = conf)
  /\ (snd (controller.checkPriority conf) = None ->
      controller.checkPriority (fst (controller.checkPriority conf))
      = (fst (controller.checkPriority conf), None)).
Proof.
  intros priority. split; [|split].
  - unfold controller.checkPriority. fold priority.
    destruct priority as [|c p] eqn:Hp; [simpl; tauto|].
    cbn [String.length Nat.eqb].
    destruct (String.eqb (String c p) schema.EnvJobLowPriority) eqn:Hl;
      [apply String.eqb_eq in Hl; simpl; tauto|].
    destruct (String.eqb (String c p) schema.EnvJobNormalPriority) eqn:Hn;
      [apply String.eqb_eq in Hn; simpl; tauto|].
    destruct (String.eqb (String c p) schema.EnvJobHighPriority) eqn:Hh;
      [apply String.eqb_eq in Hh; simpl; tauto|].
    apply String.eqb_neq in Hl, Hn, Hh. simpl. split; [discriminate|].
    intros [H|[H|[H|H]]]; congruence.
  - unfold controller.checkPriority. fold priority.
    destruct priority as [|c p]; [congruence|]. intros _.
    cbn [String.length Nat.eqb]. now destruct (negb _ && negb _ && negb _).
  - intros Hok. destruct (string_dec priority "") as [Hp|Hp].
    + rewrite (checkPriority_empty conf Hp). cbn [fst].
      apply checkPriority_listed. rewrite SetPriority_get. auto.
    + assert (Hfst : fst (controller.checkPriority conf) = conf).
      { unfold controller.checkPriority. fold priority.
        destruct priority as [|c p]; [congruence|].
        cbn [String.length Nat.eqb]. now destruct (negb _ && negb _ && negb _). }
      rewrite Hfst. destruct (controller.checkPriority conf) as [c e].
      simpl in *. congruence.
Qed.

(** ** The two list queries *)

Lemma existsb_eqb_In (s : string) (l : list string) :
  List.existsb (String.eqb s) l = true <-> List.In s l.
Proof.
  rewrite List.existsb_exists. split.
  - intros (x & Hin & Heq). apply String.eqb_eq in Heq. now subst.
  - intros Hin. exists s. split; [exact Hin|apply String.eqb_refl].
Qed.

(** X20.  [ListQueueJob] never reports an error: when the query fails it answers
    the empty list.  When the query works it answers, in table order, exactly
    the rows not marked deleted that belong to the queue and whose status is
    one of the given ones, so nothing for an empty list of statuses.  It
    changes nothing. *)
Theorem ListQueueJob_answers (env : Env) (queueID : string)
    (status : list schema.JobStatus) (w : World) :
  snd (models.ListQueueJob env queueID status w) = w
  /\ (db_fault env OpFind <> None -> fst (models.ListQueueJob env queueID status w) = [])
  /\ (db_fault env OpFind = None ->
      forall j,
        List.In j (fst (models.ListQueueJob env queueID status w))
        <-> exists r,
              List.In r (db w)
              /\ gorm.live r = true
              /\ Job.QueueID r = queueID
              /\ List.In (Job.Status r) status
              /\ j = gorm.to_row r).
Proof.
  unfold models.ListQueueJob, gorm.Find, bind, ret, get_db.
  destruct (db_fault env OpFind) as [e|]; simpl.
  - split; [reflexivity|]. split; [reflexivity|discriminate].
  - split; [reflexivity|]. split; [congruence|]. intros _ j.
    rewrite List.in_map_iff. split.
    + intros (r & <- & Hin). apply List.filter_In in Hin. destruct Hin as [Hin Hp].
      apply andb_prop in Hp. destruct Hp as [Hp Hl].
      apply andb_prop in Hp. destruct Hp as [Hs Hq].
      exists r. apply existsb_eqb_In in Hs. apply String.eqb_eq in Hq. auto.
    + intros (r & Hin & Hl & Hq & Hs & ->). exists r. split; [reflexivity|].
      apply List.filter_In. split; [exact Hin|].
      apply existsb_eqb_In in Hs. apply String.eqb_eq in Hq.
      now rewrite Hs, Hq, Hl.
Qed.

Lemma filter_none {A} (p : A -> bool) (l : list A) :
  (forall x, p x = false) -> List.filter p l = [].
Proof.
  intros Hp. induction l as [|a l IH]; simpl; [reflexivity|]. now rewrite Hp.
Qed.

(** X21.  Narrowing by a job of another run.  For a plain run id (ASCII
    characters, none of them [%], [_] or the zero byte) and a query that
    works, [GetJobsByRunID] with a job id that does not start with
    job-<runID>-, the case of ASCII letters set aside, answers the empty list
    and no error, whether or not a job with that id is stored. *)
Theorem GetJobsByRunID_job_of_another_run (env : Env) (runID jobID : string) (w : World) :
  db_fault env OpFind = None ->
  plain runID = true ->
  jobID <> "" ->
  prefix_nocase ("job-" +:+ runID +:+ "-") jobID = false ->
  models.GetJobsByRunID env runID jobID w = ((Some [], None), w).
Proof.
  intros Hf Hr Hne Hpre. rewrite (GetJobsByRunID_one _ _ _ _ Hf Hne).
  rewrite filter_none; [reflexivity|]. intros j.
  rewrite like_run_pattern by exact Hr. unfold of_run_nocase.
  destruct (String.eqb (Job.ID j) jobID) eqn:He.
  - apply String.eqb_eq in He. rewrite He, Hpre. reflexivity.
  - now rewrite andb_false_r.
Qed.

Lemma GetJobsByRunID_job_of_another_run_witness :
  let w := sample.world
             [sample.row 1 "job-abc123-a" schema.StatusJobRunning "" NullTime.zero;
              sample.row 2 "job-xyz-a" schema.StatusJobRunning "" NullTime.zero] 10 in
  models.GetJobsByRunID sample.env_ok "ABC123" "job-xyz-a" w = ((Some [], None), w).
Proof.
  refine (GetJobsByRunID_job_of_another_run sample.env_ok "ABC123" "job-xyz-a"
            (sample.world
               [sample.row 1 "job-abc123-a" schema.StatusJobRunning "" NullTime.zero;
                sample.row 2 "job-xyz-a" schema.StatusJobRunning "" NullTime.zero] 10)
            eq_refl eq_refl _ eq_refl).
  discriminate.
Defined.

(** ** Histories of updates *)

Lemma UpdateJobStatus_db (env : Env) (jobId errMessage : string)
    (jobStatus : schema.JobStatus) (w : World) :
  db (snd (models.UpdateJobStatus env jobId errMessage jobStatus w)) = db w
  \/ exists r2,
       List.find (gorm.id_is jobId) (db w) = Some r2
       /\ db (snd (models.UpdateJobStatus env jobId errMessage jobStatus w))
          = List.map
              (fun r => if gorm.id_is jobId r
                        then gorm.assign_nonzero (now w)
                               (status_update errMessage jobStatus (gorm.to_row r2)) r
                        else r)
              (db w).
Proof.
  destruct (models.GetJobByID env jobId w) as [[job [e|]] w1] eqn:Hg.
  - left. assert (He : snd (fst (models.GetJobByID env jobId w)) = Some e) by now rewrite Hg.
    destruct (update_after_failed_read env jobId w e He) as (H & _).
    specialize (H errMessage jobStatus).
    destruct (models.UpdateJobStatus env jobId errMessage jobStatus w) as [r w'].
    simpl. tauto.
  - destruct (GetJobByID_ok_inv _ _ _ _ _ Hg) as (_ & (r0 & Hfind & ->) & ->).
    rewrite (UpdateJobStatus_stored _ _ _ _ _ _ Hg). cbv zeta.
    destruct (db_fault env OpUpdates) as [e|] eqn:Hu.
    + left. now rewrite (Updates_fault _ _ _ _ e Hu).
    + right. exists r0. split; [exact Hfind|]. now rewrite (Updates_ok _ _ _ _ Hu).
Qed.

Lemma UpdateJob_db (env : Env) (jobID : string) (status : schema.JobStatus)
    (info : option interface_) (message : string) (w : World) :
  db (snd (models.UpdateJob env jobID status info message w)) = db w
  \/ exists r2 job2,
       List.find (gorm.id_is jobID) (db w) = Some r2
       /\ gorm.BeforeSave env (job_update status info message (now w) (gorm.to_row r2))
          = (job2, None)
       /\ db (snd (models.UpdateJob env jobID status info message w))
          = List.map
              (fun r => if gorm.id_is jobID r && (Job.Pk r =? Job.Pk r2)
                        then gorm.to_row (Job.with_UpdatedAt (now w) job2) else r)
              (db w).
Proof.
  destruct (models.GetJobByID env jobID w) as [[job [e|]] w1] eqn:Hg.
  - left. assert (He : snd (fst (models.GetJobByID env jobID w)) = Some e) by now rewrite Hg.
    destruct (update_after_failed_read env jobID w e He) as (_ & H & _).
    specialize (H status info message).
    destruct (models.UpdateJob env jobID status info message w) as [r w'].
    simpl. tauto.
  - destruct (GetJobByID_ok_inv _ _ _ _ _ Hg) as (_ & (r0 & Hfind & ->) & ->).
    rewrite (UpdateJob_stored _ _ _ _ _ _ _ Hg).
    set (job1 := job_update status info message (now w) (gorm.to_row r0)).
    destruct (job_update_fields status info message (now w) (gorm.to_row r0))
      as (Jpk & Jid & Jdel & _). fold job1 in Jpk, Jid, Jdel.
    destruct (to_row_fields r0) as (Tpk & Tid & _ & _ & _ & Tdel & _).
    pose proof (found_id_is _ _ _ Hfind) as Hr0.
    pose proof (proj1 (List.find_some _ _ Hfind)) as Hin.
    unfold gorm.Save, bind, ret, record_call.
    destruct (gorm.BeforeSave env job1) as [job2 [e|]] eqn:Hb; [now left|].
    destruct (BeforeSave_fields _ _ _ Hb) as (Bpk & Bid & Bdel & _).
    destruct (db_fault env OpSave) as [e|]; [now left|].
    destruct (Job.Pk job2 =? 0) eqn:Hz.
    + left. unfold gorm.insert, bind, ret, time_Now, get_db. cbn [db now calls logs].
      replace (List.existsb (fun r => String.eqb (Job.ID r) (Job.ID job2)) (db w))
        with true; [reflexivity|].
      symmetry. apply List.existsb_exists. exists r0. split; [exact Hin|].
      apply String.eqb_eq. congruence.
    + right. exists r0, job2. split; [exact Hfind|]. split; [exact Hb|].
      unfold time_Now, get_db, put_db. cbn [db now calls logs].
      destruct (with_UpdatedAt_fields (now w) job2) as (Upk & _).
      assert (Hpk : Job.Pk (Job.with_UpdatedAt (now w) job2) = Job.Pk r0) by congruence.
      rewrite Hpk.
      replace (List.existsb (fun r => gorm.id_is jobID r && (Job.Pk r =? Job.Pk r0)) (db w))
        with true; [reflexivity|].
      symmetry. apply List.existsb_exists. exists r0. split; [exact Hin|].
      rewrite Hr0. simpl. apply Z.eqb_refl.
Qed.

Lemma find_app_some {A} (p : A -> bool) (l l' : list A) (x : A) :
  List.find p l = Some x -> List.find p (l ++ l') = Some x.
Proof.
  induction l as [|a l IH]; simpl; [discriminate|]. destruct (p a); auto.
Qed.

Lemma find_same_id (a b : string) (rows : list Job.t) (r0 r2 : Job.t) :
  List.find (gorm.id_is a) rows = Some r0 ->
  List.find (gorm.id_is b) rows = Some r2 ->
  gorm.id_is b r0 = true ->
  r2 = r0.
Proof.
  intros Ha Hb Hr0.
  destruct (id_is_inv _ _ (found_id_is _ _ _ Ha)) as [Hida _].
  destruct (id_is_inv _ _ Hr0) as [Hidb _].
  assert (a = b) by congruence. subst b. congruence.
Qed.

(** One step keeps the first row under an id in place, keeps a terminal
    status, and keeps a set [ActivatedAt] set. *)
Lemma step_first_row (jobID : string) (u : update) (w : World) (r0 : Job.t) :
  first_row jobID w = Some r0 ->
  exists r1,
    first_row jobID (apply_update w u) = Some r1
    /\ (schema.IsImmutableJobStatus (Job.Status r0) = true ->
        Job.Status r1 = Job.Status r0)
    /\ (NullTime.Valid (Job.ActivatedAt r0) = true ->
        NullTime.Valid (Job.ActivatedAt r1) = true).
Proof.
  unfold first_row. intros Hfind.
  pose proof (found_id_is _ _ _ Hfind) as Hr0.
  destruct u as [env id2 m s|env id2 st info msg|env conf id2 tmpl|t]; cbn [apply_update].
  - destruct (UpdateJobStatus_db env id2 m s w) as [->|(r2 & Hf2 & ->)]; [eauto|].
    set (job1 := status_update m s (gorm.to_row r2)).
    assert (Hj1 : gorm.id_is id2 job1 = true).
    { unfold job1. rewrite status_update_id_is, id_is_to_row.
      exact (found_id_is _ _ _ Hf2). }
    rewrite find_map_keep.
    + rewrite Hfind. cbn [option_map]. eexists. split; [reflexivity|].
      destruct (gorm.id_is id2 r0) eqn:H20; [|auto].
      pose proof (find_same_id _ _ _ _ _ Hfind Hf2 H20) as ->.
      destruct (status_update_fields m s (gorm.to_row r0)) as (Hs & _ & Ha).
      destruct (to_row_fields r0) as (_ & _ & Hst & _ & Hact & _).
      fold job1 in Hs, Ha. rewrite Hst in Hs. rewrite Hact in Ha.
      unfold gorm.assign_nonzero. cbn [Job.Status Job.ActivatedAt]. split.
      * intros Ht. rewrite Hs, Ht, orb_true_r. apply pick_str_same.
      * intros Hv. rewrite Ha. now destruct (NullTime.isZero (Job.ActivatedAt r0)).
    + intros r. destruct (gorm.id_is id2 r) eqn:Hr; [|reflexivity].
      pose proof (assign_nonzero_id_is id2 (now w) job1 r Hj1 Hr) as Hnew.
      destruct (id_is_inv _ _ Hnew) as [Hn1 Hn2].
      destruct (id_is_inv _ _ Hr) as [Hr1 Hr2].
      unfold gorm.id_is, gorm.live. now rewrite Hn1, Hn2, Hr1, Hr2.
  - destruct (UpdateJob_db env id2 st info msg w) as [->|(r2 & job2 & Hf2 & Hb & ->)];
      [eauto|].
    set (saved := gorm.to_row (Job.with_UpdatedAt (now w) job2)).
    destruct (BeforeSave_fields _ _ _ Hb) as (_ & Bid & Bdel & Bact).
    destruct (BeforeSave_content _ _ _ Hb) as (Bst & _).
    destruct (job_update_fields st info msg (now w) (gorm.to_row r2))
      as (_ & Jid & Jdel & _ & Jact).
    destruct (job_update_content st info msg (now w) (gorm.to_row r2)) as (Jst & _).
    destruct (to_row_fields r2) as (_ & Tid & Tst & _ & Tact & Tdel & _).
    destruct (with_UpdatedAt_fields (now w) job2) as (_ & Uid & Udel & Uact).
    destruct (saved_row_content (now w) job2) as (Sst & _).
    destruct (to_row_fields (Job.with_UpdatedAt (now w) job2))
      as (_ & Sid & _ & _ & Sact & Sdel & _).
    fold saved in Sst, Sid, Sact, Sdel.
    pose proof (found_id_is _ _ _ Hf2) as Hr2.
    destruct (id_is_inv _ _ Hr2) as [Hr2id Hr2del].
    assert (Hsaved : gorm.id_is id2 saved = true) by (apply id_is_intro; congruence).
    rewrite find_map_keep.
    + rewrite Hfind. cbn [option_map]. eexists. split; [reflexivity|].
      destruct (gorm.id_is id2 r0) eqn:H20; [|auto].
      pose proof (find_same_id _ _ _ _ _ Hfind Hf2 H20) as ->.
      rewrite Z.eqb_refl. cbn [andb]. split.
      * intros Ht. rewrite Sst, Bst, Jst, Tst, Ht, orb_true_r. reflexivity.
      * intros Hv. rewrite Sact, Uact, Bact, Jact, Tact.
        now destruct (String.eqb st schema.StatusJobRunning).
    + intros r. destruct (gorm.id_is id2 r && (Job.Pk r =? Job.Pk r2)) eqn:Hr;
        [|reflexivity].
      apply andb_prop in Hr. destruct Hr as [Hr _].
      destruct (id_is_inv _ _ Hsaved) as [Hn1 Hn2].
      destruct (id_is_inv _ _ Hr) as [Hr1 Hr2'].
      unfold gorm.id_is, gorm.live. now rewrite Hn1, Hn2, Hr1, Hr2'.
  - destruct (controller.CreateJob env conf id2 tmpl w) as [[c [id [e|]]] w'] eqn:Hc;
      cbn [snd].
    + apply CreateJob_failure_frame in Hc. destruct Hc as [-> _]. eauto.
    + apply CreateJob_row in Hc. destruct Hc as (_ & _ & row & -> & _).
      exists r0. split; [now apply find_app_some|auto].
  - cbn [db]. eauto.
Qed.

Lemma history_first_row (jobID : string) (history : list update) :
  forall (w : World) (r0 : Job.t),
    first_row jobID w = Some r0 ->
    exists r1,
      first_row jobID (List.fold_left apply_update history w) = Some r1
      /\ (schema.IsImmutableJobStatus (Job.Status r0) = true ->
          Job.Status r1 = Job.Status r0)
      /\ (NullTime.Valid (Job.ActivatedAt r0) = true ->
          NullTime.Valid (Job.ActivatedAt r1) = true).
Proof.
  induction history as [|u history IH]; intros w r0 H0; cbn [List.fold_left].
  - eauto.
  - destruct (step_first_row jobID u w r0 H0) as (r1 & H1 & Hs1 & Ha1).
    destruct (IH _ _ H1) as (r2 & H2 & Hs2 & Ha2).
    exists r2. split; [exact H2|]. split.
    + intros Ht. rewrite <- (Hs1 Ht). apply Hs2. now rewrite (Hs1 Ht).
    + auto.
Qed.

(** X6.  A terminal status is final.  Once the row read under an id has a terminal
    status, it has that status after any history of [UpdateJobStatus],
    [UpdateJob] and [CreateJob] calls, on this or any other job, with any
    arguments, at any times, and whatever fails along the way. *)
Theorem terminal_status_is_final (jobID : string) (r0 : Job.t) (w : World)
    (history : list update) :
  first_row jobID w = Some r0 ->
  schema.IsImmutableJobStatus (Job.Status r0) = true ->
  option_map Job.Status (first_row jobID (List.fold_left apply_update history w))
  = Some (Job.Status r0).
Proof.
  intros H0 Ht. destruct (history_first_row jobID history w r0 H0) as (r1 & H1 & Hs & _).
  rewrite H1. cbn [option_map]. now rewrite (Hs Ht).
Qed.

Lemma terminal_status_is_final_witness :
  let w := sample.world
             [sample.row 1 "job-1" schema.StatusJobFailed "oom" NullTime.zero;
              sample.row 2 "job-2" schema.StatusJobRunning "" NullTime.zero] 100 in
  let history :=
    [ByUpdateJobStatus sample.env_ok "job-1" "retry" schema.StatusJobRunning;
     ClockReads 200;
     ByUpdateJob sample.env_ok "job-1" schema.StatusJobSucceeded (Some "{}") "";
     ByUpdateJob sample.env_ok "job-2" schema.StatusJobSucceeded None "";
     ByCreateJob sample.env_ok sample.conf1 "job-3" ""] in
  option_map Job.Status (first_row "job-1" (List.fold_left apply_update history w))
  = Some schema.StatusJobFailed.
Proof.
  intros w history.
  exact (terminal_status_is_final "job-1"
           (sample.row 1 "job-1" schema.StatusJobFailed "oom" NullTime.zero)
           w history eq_refl eq_refl).
Defined.

(** X7.  A set activation time stays set.  Once the row read under an id has a
    valid [ActivatedAt], it has a valid one after any history of
    [UpdateJobStatus], [UpdateJob] and [CreateJob] calls, whatever fails along
    the way; the row itself is never lost. *)
Theorem ActivatedAt_stays_set (jobID : string) (r0 : Job.t) (w : World)
    (history : list update) :
  first_row jobID w = Some r0 ->
  NullTime.Valid (Job.ActivatedAt r0) = true ->
  exists r1,
    first_row jobID (List.fold_left apply_update history w) = Some r1
    /\ NullTime.Valid (Job.ActivatedAt r1) = true.
Proof.
  intros H0 Hv. destruct (history_first_row jobID history w r0 H0) as (r1 & H1 & _ & Ha).
  eauto.
Qed.

Lemma ActivatedAt_stays_set_witness :
  let w := sample.world
             [sample.row 1 "job-1" schema.StatusJobRunning "" (NullTime.mk 90 true)] 100 in
  let history :=
    [ByUpdateJobStatus sample.env_ok "job-1" "" schema.StatusJobPending;
     ByUpdateJob sample.env_ok "job-1" schema.StatusJobFailed None "oom"] in
  exists r1,
    first_row "job-1" (List.fold_left apply_update history w) = Some r1
    /\ NullTime.Valid (Job.ActivatedAt r1) = true.
Proof.
  intros w history.
  exact (ActivatedAt_stays_set "job-1"
           (sample.row 1 "job-1" schema.StatusJobRunning "" (NullTime.mk 90 true))
           w history eq_refl eq_refl).
Defined.

(** ** The job-info view *)

(** X22.  When the job is read and its queue, cluster and runtime handle are
    found but the job-info view cannot be built, [DeleteJob] and, for a job
    that has not finished, [StopJob] return the error of the view, call
    neither the backend nor the repository, and, unlike every other failure
    of theirs, log nothing. *)
Theorem view_failure_is_returned_unlogged (env : Env) (ctx : RequestContext.t)
    (jobID : string) (job : Job.t) (queue : Queue.t) (cluster : ClusterInfo.t)
    (svc : RuntimeService.t) (e : error) (w : World) :
  models.GetJobByID env jobID w = ((job, None), w) ->
  GetQueueByID env (Job.QueueID job) = (queue, None) ->
  GetClusterById env (Queue.ClusterId queue) = (cluster, None) ->
  GetOrCreateRuntime env cluster = inl svc ->
  NewJobInfo env job = inr e ->
  controller.DeleteJob env ctx jobID w = ((ctx, Some e), w)
  /\ (schema.IsImmutableJobStatus (Job.Status job) = false ->
      controller.StopJob env ctx jobID w = ((ctx, Some e), w)).
Proof.
  intros Hg Hq Hc Hr Hn.
  assert (Hres : controller.getRuntimeByQueue env ctx (Job.QueueID job) w
                 = ((ctx, inl svc), w)).
  { unfold controller.getRuntimeByQueue. rewrite Hq, Hc, Hr. reflexivity. }
  split.
  - unfold controller.DeleteJob, controller.CheckPermission, bind at 1. rewrite Hg.
    unfold bind at 1. rewrite Hres, Hn. reflexivity.
  - intros Ht.
    unfold controller.StopJob, controller.CheckPermission, bind at 1. rewrite Hg, Ht.
    unfold bind at 1. rewrite Hres, Hn. reflexivity.
Qed.

Lemma view_failure_is_returned_unlogged_witness :
  let env := sample.without_view sample.env_ok in
  let w := sample.world
             [sample.row 1 "job-1" schema.StatusJobRunning "" NullTime.zero] 100 in
  controller.DeleteJob env sample.ctx0 "job-1" w
  = ((sample.ctx0, Some (errors_New "unknown job type")), w)
  /\ controller.StopJob env sample.ctx0 "job-1" w
     = ((sample.ctx0, Some (errors_New "unknown job type")), w).
Proof.
  intros env w.
  destruct (view_failure_is_returned_unlogged env sample.ctx0 "job-1"
              (sample.row 1 "job-1" schema.StatusJobRunning "" NullTime.zero)
              (Queue.mk "default" "c1" "ns1") (ClusterInfo.mk "c1") sample.svc_ok
              (errors_New "unknown job type") w eq_refl eq_refl eq_refl eq_refl eq_refl)
    as [Hd Hs].
  split; [exact Hd|exact (Hs eq_refl)].
Defined.
